(** * Scoring engine of the geopolitical risk dashboard (main.py)

    A shallow embedding of the scoring functions of [main.py]: the sigmoid
    Normalizer, the per-contract baseline tracker and Polymarket aggregator,
    the regional and global composites, the convergence classifier and the
    acceptance step of the Google Trends refresh loop.

    Numbers.  Python floats are read as real numbers ([R]): [+], [-], [*],
    [/], [math.exp], [max], [min], [abs] and the comparisons are the exact
    real operations, and [round(x, n)] is rounding to [n] decimals, ties to
    even.  Rounding error and NaN of IEEE doubles are outside this model;
    the one call that can raise on overflow, [math.exp], is modelled with
    its error in [Float.math_exp].  Python ints that count things are [nat]
    or [Z]. *)

From Stdlib Require Import Reals Lra Lia ZArith List String Bool Arith.
Import ListNotations.
Open Scope R_scope.

(** ** Python numerics *)

Module Py.

(** Comparisons as booleans, the way a Python condition uses them. *)
Definition Rleb (x y : R) : bool := if Rle_dec x y then true else false.
Definition Rltb (x y : R) : bool := if Rlt_dec x y then true else false.
Definition Reqb (x y : R) : bool := if Req_dec_T x y then true else false.

(** Nearest integer, ties to the even neighbour. *)
Definition round_half_even (x : R) : Z :=
  let f := Zfloor x in
  let d := x - IZR f in
  if Rlt_dec d (1 / 2) then f
  else if Rlt_dec (1 / 2) d then (f + 1)%Z
  else if Z.even f then f else (f + 1)%Z.

(** [round(x, ndigits)]. *)
Definition round (x : R) (ndigits : nat) : R :=
  IZR (round_half_even (x * 10 ^ ndigits)) / 10 ^ ndigits.

(** [sum(xs)]: a left fold from 0. *)
Definition sum (xs : list R) : R := fold_left Rplus xs 0.

(** [np.mean] and [np.std] (population standard deviation). *)
Definition np_mean (xs : list R) : R := sum xs / INR (List.length xs).
Definition np_std (xs : list R) : R :=
  sqrt (np_mean (map (fun x => (x - np_mean xs) ^ 2) xs)).

(** [d.get(k)] on a dict kept as an association list in insertion order. *)
Fixpoint get {V : Type} (k : string) (d : list (string * V)) : option V :=
  match d with
  | [] => None
  | (k', v) :: d' => if String.eqb k k' then Some v else get k d'
  end.

(** [s[:n]]. *)
Definition prefix (n : nat) (s : string) : string := substring 0 n s.

End Py.

(** ** Normalizer *)

(** [z_to_centred_score(z)]:
    [round(max(0.1, min(99.9, 100 / (1 + math.exp(-0.65 * z)))), 1)]. *)
Definition z_to_centred_score (z : R) : R :=
  Py.round (Rmax 0.1 (Rmin 99.9 (100 / (1 + exp (-0.65 * z))))) 1.

(** The Normalizer as section 4.1 of the specification words it:
    [round(clip(100 / (1 + e^(-k z)), 0.1, 99.9), 1)] with [k = 0.65]. *)
Module NormalizerSpec.
Definition k : R := 0.65.
Definition clip (x lo hi : R) : R :=
  if Rlt_dec x lo then lo else if Rlt_dec hi x then hi else x.
Definition Normalizer (z : R) : R :=
  Py.round (clip (100 / (1 + exp (- (k * z)))) 0.1 99.9) 1.
End NormalizerSpec.

(** ** The error of [math.exp] *)

Module Float.

(** Every double is below 2^1024. *)
Definition limit : R := IZR (2 ^ 1024).

(** [math.exp(x)]; [None] stands for the [OverflowError] it raises when
    e^x is beyond the range of a double. *)
Definition math_exp (x : R) : option R :=
  if Rle_dec limit (exp x) then None else Some (exp x).

End Float.

(** [z_to_centred_score(z)] with the error of [math.exp] kept: [None]
    when the call raises.  [z_to_centred_score] above is its value where it
    returns. *)
Definition z_to_centred_score_raising (z : R) : option R :=
  match Float.math_exp (-0.65 * z) with
  | None => None
  | Some e => Some (Py.round (Rmax 0.1 (Rmin 99.9 (100 / (1 + e)))) 1)
  end.

(** ** Configuration *)

Definition GLOBAL_REGIONAL_WEIGHT : R := 0.85.
Definition GLOBAL_PM_WEIGHT : R := 0.15.
Definition PM_MATURITY_THRESHOLD : nat := 50.
Definition PM_STD_FLOOR : R := 0.01.

(** The keys of the [REGIONS] table, in its order. *)
Definition REGIONS : list string := ["europe"; "middle_east"; "asia_pacific"]%string.

(** [get_score_colour(s)]. *)
Definition get_score_colour (s : R) : string :=
  if Py.Rltb s 15 then "#34d399"
  else if Py.Rltb s 30 then "#6ee7b7"
  else if Py.Rltb s 42 then "#a3b8a0"
  else if Py.Rltb s 58 then "#b0b0b0"
  else if Py.Rltb s 70 then "#fbbf24"
  else if Py.Rltb s 85 then "#fb923c"
  else "#f87171".

(** ** Convergence classifier *)

Module Convergence.

Definition names : list (string * string) :=
  [("polymarket", "Polymarket"); ("markets", "Markets");
   ("acled", "ACLED"); ("gdelt", "GDELT"); ("gtrends", "Google Trends");
   ("gt_panic", "Panic Search"); ("gt_global", "Global Search");
   ("cloudflare", "Internet")]%string.

(** [names.get(k, k)]. *)
Definition display_name (k : string) : string :=
  match Py.get k names with Some n => n | None => k end.

(** [{k: v for k, v in scores.items() if v is not None}]. *)
Fixpoint active_of (scores : list (string * option R)) : list (string * R) :=
  match scores with
  | [] => []
  | (k, Some v) :: rest => (k, v) :: active_of rest
  | (_, None) :: rest => active_of rest
  end.

(** [[names.get(k, k) for k, v in active.items() if v >= 58]]. *)
Definition elevated (active : list (string * R)) : list string :=
  map (fun kv => display_name (fst kv))
      (filter (fun kv => Py.Rleb 58 (snd kv)) active).

(** [[names.get(k, k) for k, v in active.items() if v <= 42]]. *)
Definition depressed (active : list (string * R)) : list string :=
  map (fun kv => display_name (fst kv))
      (filter (fun kv => Py.Rleb (snd kv) 42) active).

Definition join (l : list string) : string := String.concat " + " l.

End Convergence.

(** [get_convergence_status(scores)]: label, detail and colour. *)
Definition get_convergence_status (scores : list (string * option R))
  : string * string * string :=
  let active := Convergence.active_of scores in
  match active with
  | [] => ("No Data"%string, EmptyString, "#888"%string)
  | _ :: _ =>
    let elev := Convergence.elevated active in
    let depr := Convergence.depressed active in
    let ne := List.length elev in
    let nd := List.length depr in
    if (ne =? 0)%nat && (nd =? 0)%nat then
      ("Quiet", "All signals within normal range", "#b0b0b0")%string
    else if (3 <=? ne)%nat then
      ("Broad Escalation", Convergence.join elev ++ " elevated", "#f87171")%string
    else if (3 <=? nd)%nat then
      ("Broad De-escalation", Convergence.join depr ++ " below baseline", "#34d399")%string
    else if (2 <=? ne)%nat && (nd =? 0)%nat then
      ("Confirming", Convergence.join elev ++ " elevated", "#fb923c")%string
    else if (2 <=? nd)%nat && (ne =? 0)%nat then
      ("Calming", Convergence.join depr ++ " below baseline", "#6ee7b7")%string
    else if (1 <=? ne)%nat && (1 <=? nd)%nat then
      ("Mixed Signals",
       Convergence.join elev ++ " elevated, " ++ Convergence.join depr ++ " below",
       "#fbbf24")%string
    else if (ne =? 1)%nat then
      ("Early Signal", hd EmptyString elev ++ " elevated", "#fbbf24")%string
    else if (nd =? 1)%nat then
      ("Early Calm", hd EmptyString depr ++ " below baseline", "#6ee7b7")%string
    else ("Quiet", "All signals within normal range", "#b0b0b0")%string
  end.

(** The label alone: the first component of the result. *)
Definition convergence_label_of (scores : list (string * option R)) : string :=
  fst (fst (get_convergence_status scores)).

(** The decision table of section 4.5 of the specification, on the number of
    signals and of elevated and depressed ones, in the order it is written. *)
Module ConvergenceSpec.
(** The buckets: elevated at 58 and above, depressed at 42 and below. *)
Definition is_elevated (v : R) : bool := Py.Rleb 58 v.
Definition is_depressed (v : R) : bool := Py.Rleb v 42.

(** [None] when no row of the table applies. *)
Definition label (signals elevated depressed : nat) : option string :=
  if (signals =? 0)%nat then Some "No Data"%string
  else if (elevated =? 0)%nat && (depressed =? 0)%nat then Some "Quiet"%string
  else if (3 <=? elevated)%nat then Some "Broad Escalation"%string
  else if (3 <=? depressed)%nat then Some "Broad De-escalation"%string
  else if (2 <=? elevated)%nat && (depressed =? 0)%nat then Some "Confirming"%string
  else if (2 <=? depressed)%nat && (elevated =? 0)%nat then Some "Calming"%string
  else if (1 <=? elevated)%nat && (1 <=? depressed)%nat then Some "Mixed Signals"%string
  else if (elevated =? 1)%nat then Some "Early Signal"%string
  else if (depressed =? 1)%nat then Some "Early Calm"%string
  else None.

(** How many present signals satisfy a bucket test. *)
Fixpoint count (test : R -> bool) (scores : list (string * option R)) : nat :=
  match scores with
  | [] => 0
  | (_, Some v) :: rest => (if test v then 1 else 0) + count test rest
  | (_, None) :: rest => count test rest
  end.
End ConvergenceSpec.

(** ** Baseline tracker *)

(** A row of the [contract_snapshots] table as the query selects it;
    [row_risk_price] is [None] when the column is null. *)
Record snapshot_row := {
  row_question : string;
  row_risk_price : option R;
  row_recorded_at : string;
  row_contract_slug : string
}.

(** An element of [by_question[q]]: [{"rp": ..., "at": ..., "slug": ...}]. *)
Record price_record := { rp : R; at_ : string; slug : string }.

(** A baseline entry.  The display-only keys [sparkline] and
    [price_24h_ago], which need the wall clock and a date parser, are left
    out; no scoring function reads them. *)
Record baseline := {
  bl_mean : R;
  bl_std : R;
  bl_count : nat;
  bl_slug : string;
  bl_mature : bool
}.

Module Baselines.

(** [by_question[q].append(r)] on a [defaultdict(list)]. *)
Fixpoint append_to (q : string) (r : price_record)
         (d : list (string * list price_record))
  : list (string * list price_record) :=
  match d with
  | [] => [(q, [r])]
  | (k, rs) :: d' =>
    if String.eqb q k then (k, rs ++ [r]) :: d'
    else (k, rs) :: append_to q r d'
  end.

(** The loop [for row in all_rows: if q and rp is not None: ...]. *)
Definition by_question (all_rows : list snapshot_row)
  : list (string * list price_record) :=
  fold_left
    (fun d row =>
       match row_risk_price row with
       | Some p =>
         if String.eqb (row_question row) EmptyString then d
         else append_to (row_question row)
                {| rp := p; at_ := row_recorded_at row;
                   slug := row_contract_slug row |} d
       | None => d
       end)
    all_rows [].

(** The stored observations of the item [q]: the rows with that question
    and a price, in the order of the query. *)
Fixpoint observations (q : string) (all_rows : list snapshot_row)
  : list price_record :=
  match all_rows with
  | [] => []
  | row :: rest =>
    match row_risk_price row with
    | Some p =>
      if String.eqb q (row_question row)
      then {| rp := p; at_ := row_recorded_at row;
              slug := row_contract_slug row |} :: observations q rest
      else observations q rest
    | None => observations q rest
    end
  end.

(** The body of the loop [for q, records in by_question.items()]. *)
Definition entry (records : list price_record) : baseline :=
  let n := List.length records in
  let prices := map rp records in
  let m := Py.np_mean prices in
  let s := Py.np_std prices in
  {| bl_mean := Py.round m 4;
     bl_std := Py.round s 4;
     bl_count := n;
     bl_slug := match records with r :: _ => slug r | [] => EmptyString end;
     bl_mature := if (n <? PM_MATURITY_THRESHOLD)%nat then false else true |}.

End Baselines.

(** [fetch_contract_baselines()], with the rows the paged query returns as
    its argument; a missing database or an exception is the empty list of
    rows, and all three give the empty dict. *)
Definition fetch_contract_baselines (all_rows : list snapshot_row)
  : list (string * baseline) :=
  match all_rows with
  | [] => []
  | _ :: _ =>
    map (fun qr => (fst qr, Baselines.entry (snd qr)))
        (Baselines.by_question all_rows)
  end.

(** ** Signal aggregator (Polymarket) *)

(** A contract as [calculate_polymarket_score_normalised] reads it. *)
Record contract := {
  question : string;
  yes_price : R;
  risk_price : R;
  volume : R;
  is_deescalation : bool
}.

(** An element of the local list [mature]:
    [{"contract": m, "z": round(z, 3), "baseline": bl}]. *)
Record mature_item := {
  mi_contract : contract;
  mi_z : R;
  mi_baseline : baseline
}.

(** An element of [contract_zscores]. *)
Record zscore_row := {
  zr_q : string;
  zr_z : R;
  zr_rp : R;
  zr_mean : R;
  zr_std : R;
  zr_n : nat;
  zr_contrib_pct : R;
  zr_contrib_dir : string
}.

Record pm_stats := {
  num_contracts : nat;
  total_volume : R;
  highest_prob : option contract;
  avg_risk_pct : R;
  threat_count : nat;
  deesc_count : nat;
  mature_count : nat;
  immature_count : nat;
  method : string;
  agg_z : R;
  contract_zscores : list zscore_row
}.

Module Polymarket.

(** [bl is None or not bl.get("mature", False)], negated. *)
Definition is_mature (baselines : list (string * baseline)) (m : contract)
  : bool :=
  match Py.get (question m) baselines with
  | Some bl => bl_mature bl
  | None => false
  end.

(** The per-item z-score before rounding:
    [(m["risk_price"] - bl["mean"]) / max(bl["std"], PM_STD_FLOOR)
     if bl["std"] > 0.001 else 0.0]. *)
Definition item_z (m : contract) (bl : baseline) : R :=
  if Py.Rltb 0.001 (bl_std bl)
  then (risk_price m - bl_mean bl) / Rmax (bl_std bl) PM_STD_FLOOR
  else 0.0.

(** The loop [for m in contracts] that fills [mature] and
    [immature_slugs]. *)
Fixpoint classify (contracts : list contract)
         (baselines : list (string * baseline))
  : list mature_item * list string :=
  match contracts with
  | [] => ([], [])
  | m :: rest =>
    let (mature, immature_slugs) := classify rest baselines in
    let q := question m in
    match Py.get q baselines with
    | Some bl =>
      if bl_mature bl
      then ({| mi_contract := m; mi_z := Py.round (item_z m bl) 3;
               mi_baseline := bl |} :: mature, immature_slugs)
      else (mature, Py.prefix 40 q :: immature_slugs)
    | None => (mature, Py.prefix 40 q :: immature_slugs)
    end
  end.

(** [sum(m["contract"]["volume"] for m in mature)]. *)
Definition total_vol (mature : list mature_item) : R :=
  Py.sum (map (fun m => volume (mi_contract m)) mature).

(** The local [agg_z]. *)
Definition aggregate_z (mature : list mature_item) : R :=
  if Py.Rltb 0 (total_vol mature)
  then Py.sum (map (fun m => mi_z m * volume (mi_contract m)) mature)
       / total_vol mature
  else Py.np_mean (map mi_z mature).

(** The local [ar]. *)
Definition average_risk (mature : list mature_item) : R :=
  if Py.Rltb 0 (total_vol mature)
  then Py.sum (map (fun m => risk_price (mi_contract m)
                             * volume (mi_contract m)) mature)
       / total_vol mature
  else Py.np_mean (map (fun m => risk_price (mi_contract m)) mature).

(** [max(contracts, key=lambda x: x["yes_price"])]: the first maximum. *)
Fixpoint max_yes_price (best : contract) (rest : list contract) : contract :=
  match rest with
  | [] => best
  | c :: rest' =>
    max_yes_price (if Py.Rltb (yes_price best) (yes_price c) then c else best)
                  rest'
  end.

(** [sum(abs(m["z"] * m["contract"]["volume"]) for m in mature)]. *)
Definition total_abs_contrib (mature : list mature_item) : R :=
  Py.sum (map (fun m => Rabs (mi_z m * volume (mi_contract m))) mature).

Definition zscore_row_of (tac : R) (m : mature_item) : zscore_row :=
  let contrib_pct :=
    if Py.Rltb 0 tac
    then Rabs (mi_z m * volume (mi_contract m)) / tac * 100
    else 0 in
  {| zr_q := Py.prefix 60 (question (mi_contract m));
     zr_z := mi_z m;
     zr_rp := Py.round (risk_price (mi_contract m)) 4;
     zr_mean := bl_mean (mi_baseline m);
     zr_std := bl_std (mi_baseline m);
     zr_n := bl_count (mi_baseline m);
     zr_contrib_pct := Py.round contrib_pct 1;
     zr_contrib_dir :=
       if Py.Rltb 0 (mi_z m) then "up"
       else if Py.Rltb (mi_z m) 0 then "down" else "neutral" |}.

End Polymarket.

(** [calculate_polymarket_score_normalised(contracts, baselines)]. *)
Definition calculate_polymarket_score_normalised
           (contracts : list contract) (baselines : list (string * baseline))
  : R * pm_stats :=
  match contracts with
  | [] =>
    (50.0, {| num_contracts := 0; total_volume := 0; highest_prob := None;
              avg_risk_pct := 50.0; threat_count := 0; deesc_count := 0;
              mature_count := 0; immature_count := 0; method := "z-score";
              agg_z := 0.0; contract_zscores := [] |})
  | c0 :: others =>
    let (mature, immature_slugs) := Polymarket.classify contracts baselines in
    let tc := List.length (filter (fun m => negb (is_deescalation m)) contracts) in
    let dc := List.length (filter is_deescalation contracts) in
    let tv := Py.sum (map volume contracts) in
    let hp := Some (Polymarket.max_yes_price c0 others) in
    match mature with
    | [] =>
      (50.0, {| num_contracts := List.length contracts; total_volume := tv;
                highest_prob := hp; avg_risk_pct := 50.0;
                threat_count := tc; deesc_count := dc;
                mature_count := 0; immature_count := List.length contracts;
                method := "z-score"; agg_z := 0.0; contract_zscores := [] |})
    | _ :: _ =>
      let az := Polymarket.aggregate_z mature in
      let score := z_to_centred_score az in
      let ar := Polymarket.average_risk mature in
      let tac := Polymarket.total_abs_contrib mature in
      (Py.round score 1,
       {| num_contracts := List.length contracts; total_volume := tv;
          highest_prob := hp; avg_risk_pct := Py.round (ar * 100) 1;
          threat_count := tc; deesc_count := dc;
          mature_count := List.length mature;
          immature_count := List.length immature_slugs;
          method := "z-score"; agg_z := Py.round az 3;
          contract_zscores := map (Polymarket.zscore_row_of tac) mature |})
    end
  end.

(** ** Composite engine *)

Module Composite.

(** [weighted.append((score, w))] under [if score is not None]. *)
Definition entry (score : option R) (w : R) : list (R * R) :=
  match score with Some s => [(s, w)] | None => [] end.

(** The list [weighted] of (score, weight) pairs. *)
Definition weighted (pm_score mkt_score gt_panic_score : option R)
  : list (R * R) :=
  entry pm_score 0.375 ++ entry mkt_score 0.375 ++ entry gt_panic_score 0.25.

(** [sum(w for _, w in weighted)]. *)
Definition total_w (wl : list (R * R)) : R := Py.sum (map snd wl).

(** The weight a pair is blended with: [w / total_w]. *)
Definition applied_weights (wl : list (R * R)) : list R :=
  map (fun sw => snd sw / total_w wl) wl.

(** [sum(s * w / total_w for s, w in weighted)]. *)
Definition blend (wl : list (R * R)) : R :=
  Py.sum (map (fun sw => fst sw * snd sw / total_w wl) wl).

End Composite.

(** [calculate_regional_composite(pm_score, mkt_score, gt_panic_score,
    gdelt_score, gt_global_score, cloudflare_score)]; the last three are
    accepted and not read. *)
Definition calculate_regional_composite
           (pm_score mkt_score gt_panic_score
            gdelt_score gt_global_score cloudflare_score : option R) : R :=
  match Composite.weighted pm_score mkt_score gt_panic_score with
  | [] => 50.0
  | (_ :: _) as wl => Py.round (Composite.blend wl) 1
  end.

(** A per-region record of a source that carries a ["score"] key
    ([None]: the key is absent; the producers store a number whenever they
    store the key).  Its display payload ([stats], [tickers]) is passed
    through untouched by the composite and is left out. *)
Record scored_region := { score : option R }.

(** A per-region record of the Google Trends state; each key may be absent. *)
Record gtrends_region := {
  panic_score : option R;
  global_score : option R;
  l1_count : option nat;
  l2_count : option nat
}.

(** An element of the result of [calculate_regional_composites]. *)
Record regional_composite := {
  composite : R;
  colour : string;
  signals : list (string * R);
  convergence_label : string;
  convergence_detail : string;
  convergence_colour : string
}.

Module Regional.

(** [x if x is not None else 50.0]. *)
Definition or_50 (x : option R) : R :=
  match x with Some v => v | None => 50.0 end.

(** [arg or {}] for an optional dict argument. *)
Definition or_empty {V : Type} (d : option (list (string * V)))
  : list (string * V) :=
  match d with Some l => l | None => [] end.

(** The locals [ps] and [ms]: [reg.get(rk, {}).get("score", 50.0)]. *)
Definition score_or_50 (d : list (string * scored_region)) (rk : string) : R :=
  match Py.get rk d with
  | Some r => match score r with Some s => s | None => 50.0 end
  | None => 50.0
  end.

(** The locals [gs] and [cfs]: [reg.get(rk, {}).get("score", None)]. *)
Definition score_or_none (d : list (string * scored_region)) (rk : string)
  : option R :=
  match Py.get rk d with Some r => score r | None => None end.

(** The local [gt_panic]: [gtrends_reg.get(rk, {}).get("panic_score", None)]. *)
Definition gt_panic_of (d : list (string * gtrends_region)) (rk : string)
  : option R :=
  match Py.get rk d with Some r => panic_score r | None => None end.

Definition gt_global_of (d : list (string * gtrends_region)) (rk : string)
  : option R :=
  match Py.get rk d with Some r => global_score r | None => None end.

(** The dict [scored_sigs] handed to the convergence classifier. *)
Definition scored_sigs (ps ms : R) (gt_panic : option R)
  : list (string * option R) :=
  [("polymarket", Some ps); ("markets", Some ms);
   ("gt_panic", Some (or_50 gt_panic))]%string.

(** The dict [sigs] that is published. *)
Definition sigs (ps ms : R) (gt_panic gs gt_global cfs : option R)
  : list (string * R) :=
  [("polymarket", ps); ("markets", ms);
   ("gt_panic", or_50 gt_panic); ("gdelt", or_50 gs);
   ("gt_global", or_50 gt_global); ("cloudflare", or_50 cfs)]%string.

(** The body of the loop [for rk in REGIONS]. *)
Definition region (pm_reg mkt_reg gdelt_reg : list (string * scored_region))
           (gtrends_reg : list (string * gtrends_region))
           (cloudflare_reg : list (string * scored_region))
           (rk : string) : regional_composite :=
  let ps := score_or_50 pm_reg rk in
  let ms := score_or_50 mkt_reg rk in
  let gs := score_or_none gdelt_reg rk in
  let gt_panic := gt_panic_of gtrends_reg rk in
  let gt_global := gt_global_of gtrends_reg rk in
  let cfs := score_or_none cloudflare_reg rk in
  let comp :=
    calculate_regional_composite (Some ps) (Some ms) gt_panic gs gt_global cfs in
  let '(cl, cd, cc) := get_convergence_status (scored_sigs ps ms gt_panic) in
  {| composite := comp; colour := get_score_colour comp;
     signals := sigs ps ms gt_panic gs gt_global cfs;
     convergence_label := cl; convergence_detail := cd;
     convergence_colour := cc |}.

End Regional.

(** [calculate_regional_composites(pm_reg, mkt_reg, gdelt_reg, gtrends_reg,
    cloudflare_reg)]; the last three default to [None]. *)
Definition calculate_regional_composites
           (pm_reg mkt_reg : list (string * scored_region))
           (gdelt_reg : option (list (string * scored_region)))
           (gtrends_reg : option (list (string * gtrends_region)))
           (cloudflare_reg : option (list (string * scored_region)))
  : list (string * regional_composite) :=
  map (fun rk =>
         (rk, Regional.region pm_reg mkt_reg (Regional.or_empty gdelt_reg)
                (Regional.or_empty gtrends_reg)
                (Regional.or_empty cloudflare_reg) rk))
      REGIONS.

Module Global.

(** The amplification factor [amp] of a region with composite [s]. *)
Definition amp (s : R) : R :=
  if Py.Rltb 58 s then 1.0 + (s - 58) * 0.02
  else if Py.Rltb s 42 then 1.0 + (42 - s) * 0.01
  else 1.0.

(** [bw = 1.0 / len(regional_composites)]. *)
Definition bw (rc : list (string * regional_composite)) : R :=
  1.0 / INR (List.length rc).

(** The dict [wts], in the order of [regional_composites]; the keys of a
    dict are distinct, so each assignment adds an entry. *)
Definition wts (rc : list (string * regional_composite)) : list (string * R) :=
  map (fun kd => (fst kd, bw rc * amp (composite (snd kd)))) rc.

(** The accumulator [tw] after the loop. *)
Definition tw (rc : list (string * regional_composite)) : R :=
  fold_left (fun acc kw => acc + snd kw) (wts rc) 0.

(** The renormalised weight [wts[r] / tw] of each region. *)
Definition normalised_weights (rc : list (string * regional_composite))
  : list (string * R) :=
  map (fun kw => (fst kw, snd kw / tw rc)) (wts rc).

(** The cross-region aggregate
    [rs = sum(regional_composites[r]["composite"] * (wts[r] / tw) ...)]. *)
Definition rs (rc : list (string * regional_composite)) : R :=
  Py.sum (map (fun kd => composite (snd kd)
                         * (bw rc * amp (composite (snd kd)) / tw rc)) rc).

End Global.

(** [calculate_dynamic_global_score(regional_composites, global_pm_score)]. *)
Definition calculate_dynamic_global_score
           (regional_composites : list (string * regional_composite))
           (global_pm_score : option R)
  : R * list (string * R) :=
  let gpm := match global_pm_score with Some g => g | None => 50.0 end in
  match regional_composites with
  | [] => (Py.round gpm 1, [])
  | _ :: _ =>
    let tw := Global.tw regional_composites in
    if Py.Reqb tw 0 then (50.0, [])
    else
      let rs := Global.rs regional_composites in
      let gs := rs * GLOBAL_REGIONAL_WEIGHT + gpm * GLOBAL_PM_WEIGHT in
      (Py.round (Rmax 0 (Rmin 100 gs)) 1,
       map (fun kw => (fst kw, Py.round (snd kw / tw) 3))
           (Global.wts regional_composites))
  end.

(** ** Refresh of the Google Trends state *)

(** The shared dict [_gtrends_state]. *)
Record gtrends_state := {
  regional : list (string * gtrends_region);
  last_updated : R;
  fetching : bool
}.

(** What [fetch_gtrends_regional()] does in one cycle: it returns a dict
    (empty when the client cannot be set up) or raises. *)
Inductive fetch_outcome :=
| Fetched (data : list (string * gtrends_region))
| Raised.

Module GTrends.

(** The initial value of [_gtrends_state]. *)
Definition initial : gtrends_state :=
  {| regional := []; last_updated := 0; fetching := false |}.

Definition or_0 (x : option nat) : nat :=
  match x with Some n => n | None => 0%nat end.

(** [sum(v.get("l1_count", 0) + v.get("l2_count", 0) for v in d.values())]. *)
Definition terms (d : list (string * gtrends_region)) : nat :=
  fold_left (fun acc kv => (acc + (or_0 (l1_count (snd kv))
                                   + or_0 (l2_count (snd kv))))%nat) d 0%nat.

(** The test [new_terms >= old_terms * 0.5 or old_terms == 0]. *)
Definition acceptable (new_terms old_terms : nat) : bool :=
  Py.Rleb (INR old_terms * 0.5) (INR new_terms) || (old_terms =? 0)%nat.

(** One turn of the loop body of [_gtrends_background_loop]; [now] is
    what [_time.time()] returns when the payload is stored. *)
Definition cycle (st : gtrends_state) (out : fetch_outcome) (now : R)
  : gtrends_state :=
  if fetching st then st
  else
    match out with
    | Raised =>
      {| regional := regional st; last_updated := last_updated st;
         fetching := false |}
    | Fetched [] =>
      {| regional := regional st; last_updated := last_updated st;
         fetching := false |}
    | Fetched ((_ :: _) as data) =>
      let new_terms := terms data in
      let old_terms :=
        match regional st with [] => 0%nat | _ :: _ => terms (regional st) end in
      if acceptable new_terms old_terms
      then {| regional := data; last_updated := now; fetching := false |}
      else {| regional := regional st; last_updated := last_updated st;
              fetching := false |}
    end.

End GTrends.

(** [_gtrends_background_loop()], run over the outcomes and clock readings
    of its successive turns. *)
Definition _gtrends_background_loop
           (st : gtrends_state) (turns : list (fetch_outcome * R))
  : gtrends_state :=
  fold_left (fun s t => GTrends.cycle s (fst t) (snd t)) turns st.
(** ** Sample inputs *)

(** A region whose composite stands at 80, and three such regions. *)
Definition region_at_80 : regional_composite :=
  {| composite := 80; colour := get_score_colour 80; signals := [];
     convergence_label := "Quiet"; convergence_detail := EmptyString;
     convergence_colour := "#b0b0b0" |}.

Definition three_at_80 : list (string * regional_composite) :=
  map (fun rk => (rk, region_at_80)) REGIONS.

(** A contract priced at 0.14 and two baselines for it: 60 observations
    with mean 0.10 and standard deviation 0.02, and 60 observations with
    the same mean and a near-zero standard deviation of 0.0005. *)
Definition sample_contract : contract :=
  {| question := "Q"; yes_price := 0.14; risk_price := 0.14;
     volume := 1000; is_deescalation := false |}.

Definition sample_baseline : baseline :=
  {| bl_mean := 0.10; bl_std := 0.02; bl_count := 60;
     bl_slug := "q"; bl_mature := true |}.

Definition flat_baseline : baseline :=
  {| bl_mean := 0.10; bl_std := 0.0005; bl_count := 60;
     bl_slug := "q"; bl_mature := true |}.

(** The items the aggregator builds from that contract and each baseline. *)
Definition sample_item : mature_item :=
  {| mi_contract := sample_contract;
     mi_z := Py.round (Polymarket.item_z sample_contract sample_baseline) 3;
     mi_baseline := sample_baseline |}.

Definition flat_item : mature_item :=
  {| mi_contract := sample_contract;
     mi_z := Py.round (Polymarket.item_z sample_contract flat_baseline) 3;
     mi_baseline := flat_baseline |}.

(** A single stored observation of that contract. *)
Definition one_row : list snapshot_row :=
  [ {| row_question := "Q"; row_risk_price := Some 0.14;
       row_recorded_at := "2026-01-01T00:00:00+00:00";
       row_contract_slug := "q" |} ].




(** ** Display helpers *)

(** [get_risk_level(s)]: the level name and its colour. *)
Definition get_risk_level (s : R) : string * string :=
  if Py.Rltb s 15 then ("UNUSUALLY CALM", "#34d399")%string
  else if Py.Rltb s 30 then ("CALM", "#6ee7b7")%string
  else if Py.Rltb s 42 then ("BELOW NORMAL", "#a3b8a0")%string
  else if Py.Rltb s 58 then ("NORMAL", "#b0b0b0")%string
  else if Py.Rltb s 70 then ("ELEVATED", "#fbbf24")%string
  else if Py.Rltb s 85 then ("HIGH", "#fb923c")%string
  else ("CRITICAL", "#f87171")%string.

(** ** GDELT scoring *)

(** The [stats] dict of a GDELT result, by the one key the scoring reads;
    [None] when the key is absent (as in [{"error": ...}]). *)
Record gdelt_stats := { tone_data_points : option nat }.

(** A per-region record of [fetch_gdelt_regional]; [gr_stats] is [None]
    when the key is absent. *)
Record gdelt_raw := { gr_z_score : option R; gr_stats : option gdelt_stats }.

Module Gdelt.

(** [stats.get("tone_data_points", 0) if isinstance(stats, dict) else 0];
    a [stats] that is no dict is [None]. *)
Definition data_points (stats : option gdelt_stats) : nat :=
  match stats with
  | Some st => match tone_data_points st with Some n => n | None => 0%nat end
  | None => 0%nat
  end.

(** [data.get("stats", {})]. *)
Definition stats_or_empty (data : gdelt_raw) : gdelt_stats :=
  match gr_stats data with
  | Some st => st
  | None => {| tone_data_points := None |}
  end.

End Gdelt.

(** [calculate_gdelt_score(z_score, stats)]. *)
Definition calculate_gdelt_score (z_score : option R) (stats : option gdelt_stats)
  : R :=
  match z_score with
  | None => 50.0
  | Some z =>
    let base := z_to_centred_score (- z) in
    let dp := Gdelt.data_points stats in
    let base :=
      if (dp <? 12)%nat
      then let d := 1 - INR dp / 12 in base * (1 - d) + 50 * d
      else base in
    Py.round base 1
  end.

(** [calculate_gdelt_regional_scores(regional_gdelt)]: the scored regions,
    then a neutral entry for each region of [REGIONS] not yet present. *)
Definition calculate_gdelt_regional_scores
           (regional_gdelt : list (string * gdelt_raw))
  : list (string * scored_region) :=
  let scores :=
    map (fun kd =>
           (fst kd,
            {| score := Some (calculate_gdelt_score
                                (gr_z_score (snd kd))
                                (Some (Gdelt.stats_or_empty (snd kd)))) |}))
        regional_gdelt in
  fold_left
    (fun sc rk =>
       match Py.get rk sc with
       | Some _ => sc
       | None => sc ++ [(rk, {| score := Some 50.0 |})]
       end)
    REGIONS scores.

(** A dict whose every entry carries a score between 0.1 and 99.9. *)
Definition scores_in_range (d : list (string * scored_region)) : Prop :=
  forall k r, Py.get k d = Some r ->
              exists s, score r = Some s /\ 0.1 <= s <= 99.9.

(** A dict that is empty or holds, for every region of [REGIONS], a score
    between 0.1 and 99.9. *)
Definition empty_or_complete (d : list (string * scored_region)) : Prop :=
  d = []
  \/ forall rk, In rk REGIONS ->
                exists s, Py.get rk d = Some {| score := Some s |}
                          /\ 0.1 <= s <= 99.9.

(** The shared dict [_gdelt_state]. *)
Record gdelt_state := {
  gdelt_regional : list (string * scored_region);
  gdelt_last_updated : R;
  gdelt_fetching : bool
}.

(** What [fetch_gdelt_regional()] does in one cycle. *)
Inductive gdelt_outcome :=
| GdeltFetched (raw : list (string * gdelt_raw))
| GdeltRaised.

Module GdeltLoop.

Definition initial : gdelt_state :=
  {| gdelt_regional := []; gdelt_last_updated := 0; gdelt_fetching := false |}.

(** One turn of the loop body of [_gdelt_background_loop]. *)
Definition cycle (st : gdelt_state) (out : gdelt_outcome) (now : R)
  : gdelt_state :=
  if gdelt_fetching st then st
  else
    match out with
    | GdeltFetched ((_ :: _) as raw) =>
      {| gdelt_regional := calculate_gdelt_regional_scores raw;
         gdelt_last_updated := now; gdelt_fetching := false |}
    | _ =>
      {| gdelt_regional := gdelt_regional st;
         gdelt_last_updated := gdelt_last_updated st;
         gdelt_fetching := false |}
    end.

End GdeltLoop.

(** [_gdelt_background_loop()], run over the outcomes and clock readings
    of its successive turns. *)
Definition _gdelt_background_loop
           (st : gdelt_state) (turns : list (gdelt_outcome * R)) : gdelt_state :=
  fold_left (fun s t => GdeltLoop.cycle s (fst t) (snd t)) turns st.

(** ** Google Trends scoring *)

Module Slice.

(** [l[-k:]]: the last [k] elements; the whole list when [k] is 0. *)
Definition last_n {A : Type} (k : nat) (l : list A) : list A :=
  if (k =? 0)%nat then l else skipn (List.length l - k) l.

(** [l[:-k]]: all but the last [k] elements; empty when [k] is 0. *)
Definition drop_last_n {A : Type} (k : nat) (l : list A) : list A :=
  if (k =? 0)%nat then [] else firstn (List.length l - k) l.

End Slice.

(** [_gtrends_z_score(values, recent_days)].  The test [b_std > 0] is on
    the exact standard deviation; numpy's rounding can leave a tiny
    positive value for a constant series of non-integers, which this model
    does not show. *)
Definition _gtrends_z_score (values : list R) (recent_days : nat) : option R :=
  if (List.length values <? 14)%nat then None
  else
    let recent := Slice.last_n recent_days values in
    let baseline := Slice.drop_last_n recent_days values in
    if (List.length baseline <? 7)%nat then None
    else
      let b_std := Py.np_std baseline in
      Some (if Py.Rltb 0 b_std
            then (Py.np_mean recent - Py.np_mean baseline) / b_std
            else 0.0).

Module GTrendsScore.

(** [np.mean(zs) if zs else 0.0]. *)
Definition avg (zs : list R) : R :=
  match zs with [] => 0.0 | _ :: _ => Py.np_mean zs end.

(** [len(zs) >= 2]. *)
Definition valid (zs : list R) : bool := (2 <=? List.length zs)%nat.

(** The local [combined_z]. *)
Definition combined_z (l1_zscores l2_zscores : list R) : R :=
  if valid l1_zscores && valid l2_zscores
  then avg l1_zscores * 0.3 + avg l2_zscores * 0.7
  else if valid l1_zscores then avg l1_zscores
  else if valid l2_zscores then avg l2_zscores
  else 0.0.

(** The ["combined_score"] key of a region's result. *)
Definition combined_score (l1_zscores l2_zscores : list R) : R :=
  z_to_centred_score (combined_z l1_zscores l2_zscores).

(** The keys of [results[rk]] in [fetch_gtrends_regional] that the
    composites and the refresh loop read, from the z-scores gathered for
    the two layers. *)
Definition region_result (l1_zscores l2_zscores : list R) : gtrends_region :=
  {| panic_score :=
       Some (if valid l2_zscores then z_to_centred_score (avg l2_zscores)
             else 50.0);
     global_score :=
       Some (if valid l1_zscores then z_to_centred_score (avg l1_zscores)
             else 50.0);
     l1_count := Some (List.length l1_zscores);
     l2_count := Some (List.length l2_zscores) |}.

End GTrendsScore.

(** ** Cloudflare scoring *)

(** The traffic dict of [fetch_cloudflare_country_traffic], by its
    ["values"]; the timestamps are not read. *)
Record traffic := { cf_values : list R }.

(** The [detail] dict of a country z-score. *)
Record cf_detail := { cf_current : R; cf_baseline_avg : R; cf_baseline_days : nat }.

Module Cloudflare.

(** The loop that fills [same_hour_vals]:
    [for day_back in range(1, len(vals) // 24)], with
    [idx = len(vals) - 1 - day_back * 24] kept when [0 <= idx < len(vals)]. *)
Definition same_hour_vals (vals : list R) : list R :=
  flat_map
    (fun day_back =>
       let idx := (Z.of_nat (List.length vals) - 1 - Z.of_nat day_back * 24)%Z in
       if ((0 <=? idx) && (idx <? Z.of_nat (List.length vals)))%Z
       then [nth (Z.to_nat idx) vals 0]
       else [])
    (seq 1 (List.length vals / 24 - 1)).

(** [zip(country_zscores, weights)] with [weights] computed from the
    z-scores: the weighted mean of a region. *)
Definition weighted_mean (weight : R -> R) (country_zscores : list R) : R :=
  Py.sum (map (fun z => z * weight z) country_zscores)
  / Py.sum (map weight country_zscores).

End Cloudflare.

(** [calculate_cloudflare_country_zscore(traffic_data)]. *)
Definition calculate_cloudflare_country_zscore (traffic_data : option traffic)
  : option R * option cf_detail :=
  match traffic_data with
  | None => (None, None)
  | Some t =>
    let vals := cf_values t in
    if (List.length vals <? 72)%nat then (None, None)
    else
      let current_val := last vals 0 in
      let same_hour_vals := Cloudflare.same_hour_vals vals in
      if (List.length same_hour_vals <? 7)%nat then (None, None)
      else
        let mean := Py.np_mean same_hour_vals in
        let std := Py.np_std same_hour_vals in
        let detail :=
          {| cf_current := Py.round current_val 4;
             cf_baseline_avg := Py.round mean 4;
             cf_baseline_days := List.length same_hour_vals |} in
        if Py.Rltb std 0.01 then (Some 0.0, Some detail)
        else (Some ((current_val - mean) / std), Some detail)
  end.

(** [_cloudflare_dynamic_weight(z)]. *)
Definition _cloudflare_dynamic_weight (z : R) : R :=
  if Py.Rleb (-1.0) z then 1.0
  else
    let excess := - z - 1.0 in
    1.0 + excess ^ 2 * 12.

(** The locals [agg_z] and [score] of a region in
    [fetch_cloudflare_regional], from its [country_zscores]. *)
Definition cloudflare_region_score (country_zscores : list R) : R * R :=
  match country_zscores with
  | [] => (0.0, 50.0)
  | _ :: _ =>
    let weighted_mean :=
      Cloudflare.weighted_mean _cloudflare_dynamic_weight country_zscores in
    let agg_z := - weighted_mean in
    (agg_z, z_to_centred_score agg_z)
  end.

(** ** Financial markets *)

(** The region of each ticker of [MARKET_TICKERS], in the table's order. *)
Definition MARKET_TICKERS : list (string * string) :=
  [("RHM.DE", "europe"); ("BA.L", "europe"); ("HO.PA", "europe");
   ("LDO.MI", "europe"); ("SAAB-B.ST", "europe"); ("RR.L", "europe");
   ("TTF=F", "europe"); ("EWG", "europe"); ("USDRUB=X", "europe");
   ("BZ=F", "middle_east"); ("ESLT", "middle_east"); ("EIS", "middle_east");
   ("USDILS=X", "middle_east");
   ("012450.KS", "asia_pacific"); ("7011.T", "asia_pacific");
   ("EWT", "asia_pacific"); ("ASHR", "asia_pacific"); ("EWJ", "asia_pacific");
   ("USDCNY=X", "asia_pacific"); ("USDTWD=X", "asia_pacific");
   ("USDINR=X", "asia_pacific");
   ("GC=F", "global"); ("ITA", "global")]%string.

(** An entry of [market_data]; [normalised_score] is [None] when the key
    is absent (the ticker has an ["error"] instead). *)
Record ticker_data := { normalised_score : option R }.

Module Markets.

(** [[t for t, info in MARKET_TICKERS.items() if info.get("region") == rk]]. *)
Definition tickers_of (rk : string) : list string :=
  map fst (filter (fun ti => String.eqb (snd ti) rk) MARKET_TICKERS).

(** [[market_data[t]["normalised_score"] for t in tks
      if t in market_data and "normalised_score" in market_data[t]]]. *)
Fixpoint scores_of (market_data : list (string * ticker_data))
         (tks : list string) : list R :=
  match tks with
  | [] => []
  | t :: rest =>
    match Py.get t market_data with
    | Some d =>
      match normalised_score d with
      | Some s => s :: scores_of market_data rest
      | None => scores_of market_data rest
      end
    | None => scores_of market_data rest
    end
  end.

(** [round(sum(xs) / len(xs), 1) if xs else 50.0]. *)
Definition mean_or_50 (xs : list R) : R :=
  match xs with
  | [] => 50.0
  | _ :: _ => Py.round (Py.sum xs / INR (List.length xs)) 1
  end.

(** [[d["normalised_score"] for d in market_data.values()
      if "normalised_score" in d]]. *)
Fixpoint all_scores (market_data : list (string * ticker_data)) : list R :=
  match market_data with
  | [] => []
  | (_, d) :: rest =>
    match normalised_score d with
    | Some s => s :: all_scores rest
    | None => all_scores rest
    end
  end.

End Markets.

(** [calculate_market_score(market_data)]. *)
Definition calculate_market_score (market_data : list (string * ticker_data)) : R :=
  Markets.mean_or_50 (Markets.all_scores market_data).

(** [calculate_market_regional_scores(market_data)], by the ["score"] key
    of each region. *)
Definition calculate_market_regional_scores
           (market_data : list (string * ticker_data))
  : list (string * scored_region) :=
  let global_scores :=
    Markets.scores_of market_data (Markets.tickers_of "global") in
  map (fun rk =>
         let regional_scores :=
           Markets.scores_of market_data (Markets.tickers_of rk) in
         (rk, {| score := Some (Markets.mean_or_50
                                  (regional_scores ++ global_scores)) |}))
      REGIONS.

(** ** Polymarket by region *)

(** A contract of [geo_markets] with its ["region"] key. *)
Record geo_market := { gm_contract : contract; gm_region : string }.

(** The three shapes of a region's ["stats"] dict. *)
Inductive regional_pm_stats :=
| StatsNone
| StatsNormalised (st : pm_stats)
| StatsCrude (n : nat) (s : R).

(** An entry of the result of [calculate_polymarket_regional_scores]. *)
Record regional_pm := { rp_score : R; rp_stats : regional_pm_stats }.

Module PolymarketRegional.

(** The keys [num_contracts], [mature_count], [immature_count] and
    [method], which all three shapes of the stats dict carry. *)
Definition stats_num_contracts (s : regional_pm_stats) : nat :=
  match s with
  | StatsNone => 0
  | StatsNormalised st => num_contracts st
  | StatsCrude n _ => n
  end.

Definition stats_mature_count (s : regional_pm_stats) : nat :=
  match s with
  | StatsNone => 0
  | StatsNormalised st => mature_count st
  | StatsCrude _ _ => 0
  end.

Definition stats_immature_count (s : regional_pm_stats) : nat :=
  match s with
  | StatsNone => 0
  | StatsNormalised st => immature_count st
  | StatsCrude n _ => n
  end.

Definition stats_method (s : regional_pm_stats) : string :=
  match s with
  | StatsNone => "none"
  | StatsNormalised st => method st
  | StatsCrude _ _ => "crude"
  end.

(** [[m for m in geo_markets if m.get("region") == rk]]. *)
Definition in_region (rk : string) (geo_markets : list geo_market)
  : list contract :=
  map gm_contract (filter (fun m => String.eqb (gm_region m) rk) geo_markets).

(** The body of the loop [for rk in REGIONS]; [baselines] is the dict
    after [if baselines is None: baselines = {}]. *)
Definition region (geo_markets : list geo_market)
           (baselines : list (string * baseline)) (rk : string) : regional_pm :=
  match in_region rk geo_markets with
  | [] => {| rp_score := 50.0; rp_stats := StatsNone |}
  | (_ :: _) as rc =>
    match baselines with
    | _ :: _ =>
      let (s, st) := calculate_polymarket_score_normalised rc baselines in
      {| rp_score := s; rp_stats := StatsNormalised st |}
    | [] =>
      let avg := Py.np_mean (map risk_price rc) in
      let s := Py.round (avg * 100) 1 in
      {| rp_score := s; rp_stats := StatsCrude (List.length rc) s |}
    end
  end.

(** The ["score"] key of an entry, as [calculate_regional_composites]
    reads it. *)
Definition scored (d : list (string * regional_pm)) : list (string * scored_region) :=
  map (fun kr => (fst kr, {| score := Some (rp_score (snd kr)) |})) d.

End PolymarketRegional.

(** [calculate_polymarket_regional_scores(geo_markets, baselines)]. *)
Definition calculate_polymarket_regional_scores
           (geo_markets : list geo_market)
           (baselines : option (list (string * baseline)))
  : list (string * regional_pm) :=
  let baselines := match baselines with Some b => b | None => [] end in
  map (fun rk => (rk, PolymarketRegional.region geo_markets baselines rk)) REGIONS.

(** ** Contract regions *)

(** [GLOBAL_KEYWORDS]. *)
Definition GLOBAL_KEYWORDS : list string :=
  [
   "nuclear weapon detonation"; "nuclear detonation"; "world war";
   "u.s. test a nuclear"; "u.s.-russia nuclear deal"; "us-russia nuclear";
   "u.s. x russia nuclear"; "russia test a nuclear"; "russia nuclear test";
   "u.s. x china military clash"; "us x china military";
   "u.s. x russia military clash"; "us x russia military clash";
   "invade a latin american"; "invade latin america"
  ]%string.

(** The ["keywords"] of each region of the [REGIONS] table, in its order. *)
Definition REGION_KEYWORDS : list (string * list string) :=
  [
   ("europe",
    [
     "russia"; "ukraine"; "nato"; "crimea"; "baltics"; "poland"; "romania";
     "moldova"; "transnistria"; "kursk"; "greenland"; "denmark"; "greece"
    ]);
   ("middle_east",
    [
     "iran"; "israel"; "gaza"; "west bank"; "palestine"; "lebanon"; "syria";
     "yemen"; "houthi"; "hezbollah"; "hamas"; "red sea"; "qatar"; "iraq";
     "beirut"; "damascus"; "turkey"; "jerusalem"; "baghdad"
    ]);
   ("asia_pacific",
    [
     "china"; "taiwan"; "north korea"; "south china sea"; "korean peninsula";
     "india"; "pakistan"; "kashmir"; "philippines"; "japan"; "cambodia";
     "thailand"; "south korea"; "korea"; "afghanistan"
    ])
  ]%string.

Module Region.

(** [kw in st]: [kw] occurs in [st] as a substring. *)
Fixpoint contains (kw st : string) : bool :=
  if String.prefix kw st then true
  else match st with
       | EmptyString => false
       | String _ rest => contains kw rest
       end.

(** [sum(1 for kw in keywords if kw in st)]. *)
Definition hit_count (keywords : list string) (st : string) : nat :=
  List.length (filter (fun kw => contains kw st) keywords).

(** The dict [hits]: the regions with at least one keyword hit, in the
    order of [REGIONS]. *)
Definition hits (st : string) : list (string * nat) :=
  filter (fun rh => (0 <? snd rh)%nat)
         (map (fun rc => (fst rc, hit_count (snd rc) st)) REGION_KEYWORDS).

(** [max(hits, key=hits.get)] continued from a best entry so far: a later
    key wins only with a strictly larger count. *)
Fixpoint max_hits (best : string * nat) (rest : list (string * nat))
  : string * nat :=
  match rest with
  | [] => best
  | rh :: rest' =>
    max_hits (if (snd best <? snd rh)%nat then rh else best) rest'
  end.

End Region.

(** [classify_contract_region(st)]. *)
Definition classify_contract_region (st : string) : string :=
  if existsb (fun gk => Region.contains gk st) GLOBAL_KEYWORDS then "global"
  else
    match Region.hits st with
    | [] => "global"
    | rh :: rest => fst (Region.max_hits rh rest)
    end.

(** ** ACLED forecasts *)

(** A row of the CAST data: the country ([None] when the key is absent)
    and the four forecasts after [int(... or 0)]; [None] when one of the
    conversions raises. *)
Record cast_row := {
  cast_country : option string;
  cast_forecasts : option (Z * Z * Z * Z)
}.

(** The sums kept per country and overall. *)
Record cast_sums := { cs_total : Z; cs_battles : Z; cs_erv : Z; cs_vac : Z }.

Module Acled.

Definition zero : cast_sums :=
  {| cs_total := 0; cs_battles := 0; cs_erv := 0; cs_vac := 0 |}.

Definition add (s : cast_sums) (v : Z * Z * Z * Z) : cast_sums :=
  let '(t, b, e, v') := v in
  {| cs_total := cs_total s + t; cs_battles := cs_battles s + b;
     cs_erv := cs_erv s + e; cs_vac := cs_vac s + v' |}.

(** [if c not in countries: countries[c] = {zeros}] followed by the four
    [countries[c][...] += ...]. *)
Fixpoint add_country (c : string) (v : Z * Z * Z * Z)
         (countries : list (string * cast_sums)) : list (string * cast_sums) :=
  match countries with
  | [] => [(c, add zero v)]
  | (k, s) :: rest =>
    if String.eqb c k then (k, add s v) :: rest
    else (k, s) :: add_country c v rest
  end.

(** The body of the loop [for row in cast_data]. *)
Definition step (acc : cast_sums * list (string * cast_sums)) (row : cast_row)
  : cast_sums * list (string * cast_sums) :=
  match cast_forecasts row with
  | None => acc
  | Some v =>
    let c := match cast_country row with Some c => c | None => "Unknown"%string end in
    (add (fst acc) v, add_country c v (snd acc))
  end.

End Acled.

(** [sum_cast_forecasts(cast_data)]: the four totals and the dict
    [countries]. *)
Definition sum_cast_forecasts (cast_data : list cast_row)
  : cast_sums * list (string * cast_sums) :=
  fold_left Acled.step cast_data (Acled.zero, []).

(** ** The ACLED cache *)

(** An entry of [_cache]; a payload key holds [None] for Python's [None]. *)
Record cache_entry (V : Type) := {
  ce_data : option V;
  ce_stats : option V;
  ce_score : option V;
  ce_raw : option V;
  ce_prev_raw : option V;
  ce_time : R;
  ce_ttl : R
}.
Arguments ce_data {V}.
Arguments ce_stats {V}.
Arguments ce_score {V}.
Arguments ce_raw {V}.
Arguments ce_prev_raw {V}.
Arguments ce_time {V}.
Arguments ce_ttl {V}.

(** The keyword arguments of [set_cache]: for each key of an entry, [None]
    when the keyword is not given. *)
Record cache_kw (V : Type) := {
  kw_data : option (option V);
  kw_stats : option (option V);
  kw_score : option (option V);
  kw_raw : option (option V);
  kw_prev_raw : option (option V);
  kw_time : option R;
  kw_ttl : option R
}.
Arguments kw_data {V}.
Arguments kw_stats {V}.
Arguments kw_score {V}.
Arguments kw_raw {V}.
Arguments kw_prev_raw {V}.
Arguments kw_time {V}.
Arguments kw_ttl {V}.

Module Cache.

Definition or_old {T : Type} (new : option T) (old : T) : T :=
  match new with Some v => v | None => old end.

(** [_cache[key].update(kw)] followed by [_cache[key]["time"] = now]. *)
Definition updated {V : Type} (e : cache_entry V) (kw : cache_kw V) (now : R)
  : cache_entry V :=
  {| ce_data := or_old (kw_data kw) (ce_data e);
     ce_stats := or_old (kw_stats kw) (ce_stats e);
     ce_score := or_old (kw_score kw) (ce_score e);
     ce_raw := or_old (kw_raw kw) (ce_raw e);
     ce_prev_raw := or_old (kw_prev_raw kw) (ce_prev_raw e);
     ce_time := now;
     ce_ttl := or_old (kw_ttl kw) (ce_ttl e) |}.

(** The assignment of a new entry to an existing key of the dict. *)
Fixpoint replace {V : Type} (key : string) (e : cache_entry V)
         (cache : list (string * cache_entry V)) : list (string * cache_entry V) :=
  match cache with
  | [] => []
  | (k, e') :: rest =>
    if String.eqb key k then (k, e) :: rest else (k, e') :: replace key e rest
  end.

(** The initial value of [_cache]. *)
Definition initial {V : Type} : list (string * cache_entry V) :=
  [("acled"%string,
    {| ce_data := None; ce_stats := None; ce_score := None; ce_raw := None;
       ce_prev_raw := None; ce_time := 0; ce_ttl := 3600 |})].

End Cache.

(** [get_cached(key)] at the clock reading [now]. *)
Definition get_cached {V : Type} (cache : list (string * cache_entry V))
           (key : string) (now : R) : option (cache_entry V) :=
  match Py.get key cache with
  | Some c =>
    match ce_data c with
    | Some _ => if Py.Rltb (now - ce_time c) (ce_ttl c) then Some c else None
    | None => None
    end
  | None => None
  end.

(** [set_cache(key, **kw)] at the clock reading [now]: the cache after the
    call. *)
Definition set_cache {V : Type} (cache : list (string * cache_entry V))
           (key : string) (kw : cache_kw V) (now : R)
  : list (string * cache_entry V) :=
  match Py.get key cache with
  | Some e => Cache.replace key (Cache.updated e kw now) cache
  | None => cache
  end.

(** * Verification

    ** Facts about rounding and sums *)

Section RoundFacts.

Lemma round_half_even_cases (x : R) :
  Py.round_half_even x = Zfloor x \/ Py.round_half_even x = (Zfloor x + 1)%Z.
Proof.
  unfold Py.round_half_even.
  destruct (Rlt_dec _ _); [now left|].
  destruct (Rlt_dec _ _); [now right|].
  destruct (Z.even _); [now left | now right].
Qed.

Lemma round_half_even_IZR (k : Z) : Py.round_half_even (IZR k) = k.
Proof.
  unfold Py.round_half_even. rewrite ZfloorZ.
  destruct (Rlt_dec _ _) as [_|H]; [reflexivity | exfalso; apply H; lra].
Qed.

Lemma round_half_even_mono (x y : R) :
  x <= y -> (Py.round_half_even x <= Py.round_half_even y)%Z.
Proof.
  intros Hxy.
  pose proof (Zfloor_le x y Hxy) as Hf.
  destruct (Z.eq_dec (Zfloor x) (Zfloor y)) as [E|NE].
  - unfold Py.round_half_even. rewrite E.
    destruct (Rlt_dec (x - IZR (Zfloor y)) (1 / 2)) as [Hx|Hx].
    + destruct (Rlt_dec (y - _) _); [lia|].
      destruct (Rlt_dec _ (y - _)); [lia|].
      destruct (Z.even _); lia.
    + destruct (Rlt_dec (y - IZR (Zfloor y)) (1 / 2)) as [Hy|Hy]; [lra|].
      destruct (Rlt_dec (1 / 2) (x - IZR (Zfloor y))) as [Hx'|Hx'].
      * destruct (Rlt_dec (1 / 2) (y - IZR (Zfloor y))); [lia | lra].
      * destruct (Rlt_dec (1 / 2) (y - IZR (Zfloor y)));
          destruct (Z.even _); lia.
  - destruct (round_half_even_cases x) as [-> | ->];
      destruct (round_half_even_cases y) as [-> | ->]; lia.
Qed.

Lemma pow10_pos (n : nat) : 0 < 10 ^ n.
Proof. apply pow_lt; lra. Qed.

Lemma round_mono (n : nat) (x y : R) : x <= y -> Py.round x n <= Py.round y n.
Proof.
  intros Hxy. unfold Py.round.
  pose proof (pow10_pos n) as Hp.
  apply Rmult_le_compat_r; [left; now apply Rinv_0_lt_compat|].
  apply IZR_le, round_half_even_mono.
  apply Rmult_le_compat_r; lra.
Qed.

(** A value that already has [n] decimals is left as it is. *)
Lemma round_exact (n : nat) (k : Z) (x : R) :
  x * 10 ^ n = IZR k -> Py.round x n = x.
Proof.
  intros H. unfold Py.round. rewrite H, round_half_even_IZR, <- H.
  pose proof (pow10_pos n). field. lra.
Qed.

Lemma sum_from (xs : list R) (a : R) : fold_left Rplus xs a = a + Py.sum xs.
Proof.
  unfold Py.sum. revert a.
  induction xs as [|x xs IH]; intros a; simpl.
  - lra.
  - rewrite IH, (IH (0 + x)). lra.
Qed.

Lemma sum_cons (x : R) (xs : list R) : Py.sum (x :: xs) = x + Py.sum xs.
Proof. unfold Py.sum at 1. simpl. rewrite sum_from. lra. Qed.

Lemma sum_nil : Py.sum [] = 0.
Proof. reflexivity. Qed.

End RoundFacts.

(** ** The Normalizer *)

Section NormalizerFacts.

(** The sigmoid before clipping. *)
Let sigmoid (z : R) : R := 100 / (1 + exp (-0.65 * z)).

Lemma denominator_pos (z : R) : 1 < 1 + exp (-0.65 * z).
Proof. pose proof (exp_pos (-0.65 * z)). lra. Qed.

Lemma sigmoid_mono (z1 z2 : R) : z1 <= z2 -> sigmoid z1 <= sigmoid z2.
Proof.
  intros H. unfold sigmoid.
  pose proof (denominator_pos z1) as H1.
  pose proof (denominator_pos z2) as H2.
  assert (He : exp (-0.65 * z2) <= exp (-0.65 * z1)).
  { destruct (Req_dec z1 z2) as [-> | Hne]; [lra|].
    left. apply exp_increasing. lra. }
  unfold Rdiv. apply Rmult_le_compat_l; [lra|].
  apply Rinv_le_contravar; lra.
Qed.

Lemma clip_mono (x y : R) :
  x <= y -> Rmax 0.1 (Rmin 99.9 x) <= Rmax 0.1 (Rmin 99.9 y).
Proof.
  intros H. unfold Rmax, Rmin.
  repeat destruct (Rle_dec _ _); lra.
Qed.

Lemma clip_bounds (x : R) : 0.1 <= Rmax 0.1 (Rmin 99.9 x) <= 99.9.
Proof. unfold Rmax, Rmin. repeat destruct (Rle_dec _ _); lra. Qed.

Lemma round_1_tenth : Py.round 0.1 1 = 0.1.
Proof. apply (round_exact 1 1). simpl. lra. Qed.

Lemma round_1_top : Py.round 99.9 1 = 99.9.
Proof. apply (round_exact 1 999). simpl. lra. Qed.

Lemma round_1_fifty : Py.round 50 1 = 50.
Proof. apply (round_exact 1 500). simpl. lra. Qed.

(** [e^13] is well above 999. *)
Lemma exp_13_large : 999 < exp 13.
Proof.
  assert (H8 : 2.625 < exp (13 / 8)).
  { pose proof (exp_ineq1 (13 / 8)). lra. }
  assert (H4 : exp (13 / 4) = exp (13 / 8) * exp (13 / 8)).
  { rewrite <- exp_plus. f_equal. lra. }
  assert (H2 : exp (13 / 2) = exp (13 / 4) * exp (13 / 4)).
  { rewrite <- exp_plus. f_equal. lra. }
  assert (H1 : exp 13 = exp (13 / 2) * exp (13 / 2)).
  { rewrite <- exp_plus. f_equal. lra. }
  assert (6.89 < exp (13 / 4)) by nra.
  assert (47.4 < exp (13 / 2)) by nra.
  nra.
Qed.

Lemma exp_minus_13_small : exp (-13) < 1 / 999.
Proof.
  pose proof exp_13_large as H.
  assert (E : exp (-13) * exp 13 = 1).
  { rewrite <- exp_plus. replace (-13 + 13) with 0 by lra. apply exp_0. }
  pose proof (exp_pos (-13)) as Hp.
  apply Rmult_lt_reg_r with (exp 13); [lra|].
  rewrite E. nra.
Qed.

Lemma score_at_20 : z_to_centred_score 20 = 99.9.
Proof.
  unfold z_to_centred_score.
  replace (-0.65 * 20) with (-13) by lra.
  pose proof exp_minus_13_small as Hs.
  pose proof (exp_pos (-13)) as Hp.
  assert (Hq : 99.9 <= 100 / (1 + exp (-13))).
  { apply Rmult_le_reg_r with (1 + exp (-13)); [lra|].
    unfold Rdiv. rewrite Rmult_assoc, Rinv_l by lra. lra. }
  rewrite (Rmin_left _ _ Hq).
  rewrite Rmax_right by lra.
  apply round_1_top.
Qed.

Lemma score_at_minus_20 : z_to_centred_score (-20) = 0.1.
Proof.
  unfold z_to_centred_score.
  replace (-0.65 * -20) with 13 by lra.
  pose proof exp_13_large as Hs.
  assert (Hq : 100 / (1 + exp 13) <= 0.1).
  { apply Rmult_le_reg_r with (1 + exp 13); [lra|].
    unfold Rdiv. rewrite Rmult_assoc, Rinv_l by lra. lra. }
  rewrite Rmin_right by lra.
  rewrite (Rmax_left _ _ Hq).
  apply round_1_tenth.
Qed.

Lemma score_at_0 : z_to_centred_score 0 = 50.0.
Proof.
  unfold z_to_centred_score.
  replace (-0.65 * 0) with 0 by lra. rewrite exp_0.
  replace (100 / (1 + 1)) with 50 by lra.
  rewrite Rmin_right by lra. rewrite Rmax_right by lra.
  rewrite round_1_fifty. lra.
Qed.

Lemma score_mono (z1 z2 : R) :
  z1 <= z2 -> z_to_centred_score z1 <= z_to_centred_score z2.
Proof.
  intros H. unfold z_to_centred_score.
  apply round_mono, clip_mono. now apply sigmoid_mono.
Qed.

Lemma score_closed_bounds (z : R) : 0.1 <= z_to_centred_score z <= 99.9.
Proof.
  unfold z_to_centred_score.
  destruct (clip_bounds (100 / (1 + exp (-0.65 * z)))) as [Hlo Hhi].
  split.
  - rewrite <- round_1_tenth at 1. now apply round_mono.
  - rewrite <- round_1_top at 2. now apply round_mono.
Qed.

Lemma clip_is_max_min (x : R) :
  NormalizerSpec.clip x 0.1 99.9 = Rmax 0.1 (Rmin 99.9 x).
Proof.
  unfold NormalizerSpec.clip, Rmax, Rmin.
  repeat destruct (Rlt_dec _ _); repeat destruct (Rle_dec _ _); lra.
Qed.

End NormalizerFacts.

(** C5, as amended: for every real z-score [z] the Normalizer output
    [z_to_centred_score z] lies in the closed interval from 0.1 to 99.9,
    and both ends are reached: the output is 99.9 at [z = 20] and 0.1 at
    [z = -20]. *)
Theorem C5_normalizer_closed_interval :
  (forall z : R, 0.1 <= z_to_centred_score z <= 99.9)
  /\ z_to_centred_score 20 = 99.9
  /\ z_to_centred_score (-20) = 0.1.
Proof.
  split; [exact score_closed_bounds|].
  split; [exact score_at_20 | exact score_at_minus_20].
Qed.

(** C5 as it was claimed fails: the output is not strictly inside the
    open interval from 0.1 to 99.9 for every [z]; at [z = 20] it is 99.9. *)
Lemma C5_open_interval_fails :
  ~ (forall z : R, 0.1 < z_to_centred_score z < 99.9).
Proof.
  intros H. specialize (H 20). rewrite score_at_20 in H. lra.
Qed.

Section OverflowFacts.

Lemma exp_nat_mult (n : nat) (x : R) : exp (INR n * x) = exp x ^ n.
Proof.
  induction n as [|n IH].
  - simpl. rewrite Rmult_0_l. apply exp_0.
  - rewrite S_INR, Rmult_plus_distr_r, Rmult_1_l, exp_plus, IH. simpl. ring.
Qed.

Lemma exp_le_mono (x y : R) : x <= y -> exp x <= exp y.
Proof.
  intros [H | ->]; [left; now apply exp_increasing | right; reflexivity].
Qed.

(** Comparison of two integer fractions. *)
Lemma fraction_le (a b c d : Z) :
  (0 < b)%Z -> (0 < d)%Z -> (a * d <= c * b)%Z ->
  IZR a / IZR b <= IZR c / IZR d.
Proof.
  intros Hb Hd H. apply IZR_lt in Hb, Hd. apply IZR_le in H.
  rewrite !mult_IZR in H.
  apply Rmult_le_reg_r with (IZR b * IZR d); [nra|].
  replace (IZR a / IZR b * (IZR b * IZR d)) with (IZR a * IZR d) by (field; lra).
  replace (IZR c / IZR d * (IZR b * IZR d)) with (IZR c * IZR b) by (field; lra).
  exact H.
Qed.

Lemma fraction_pow (p q : Z) (n : nat) :
  (0 < q)%Z -> (IZR p / IZR q) ^ n = IZR (p ^ Z.of_nat n) / IZR (q ^ Z.of_nat n).
Proof.
  intros Hq. unfold Rdiv. rewrite Rpow_mult_distr, pow_inv, !pow_IZR. reflexivity.
Qed.

Lemma exp_1_lower : 27 / 10 <= exp 1.
Proof.
  assert (E : exp 1 = exp (1 / 128) ^ 128).
  { rewrite <- exp_nat_mult. f_equal.
    replace (INR 128) with 128 by (rewrite INR_IZR_INZ; reflexivity). field. }
  rewrite E.
  apply Rle_trans with ((129 / 128) ^ 128).
  - rewrite fraction_pow by reflexivity.
    apply fraction_le; [reflexivity | reflexivity | vm_compute; discriminate].
  - apply pow_incr. pose proof (exp_ineq1_le (1 / 128)). lra.
Qed.

(** [e^715] is beyond the range of a double. *)
Lemma exp_715_beyond : Float.limit <= exp 715.
Proof.
  unfold Float.limit.
  assert (E : exp 715 = exp 1 ^ 715).
  { rewrite <- exp_nat_mult. f_equal.
    replace (INR 715) with 715 by (rewrite INR_IZR_INZ; reflexivity). lra. }
  rewrite E.
  apply Rle_trans with ((27 / 10) ^ 715).
  - rewrite fraction_pow by reflexivity.
    replace (IZR (2 ^ 1024)) with (IZR (2 ^ 1024) / IZR 1) by (field; lra).
    apply fraction_le; [reflexivity | reflexivity | vm_compute; discriminate].
  - apply pow_incr. pose proof exp_1_lower. lra.
Qed.

(** [e^644] is within the range of a double. *)
Lemma exp_644_within : exp 644 < Float.limit.
Proof.
  unfold Float.limit.
  assert (E : exp 644 = exp 1 ^ 644).
  { rewrite <- exp_nat_mult. f_equal.
    replace (INR 644) with 644 by (rewrite INR_IZR_INZ; reflexivity). lra. }
  rewrite E.
  apply Rle_lt_trans with (3 ^ 644).
  - apply pow_incr. pose proof (exp_pos 1). pose proof exp_le_3. lra.
  - rewrite pow_IZR. apply IZR_lt. reflexivity.
Qed.

Lemma limit_large : 999 < Float.limit.
Proof. unfold Float.limit. apply IZR_lt. reflexivity. Qed.

Lemma raising_below (z : R) :
  z <= -1100 -> z_to_centred_score_raising z = None.
Proof.
  intros H. unfold z_to_centred_score_raising, Float.math_exp.
  assert (Float.limit <= exp (-0.65 * z)).
  { apply Rle_trans with (exp 715); [apply exp_715_beyond|].
    apply exp_le_mono. lra. }
  destruct (Rle_dec Float.limit (exp (-0.65 * z))); [reflexivity | contradiction].
Qed.

Lemma raising_above (z : R) :
  -990 <= z -> z_to_centred_score_raising z = Some (z_to_centred_score z).
Proof.
  intros H. unfold z_to_centred_score_raising, Float.math_exp.
  assert (exp (-0.65 * z) < Float.limit).
  { apply Rle_lt_trans with (exp 644); [|apply exp_644_within].
    apply exp_le_mono. lra. }
  destruct (Rle_dec Float.limit (exp (-0.65 * z))); [lra | reflexivity].
Qed.

Lemma raising_value (z v : R) :
  z_to_centred_score_raising z = Some v -> v = z_to_centred_score z.
Proof.
  unfold z_to_centred_score_raising, Float.math_exp.
  destruct (Rle_dec Float.limit (exp (-0.65 * z))); [discriminate|].
  now intros [= <-].
Qed.

Lemma score_is_reference (z : R) :
  z_to_centred_score z = NormalizerSpec.Normalizer z.
Proof.
  unfold z_to_centred_score, NormalizerSpec.Normalizer, NormalizerSpec.k.
  rewrite clip_is_max_min.
  replace (- (0.65 * z)) with (-0.65 * z) by lra. reflexivity.
Qed.

Lemma reference_at_minus_1100 : NormalizerSpec.Normalizer (-1100) = 0.1.
Proof.
  rewrite <- score_is_reference. unfold z_to_centred_score.
  replace (-0.65 * -1100) with 715 by lra.
  pose proof exp_715_beyond as Hb. pose proof limit_large as Hl.
  assert (Hq : 100 / (1 + exp 715) <= 0.1).
  { apply Rmult_le_reg_r with (1 + exp 715); [lra|].
    unfold Rdiv. rewrite Rmult_assoc, Rinv_l by lra. lra. }
  rewrite Rmin_right by lra.
  rewrite (Rmax_left _ _ Hq).
  apply round_1_tenth.
Qed.

End OverflowFacts.

(** C6: the Normalizer in the code is not total.  At [z = -1100] the
    reference definition [round(clip(100 / (1 + e^(-0.65 z)), 0.1, 99.9), 1)]
    has the value 0.1, but [z_to_centred_score] calls [math.exp(715.0)],
    which raises [OverflowError]; so does every [z] at or below -1100.
    Where the call returns, which includes every [z] from -990 up, the
    result equals the reference definition, it is 50.0 at 0, and it is
    monotonically increasing (a larger [z] never gives a smaller score). *)
Theorem C6_normalizer_raises_on_overflow :
  z_to_centred_score_raising (-1100) = None
  /\ NormalizerSpec.Normalizer (-1100) = 0.1
  /\ (forall z : R, z <= -1100 -> z_to_centred_score_raising z = None)
  /\ (forall z : R, -990 <= z ->
         z_to_centred_score_raising z = Some (NormalizerSpec.Normalizer z))
  /\ (forall z v : R, z_to_centred_score_raising z = Some v ->
         v = NormalizerSpec.Normalizer z)
  /\ z_to_centred_score_raising 0 = Some 50.0
  /\ (forall z1 z2 v1 v2 : R,
         z1 <= z2 ->
         z_to_centred_score_raising z1 = Some v1 ->
         z_to_centred_score_raising z2 = Some v2 -> v1 <= v2).
Proof.
  split; [apply raising_below; lra|].
  split; [exact reference_at_minus_1100|].
  split; [exact raising_below|].
  split.
  { intros z H. rewrite raising_above by exact H. now rewrite score_is_reference. }
  split.
  { intros z v H. rewrite (raising_value z v H). apply score_is_reference. }
  split.
  { rewrite raising_above by lra. now rewrite score_at_0. }
  intros z1 z2 v1 v2 Hle H1 H2.
  rewrite (raising_value z1 v1 H1), (raising_value z2 v2 H2).
  now apply score_mono.
Qed.

(** C6 at a concrete input: at [z = 5] the call returns the reference
    value. *)
Lemma C6_normalizer_raises_on_overflow_witness :
  -990 <= 5
  /\ z_to_centred_score_raising 5 = Some (NormalizerSpec.Normalizer 5).
Proof.
  split; [lra|].
  apply (proj1 (proj2 (proj2 (proj2 C6_normalizer_raises_on_overflow))) 5). lra.
Defined.

(** ** The convergence classifier *)

(** Decides the comparisons between numerals that a goal contains. *)
Ltac decide_comparisons :=
  unfold Py.Rleb, Py.Rltb, Py.Reqb, Rmax, Rmin;
  repeat match goal with
         | |- context [Rle_dec ?a ?b] => destruct (Rle_dec a b); try lra
         | |- context [Rlt_dec ?a ?b] => destruct (Rlt_dec a b); try lra
         | |- context [Req_dec_T ?a ?b] => destruct (Req_dec_T a b); try lra
         end.

Section ConvergenceFacts.

Lemma active_length (scores : list (string * option R)) :
  List.length (Convergence.active_of scores)
  = ConvergenceSpec.count (fun _ => true) scores.
Proof.
  induction scores as [|[k [v|]] rest IH]; simpl; congruence.
Qed.

Lemma elevated_length (scores : list (string * option R)) :
  List.length (Convergence.elevated (Convergence.active_of scores))
  = ConvergenceSpec.count ConvergenceSpec.is_elevated scores.
Proof.
  unfold Convergence.elevated. rewrite length_map.
  induction scores as [|[k [v|]] rest IH]; simpl; auto.
  unfold ConvergenceSpec.is_elevated at 1.
  destruct (Py.Rleb 58 v); simpl; congruence.
Qed.

Lemma depressed_length (scores : list (string * option R)) :
  List.length (Convergence.depressed (Convergence.active_of scores))
  = ConvergenceSpec.count ConvergenceSpec.is_depressed scores.
Proof.
  unfold Convergence.depressed. rewrite length_map.
  induction scores as [|[k [v|]] rest IH]; simpl; auto.
  unfold ConvergenceSpec.is_depressed at 1.
  destruct (Py.Rleb v 42); simpl; congruence.
Qed.

(** The code's chain of tests and the table agree on every pair of counts. *)
Lemma label_agrees (scores : list (string * option R)) :
  ConvergenceSpec.label
    (ConvergenceSpec.count (fun _ => true) scores)
    (ConvergenceSpec.count ConvergenceSpec.is_elevated scores)
    (ConvergenceSpec.count ConvergenceSpec.is_depressed scores)
  = Some (convergence_label_of scores).
Proof.
  rewrite <- active_length, <- elevated_length, <- depressed_length.
  unfold convergence_label_of, get_convergence_status, ConvergenceSpec.label.
  destruct (Convergence.active_of scores) as [|kv active]; [reflexivity|].
  set (ne := List.length (Convergence.elevated (kv :: active))).
  set (nd := List.length (Convergence.depressed (kv :: active))).
  change (List.length (kv :: active) =? 0)%nat with false. cbv iota.
  destruct ne as [|[|[|ne]]]; destruct nd as [|[|[|nd]]]; reflexivity.
Qed.

End ConvergenceFacts.

(** C8: [get_convergence_status], with [None] entries treated as absent,
    buckets each present signal as elevated at 58 and above and depressed at
    42 and below, and its label is the one the decision table gives, read in
    its precedence order, for the numbers of present, elevated and depressed
    signals; and the four examples: 80, 75, 50 is Confirming; 80, 20, 50 is
    Mixed Signals; 50, 50, 50 is Quiet; the empty map is No Data. *)
Theorem C8_convergence_decision_table :
  (forall scores : list (string * option R),
      ConvergenceSpec.label
        (ConvergenceSpec.count (fun _ => true) scores)
        (ConvergenceSpec.count ConvergenceSpec.is_elevated scores)
        (ConvergenceSpec.count ConvergenceSpec.is_depressed scores)
      = Some (convergence_label_of scores))
  /\ (forall v : R, ConvergenceSpec.is_elevated v = true <-> 58 <= v)
  /\ (forall v : R, ConvergenceSpec.is_depressed v = true <-> v <= 42)
  /\ convergence_label_of
       [("A", Some 80); ("B", Some 75); ("C", Some 50)]%string
     = "Confirming"%string
  /\ convergence_label_of
       [("A", Some 80); ("B", Some 20); ("C", Some 50)]%string
     = "Mixed Signals"%string
  /\ convergence_label_of
       [("A", Some 50); ("B", Some 50); ("C", Some 50)]%string
     = "Quiet"%string
  /\ convergence_label_of [] = "No Data"%string.
Proof.
  split; [exact label_agrees|].
  split.
  { intros v. unfold ConvergenceSpec.is_elevated, Py.Rleb.
    destruct (Rle_dec 58 v); split; intros; try discriminate; tauto. }
  split.
  { intros v. unfold ConvergenceSpec.is_depressed, Py.Rleb.
    destruct (Rle_dec v 42); split; intros; try discriminate; tauto. }
  repeat split;
    unfold convergence_label_of, get_convergence_status,
      Convergence.elevated, Convergence.depressed; cbn;
    decide_comparisons; reflexivity.
Qed.

(** C8 at a concrete value: a signal at exactly 58 is elevated. *)
Lemma C8_convergence_decision_table_witness :
  58 <= 58 /\ ConvergenceSpec.is_elevated 58 = true.
Proof.
  split; [lra|].
  apply (proj1 (proj2 C8_convergence_decision_table) 58). lra.
Defined.

(** ** Sums over lists *)

Section SumFacts.

Context {A : Type}.

Lemma sum_map_ext (f g : A -> R) (l : list A) :
  (forall x, In x l -> f x = g x) -> Py.sum (map f l) = Py.sum (map g l).
Proof.
  induction l as [|a l IH]; intros H; simpl; [reflexivity|].
  rewrite !sum_cons, (H a), IH; auto with datatypes.
Qed.

Lemma sum_map_const (f : A -> R) (c : R) (l : list A) :
  (forall x, In x l -> f x = c) -> Py.sum (map f l) = INR (List.length l) * c.
Proof.
  induction l as [|a l IH]; intros H.
  - simpl. rewrite sum_nil. lra.
  - change (map f (a :: l)) with (f a :: map f l).
    change (List.length (a :: l)) with (S (List.length l)).
    rewrite sum_cons, (H a), IH, S_INR; auto with datatypes. lra.
Qed.

Lemma sum_map_scale (f : A -> R) (c : R) (l : list A) :
  Py.sum (map (fun x => f x * c) l) = Py.sum (map f l) * c.
Proof.
  induction l as [|a l IH]; simpl.
  - rewrite sum_nil. lra.
  - rewrite !sum_cons, IH. lra.
Qed.

Lemma sum_map_div (f : A -> R) (c : R) (l : list A) :
  Py.sum (map (fun x => f x / c) l) = Py.sum (map f l) / c.
Proof. unfold Rdiv. apply sum_map_scale. Qed.

Lemma sum_map_pos (f : A -> R) (l : list A) :
  l <> [] -> (forall x, In x l -> 0 < f x) -> 0 < Py.sum (map f l).
Proof.
  destruct l as [|a l]; [congruence|]. intros _.
  revert a. induction l as [|b l IH]; intros a H; simpl.
  - rewrite sum_cons, sum_nil. specialize (H a (or_introl eq_refl)). lra.
  - change (f a :: f b :: map f l) with (f a :: map f (b :: l)).
    rewrite sum_cons.
    assert (0 < f a) by auto with datatypes.
    assert (0 < Py.sum (map f (b :: l))) by (apply IH; auto with datatypes).
    lra.
Qed.

Lemma sum_map_nonneg (f : A -> R) (l : list A) :
  (forall x, In x l -> 0 <= f x) -> 0 <= Py.sum (map f l).
Proof.
  induction l as [|a l IH]; intros H; simpl.
  - rewrite sum_nil. lra.
  - rewrite sum_cons.
    assert (0 <= f a) by auto with datatypes.
    assert (0 <= Py.sum (map f l)) by auto with datatypes.
    lra.
Qed.

End SumFacts.

Lemma INR_length_pos {A : Type} (l : list A) : l <> [] -> 0 < INR (List.length l).
Proof.
  destruct l; [congruence|]. intros _.
  apply lt_0_INR. simpl. lia.
Qed.

(** ** The regional composite *)

Section CompositeFacts.

Lemma weighted_weights_pos (pm mkt gp : option R) (sw : R * R) :
  In sw (Composite.weighted pm mkt gp) -> 0 < snd sw.
Proof.
  unfold Composite.weighted, Composite.entry.
  destruct pm, mkt, gp; simpl; intuition (subst; simpl; lra).
Qed.

Lemma total_w_pos (pm mkt gp : option R) :
  Composite.weighted pm mkt gp <> [] ->
  0 < Composite.total_w (Composite.weighted pm mkt gp).
Proof.
  intros H. unfold Composite.total_w.
  apply sum_map_pos; [exact H|]. apply weighted_weights_pos.
Qed.

Lemma applied_weights_sum (wl : list (R * R)) :
  0 < Composite.total_w wl -> Py.sum (Composite.applied_weights wl) = 1.
Proof.
  intros H. unfold Composite.applied_weights.
  rewrite sum_map_div. fold (Composite.total_w wl). field. lra.
Qed.

Lemma blend_is_weighted_sum (wl : list (R * R)) :
  Composite.blend wl
  = Py.sum (map (fun sw => fst sw * (snd sw / Composite.total_w wl)) wl).
Proof.
  unfold Composite.blend. apply sum_map_ext. intros. unfold Rdiv. ring.
Qed.

Lemma weighted_present (pm mkt gp : option R) :
  pm <> None \/ mkt <> None \/ gp <> None ->
  Composite.weighted pm mkt gp <> [].
Proof.
  unfold Composite.weighted, Composite.entry.
  destruct pm, mkt, gp; simpl; intuition congruence.
Qed.

End CompositeFacts.

Section CompositeCases.

Variables gdelt gt_global cf : option R.

(** Evaluates the blend of an explicit list of pairs. *)
Ltac blend_by_cases :=
  unfold calculate_regional_composite, Composite.weighted, Composite.entry;
  simpl app; cbv iota; f_equal;
  unfold Composite.blend, Composite.total_w; simpl map;
  rewrite !sum_cons, !sum_nil; simpl fst; simpl snd; lra.

Lemma composite_three (a b c : R) :
  calculate_regional_composite (Some a) (Some b) (Some c) gdelt gt_global cf
  = Py.round (a * 0.375 + b * 0.375 + c * 0.25) 1.
Proof. blend_by_cases. Qed.

Lemma composite_pm_mkt (a b : R) :
  calculate_regional_composite (Some a) (Some b) None gdelt gt_global cf
  = Py.round (a * 0.5 + b * 0.5) 1.
Proof. blend_by_cases. Qed.

Lemma composite_pm_panic (a c : R) :
  calculate_regional_composite (Some a) None (Some c) gdelt gt_global cf
  = Py.round (a * 0.6 + c * 0.4) 1.
Proof. blend_by_cases. Qed.

Lemma composite_mkt_panic (b c : R) :
  calculate_regional_composite None (Some b) (Some c) gdelt gt_global cf
  = Py.round (b * 0.6 + c * 0.4) 1.
Proof. blend_by_cases. Qed.

Lemma composite_pm_only (a : R) :
  calculate_regional_composite (Some a) None None gdelt gt_global cf
  = Py.round a 1.
Proof. blend_by_cases. Qed.

Lemma composite_mkt_only (b : R) :
  calculate_regional_composite None (Some b) None gdelt gt_global cf
  = Py.round b 1.
Proof. blend_by_cases. Qed.

Lemma composite_panic_only (c : R) :
  calculate_regional_composite None None (Some c) gdelt gt_global cf
  = Py.round c 1.
Proof. blend_by_cases. Qed.

End CompositeCases.

Lemma weighted_members (pm mkt gp : option R) (s w : R) :
  In (s, w) (Composite.weighted pm mkt gp)
  <-> (pm = Some s /\ w = 0.375) \/ (mkt = Some s /\ w = 0.375)
      \/ (gp = Some s /\ w = 0.25).
Proof.
  unfold Composite.weighted, Composite.entry.
  destruct pm as [a|], mkt as [b|], gp as [c|]; simpl; split;
    intros H; intuition (try discriminate; try congruence);
    repeat match goal with
           | H : Some _ = Some _ |- _ => injection H as ->
           | H : (_, _) = (_, _) |- _ => injection H as <- <-
           end;
    subst; auto 10.
Qed.

(** C2: in [calculate_regional_composite] over the three scored signals
    (polymarket 0.375, markets 0.375, gt_panic 0.25) a signal passed as
    [None] is dropped: the blended pairs are exactly the present signals,
    each with its table weight.  The weights applied to them are the table
    weights divided by the total of the present weights, and they sum to 1
    whenever at least one signal is present; the result is the blend with
    those weights, rounded to one decimal: 0.375/0.375/0.25 with all three
    present, 0.5/0.5 for polymarket and markets, 0.6/0.4 for either of them
    with gt_panic, and the signal itself when it is alone.  With all three
    missing the result is 50.0 exactly. *)
Theorem C2_regional_composite_renormalises
        (pm mkt gp gdelt gt_global cf : option R) :
  let wl := Composite.weighted pm mkt gp in
  let result := calculate_regional_composite pm mkt gp gdelt gt_global cf in
  wl = Composite.entry pm 0.375 ++ Composite.entry mkt 0.375
         ++ Composite.entry gp 0.25
  /\ (pm <> None \/ mkt <> None \/ gp <> None ->
      Py.sum (Composite.applied_weights wl) = 1
      /\ result
         = Py.round
             (Py.sum (map (fun sw => fst sw * (snd sw / Composite.total_w wl)) wl))
             1)
  /\ (pm = None -> mkt = None -> gp = None -> result = 50.0)
  /\ (forall s w : R,
         In (s, w) wl
         <-> (pm = Some s /\ w = 0.375) \/ (mkt = Some s /\ w = 0.375)
             \/ (gp = Some s /\ w = 0.25))
  /\ List.length wl
     = (match pm with Some _ => 1 | None => 0 end
        + match mkt with Some _ => 1 | None => 0 end
        + match gp with Some _ => 1 | None => 0 end)%nat
  /\ (forall a b c : R, pm = Some a -> mkt = Some b -> gp = Some c ->
         result = Py.round (a * 0.375 + b * 0.375 + c * 0.25) 1)
  /\ (forall a b : R, pm = Some a -> mkt = Some b -> gp = None ->
         result = Py.round (a * 0.5 + b * 0.5) 1)
  /\ (forall a c : R, pm = Some a -> mkt = None -> gp = Some c ->
         result = Py.round (a * 0.6 + c * 0.4) 1)
  /\ (forall b c : R, pm = None -> mkt = Some b -> gp = Some c ->
         result = Py.round (b * 0.6 + c * 0.4) 1)
  /\ (forall a : R, pm = Some a -> mkt = None -> gp = None ->
         result = Py.round a 1)
  /\ (forall b : R, pm = None -> mkt = Some b -> gp = None ->
         result = Py.round b 1)
  /\ (forall c : R, pm = None -> mkt = None -> gp = Some c ->
         result = Py.round c 1).
Proof.
  intros wl result. split; [reflexivity|]. split; [|split].
  - intros Hp. pose proof (weighted_present pm mkt gp Hp) as Hne.
    split.
    + apply applied_weights_sum. now apply total_w_pos.
    + subst result. unfold calculate_regional_composite. subst wl.
      destruct (Composite.weighted pm mkt gp) as [|sw wl'] eqn:E; [congruence|].
      now rewrite blend_is_weighted_sum.
  - intros -> -> ->. reflexivity.
  - split; [intros s w; apply weighted_members|].
    split; [subst wl; destruct pm, mkt, gp; reflexivity|].
    subst result.
    repeat split; intros; subst;
      auto using composite_three, composite_pm_mkt, composite_pm_panic,
        composite_mkt_panic, composite_pm_only, composite_mkt_only,
        composite_panic_only.
Qed.

(** C2 at a concrete build: polymarket 70, markets missing, gt_panic 40. *)
Lemma C2_regional_composite_renormalises_witness :
  Py.sum (Composite.applied_weights
            (Composite.weighted (Some 70) None (Some 40))) = 1.
Proof.
  apply (proj2 (C2_regional_composite_renormalises
                  (Some 70) None (Some 40) None None None)).
  left. discriminate.
Defined.

(** ** The global score *)

Section GlobalFacts.





Lemma amp_ge_1 (s : R) : 1 <= Global.amp s.
Proof. unfold Global.amp. decide_comparisons. Qed.

Lemma bw_pos (rc : list (string * regional_composite)) :
  rc <> [] -> 0 < Global.bw rc.
Proof.
  intros H. unfold Global.bw.
  pose proof (INR_length_pos rc H).
  apply Rdiv_lt_0_compat; lra.
Qed.

Lemma tw_is_sum (rc : list (string * regional_composite)) :
  Global.tw rc = Py.sum (map snd (Global.wts rc)).
Proof.
  unfold Global.tw. generalize (Global.wts rc) as l. intros l.
  assert (G : forall a, fold_left (fun acc (kw : string * R) => acc + snd kw) l a
                        = a + Py.sum (map snd l)).
  { induction l as [|x l IH]; intros a; simpl.
    - rewrite sum_nil. lra.
    - rewrite IH, sum_cons. lra. }
  rewrite G. lra.
Qed.

Lemma tw_as_amp_sum (rc : list (string * regional_composite)) :
  Global.tw rc
  = Py.sum (map (fun kd => Global.bw rc * Global.amp (composite (snd kd))) rc).
Proof.
  rewrite tw_is_sum. unfold Global.wts. rewrite map_map. reflexivity.
Qed.

Lemma tw_pos (rc : list (string * regional_composite)) :
  rc <> [] -> 0 < Global.tw rc.
Proof.
  intros H. rewrite tw_as_amp_sum.
  apply sum_map_pos; [exact H|]. intros kd _.
  pose proof (bw_pos rc H). pose proof (amp_ge_1 (composite (snd kd))). nra.
Qed.


Lemma normalised_weights_formula (rc : list (string * regional_composite)) :
  Global.normalised_weights rc
  = map (fun kd => (fst kd,
                    Global.bw rc * Global.amp (composite (snd kd)) / Global.tw rc))
        rc.
Proof.
  unfold Global.normalised_weights, Global.wts. now rewrite map_map.
Qed.




Lemma global_score_uses_rs (rc : list (string * regional_composite))
      (gp : option R) :
  rc <> [] ->
  calculate_dynamic_global_score rc gp
  = (Py.round
       (Rmax 0 (Rmin 100
          (Global.rs rc * GLOBAL_REGIONAL_WEIGHT
           + match gp with Some g => g | None => 50.0 end * GLOBAL_PM_WEIGHT)))
       1,
     map (fun kw => (fst kw, Py.round (snd kw) 3)) (Global.normalised_weights rc)).
Proof.
  intros Hne. pose proof (tw_pos rc Hne) as Ht.
  unfold calculate_dynamic_global_score.
  destruct rc as [|kd rc']; [congruence|].
  unfold Py.Reqb. destruct (Req_dec_T _ _) as [E|_]; [lra|].
  f_equal. unfold Global.normalised_weights. now rewrite map_map.
Qed.

End GlobalFacts.




(** ** Baselines and the Polymarket aggregate *)

Section PolymarketFacts.

Lemma get_In {V : Type} (k : string) (d : list (string * V)) (v : V) :
  Py.get k d = Some v -> In (k, v) d.
Proof.
  induction d as [|[k' v'] d IH]; simpl; [discriminate|].
  destruct (String.eqb_spec k k') as [->|Hne].
  - intros [= ->]. now left.
  - intros H. right. now apply IH.
Qed.

Lemma entry_mature_iff (records : list price_record) :
  bl_mature (Baselines.entry records) = true
  <-> (PM_MATURITY_THRESHOLD <= bl_count (Baselines.entry records))%nat.
Proof.
  unfold Baselines.entry. simpl.
  destruct (Nat.ltb_spec (List.length records) PM_MATURITY_THRESHOLD);
    split; intros; try discriminate; try reflexivity; lia.
Qed.

Lemma baselines_mature_iff (rows : list snapshot_row) (q : string) (e : baseline) :
  Py.get q (fetch_contract_baselines rows) = Some e ->
  (bl_mature e = true <-> (PM_MATURITY_THRESHOLD <= bl_count e)%nat).
Proof.
  intros H. apply get_In in H. unfold fetch_contract_baselines in H.
  destruct rows as [|r rows]; [contradiction|].
  apply in_map_iff in H. destruct H as [[q' records] [[= _ <-] _]].
  apply entry_mature_iff.
Qed.

Lemma get_append_to_same (q : string) (r : price_record)
      (d : list (string * list price_record)) :
  Py.get q (Baselines.append_to q r d)
  = Some (match Py.get q d with Some rs => rs ++ [r] | None => [r] end).
Proof.
  induction d as [|[k rs] d IH]; simpl.
  - now rewrite String.eqb_refl.
  - destruct (String.eqb q k) eqn:E; simpl; rewrite E; [reflexivity | exact IH].
Qed.

Lemma get_append_to_other (q q' : string) (r : price_record)
      (d : list (string * list price_record)) :
  q' <> q -> Py.get q' (Baselines.append_to q r d) = Py.get q' d.
Proof.
  intros Hne. induction d as [|[k rs] d IH]; simpl.
  - destruct (String.eqb_spec q' q); [contradiction | reflexivity].
  - destruct (String.eqb_spec q k) as [->|Hqk]; simpl.
    + destruct (String.eqb_spec q' k); [contradiction | reflexivity].
    + now rewrite IH.
Qed.

(** The grouping loop, started from any dict [d]. *)
Lemma get_grouped (q : string) (rows : list snapshot_row)
      (d : list (string * list price_record)) :
  q <> EmptyString ->
  Py.get q
    (fold_left
       (fun d row =>
          match row_risk_price row with
          | Some p =>
            if String.eqb (row_question row) EmptyString then d
            else Baselines.append_to (row_question row)
                   {| rp := p; at_ := row_recorded_at row;
                      slug := row_contract_slug row |} d
          | None => d
          end) rows d)
  = match Py.get q d, Baselines.observations q rows with
    | Some rs, obs => Some (rs ++ obs)
    | None, [] => None
    | None, obs => Some obs
    end.
Proof.
  intros Hq. revert d.
  induction rows as [|row rows IH]; intros d; simpl.
  - destruct (Py.get q d); [now rewrite app_nil_r | reflexivity].
  - destruct (row_risk_price row) as [p|]; [|apply IH].
    destruct (String.eqb_spec q (row_question row)) as [-> | Hne].
    + destruct (String.eqb_spec (row_question row) EmptyString) as [E|_];
        [contradiction|].
      rewrite IH, get_append_to_same.
      destruct (Py.get (row_question row) d) as [rs|].
      * now rewrite <- app_assoc.
      * reflexivity.
    + destruct (String.eqb (row_question row) EmptyString); [apply IH|].
      rewrite IH, get_append_to_other by exact Hne. reflexivity.
Qed.

Lemma get_grouped_empty_key (rows : list snapshot_row)
      (d : list (string * list price_record)) :
  Py.get EmptyString d = None ->
  Py.get EmptyString
    (fold_left
       (fun d row =>
          match row_risk_price row with
          | Some p =>
            if String.eqb (row_question row) EmptyString then d
            else Baselines.append_to (row_question row)
                   {| rp := p; at_ := row_recorded_at row;
                      slug := row_contract_slug row |} d
          | None => d
          end) rows d) = None.
Proof.
  revert d. induction rows as [|row rows IH]; intros d Hd; simpl; [exact Hd|].
  destruct (row_risk_price row) as [p|]; [|now apply IH].
  destruct (String.eqb_spec (row_question row) EmptyString) as [E|Hne];
    [now apply IH|].
  apply IH. rewrite get_append_to_other; auto.
Qed.

Lemma get_map_entry (q : string) (d : list (string * list price_record)) :
  Py.get q (map (fun qr => (fst qr, Baselines.entry (snd qr))) d)
  = option_map Baselines.entry (Py.get q d).
Proof.
  induction d as [|[k rs] d IH]; simpl; [reflexivity|].
  destruct (String.eqb q k); [reflexivity | exact IH].
Qed.

(** The count of a baseline is the number of stored observations of its
    item. *)
Lemma baselines_count (rows : list snapshot_row) (q : string) (e : baseline) :
  Py.get q (fetch_contract_baselines rows) = Some e ->
  bl_count e = List.length (Baselines.observations q rows).
Proof.
  unfold fetch_contract_baselines.
  destruct rows as [|r rows]; [discriminate|].
  rewrite get_map_entry. unfold Baselines.by_question.
  destruct (String.eqb_spec q EmptyString) as [-> | Hq].
  - now rewrite get_grouped_empty_key.
  - rewrite get_grouped by exact Hq. simpl Py.get at 1.
    destruct (Baselines.observations q (r :: rows)); [discriminate|].
    intros [= <-]. reflexivity.
Qed.

Variable baselines : list (string * baseline).

(** What the loop puts in [mature]. *)
Lemma classify_mature (contracts : list contract) (mi : mature_item) :
  In mi (fst (Polymarket.classify contracts baselines)) ->
  In (mi_contract mi) contracts
  /\ Py.get (question (mi_contract mi)) baselines = Some (mi_baseline mi)
  /\ bl_mature (mi_baseline mi) = true
  /\ mi_z mi = Py.round (Polymarket.item_z (mi_contract mi) (mi_baseline mi)) 3.
Proof.
  induction contracts as [|m rest IH]; simpl; [contradiction|].
  destruct (Polymarket.classify rest baselines) as [mature immature] eqn:E.
  simpl in IH.
  destruct (Py.get (question m) baselines) as [bl|] eqn:G.
  - destruct (bl_mature bl) eqn:M; simpl.
    + intros [<- | Hin]; simpl; [auto|].
      destruct (IH Hin) as (? & ? & ? & ?). auto.
    + intros Hin. destruct (IH Hin) as (? & ? & ? & ?). auto.
  - simpl. intros Hin. destruct (IH Hin) as (? & ? & ? & ?). auto.
Qed.

(** The contracts behind [mature] are the contracts marked mature. *)
Lemma classify_contracts (contracts : list contract) :
  map mi_contract (fst (Polymarket.classify contracts baselines))
  = filter (Polymarket.is_mature baselines) contracts.
Proof.
  induction contracts as [|m rest IH]; simpl; [reflexivity|].
  destruct (Polymarket.classify rest baselines) as [mature immature] eqn:E.
  simpl in IH. unfold Polymarket.is_mature at 1.
  destruct (Py.get (question m) baselines) as [bl|]; [|exact IH].
  destruct (bl_mature bl); simpl; [now rewrite IH | exact IH].
Qed.

(** Dropping the contracts that are not marked mature leaves [mature] as
    it is. *)
Lemma classify_filter (contracts : list contract) :
  fst (Polymarket.classify (filter (Polymarket.is_mature baselines) contracts)
                           baselines)
  = fst (Polymarket.classify contracts baselines).
Proof.
  induction contracts as [|m rest IH]; simpl; [reflexivity|].
  destruct (Polymarket.classify rest baselines) as [mature immature] eqn:E.
  simpl in IH. unfold Polymarket.is_mature at 1.
  destruct (Py.get (question m) baselines) as [bl|] eqn:G; [|exact IH].
  destruct (bl_mature bl) eqn:M; [|exact IH].
  simpl. rewrite G, M.
  destruct (Polymarket.classify (filter _ rest) baselines) as [mature' immature'].
  simpl in *. now rewrite IH.
Qed.

Lemma classify_mature_length (contracts : list contract) :
  List.length (fst (Polymarket.classify contracts baselines))
  = List.length (filter (Polymarket.is_mature baselines) contracts).
Proof. now rewrite <- classify_contracts, length_map. Qed.

Lemma classify_immature_length (contracts : list contract) :
  List.length (snd (Polymarket.classify contracts baselines))
  = List.length
      (filter (fun m => negb (Polymarket.is_mature baselines m)) contracts).
Proof.
  induction contracts as [|m rest IH]; simpl; [reflexivity|].
  destruct (Polymarket.classify rest baselines) as [mature immature] eqn:E.
  simpl in IH. unfold Polymarket.is_mature at 1.
  destruct (Py.get (question m) baselines) as [bl|]; simpl; [|now rewrite IH].
  destruct (bl_mature bl); simpl; now rewrite IH.
Qed.

Lemma filter_all_false {A : Type} (f : A -> bool) (l : list A) :
  filter f l = [] -> List.length (filter (fun x => negb (f x)) l) = List.length l.
Proof.
  induction l as [|a l IH]; simpl; [reflexivity|].
  destruct (f a); simpl; [discriminate|]. intros H. now rewrite IH.
Qed.

(** The result in terms of the list [mature]. *)
Lemma score_by_mature (contracts : list contract) :
  let mature := fst (Polymarket.classify contracts baselines) in
  (mature = [] ->
   fst (calculate_polymarket_score_normalised contracts baselines) = 50.0
   /\ agg_z (snd (calculate_polymarket_score_normalised contracts baselines)) = 0.0
   /\ mature_count (snd (calculate_polymarket_score_normalised contracts baselines))
      = 0%nat)
  /\ (mature <> [] ->
      fst (calculate_polymarket_score_normalised contracts baselines)
      = Py.round (z_to_centred_score (Polymarket.aggregate_z mature)) 1
      /\ agg_z (snd (calculate_polymarket_score_normalised contracts baselines))
         = Py.round (Polymarket.aggregate_z mature) 3
      /\ mature_count (snd (calculate_polymarket_score_normalised contracts baselines))
         = List.length mature).
Proof.
  intros mature. subst mature.
  unfold calculate_polymarket_score_normalised.
  destruct contracts as [|c0 others].
  - simpl. split; [auto | congruence].
  - destruct (Polymarket.classify (c0 :: others) baselines) as [mature immature].
    simpl fst. destruct mature as [|mi mature].
    + split; [auto | congruence].
    + split; [discriminate | auto].
Qed.

Lemma counts_by_maturity (contracts : list contract) :
  mature_count (snd (calculate_polymarket_score_normalised contracts baselines))
  = List.length (filter (Polymarket.is_mature baselines) contracts)
  /\ immature_count (snd (calculate_polymarket_score_normalised contracts baselines))
     = List.length
         (filter (fun m => negb (Polymarket.is_mature baselines m)) contracts).
Proof.
  pose proof (classify_mature_length contracts) as Hm.
  pose proof (classify_immature_length contracts) as Hi.
  pose proof (classify_contracts contracts) as Hc.
  unfold calculate_polymarket_score_normalised.
  destruct contracts as [|c0 others]; [simpl; auto|].
  destruct (Polymarket.classify (c0 :: others) baselines) as [mature immature].
  simpl fst in *. simpl snd in *.
  destruct mature as [|mi mature]; simpl mature_count; simpl immature_count.
  - split; [exact Hm|]. symmetry.
    apply (filter_all_false (Polymarket.is_mature baselines) (c0 :: others)).
    now rewrite <- Hc.
  - split; [exact Hm | exact Hi].
Qed.

(** Items that are not marked mature can be removed without changing the
    score or the reported aggregate. *)
Lemma score_ignores_immature (contracts : list contract) :
  fst (calculate_polymarket_score_normalised contracts baselines)
  = fst (calculate_polymarket_score_normalised
           (filter (Polymarket.is_mature baselines) contracts) baselines)
  /\ agg_z (snd (calculate_polymarket_score_normalised contracts baselines))
     = agg_z (snd (calculate_polymarket_score_normalised
                     (filter (Polymarket.is_mature baselines) contracts)
                     baselines)).
Proof.
  destruct (score_by_mature contracts) as [He Hn].
  destruct (score_by_mature (filter (Polymarket.is_mature baselines) contracts))
    as [He' Hn'].
  rewrite classify_filter in He', Hn'.
  destruct (fst (Polymarket.classify contracts baselines)) as [|mi mature] eqn:E.
  - destruct (He eq_refl) as (-> & -> & _).
    destruct (He' eq_refl) as (-> & -> & _). auto.
  - assert (Hne : mi :: mature <> []) by discriminate.
    destruct (Hn Hne) as (-> & -> & _).
    destruct (Hn' Hne) as (-> & -> & _). auto.
Qed.

End PolymarketFacts.

(** C1: [fetch_contract_baselines] marks an item mature exactly when its
    count, the number of stored observations of the item, is at least
    [PM_MATURITY_THRESHOLD], which is 50; only contracts
    whose baseline is marked mature enter the list the aggregate z-score is
    computed from; so a contract whose baseline count is below 50 is not in
    that list and is among the contracts the immature count counts;
    removing the contracts that are not mature changes neither the score
    nor the reported aggregate z; and the mature and immature counts of the
    stats count the contracts marked mature and the others. *)
Theorem C1_immature_items_carry_no_weight
        (rows : list snapshot_row) (contracts : list contract)
        (m : contract) (e : baseline) :
  let baselines := fetch_contract_baselines rows in
  let result := calculate_polymarket_score_normalised contracts baselines in
  In m contracts ->
  Py.get (question m) baselines = Some e ->
  (bl_count e < 50)%nat ->
  PM_MATURITY_THRESHOLD = 50%nat
  /\ (forall q b, Py.get q baselines = Some b ->
                  (bl_mature b = true <-> (PM_MATURITY_THRESHOLD <= bl_count b)%nat))
  /\ bl_count e = List.length (Baselines.observations (question m) rows)
  /\ bl_mature e = false
  /\ map mi_contract (fst (Polymarket.classify contracts baselines))
     = filter (Polymarket.is_mature baselines) contracts
  /\ ~ In m (map mi_contract (fst (Polymarket.classify contracts baselines)))
  /\ In m (filter (fun c => negb (Polymarket.is_mature baselines c)) contracts)
  /\ mature_count (snd result)
     = List.length (filter (Polymarket.is_mature baselines) contracts)
  /\ immature_count (snd result)
     = List.length
         (filter (fun c => negb (Polymarket.is_mature baselines c)) contracts)
  /\ fst result
     = fst (calculate_polymarket_score_normalised
              (filter (Polymarket.is_mature baselines) contracts) baselines)
  /\ agg_z (snd result)
     = agg_z (snd (calculate_polymarket_score_normalised
                     (filter (Polymarket.is_mature baselines) contracts)
                     baselines)).
Proof.
  intros baselines result Hin Hget Hlt.
  assert (Hiff : forall q b, Py.get q baselines = Some b ->
            (bl_mature b = true <-> (PM_MATURITY_THRESHOLD <= bl_count b)%nat))
    by (intros q b; apply baselines_mature_iff).
  assert (He : bl_mature e = false).
  { destruct (bl_mature e) eqn:M; [|reflexivity].
    apply (Hiff _ _ Hget) in M. unfold PM_MATURITY_THRESHOLD in M. lia. }
  assert (Hm : Polymarket.is_mature baselines m = false).
  { unfold Polymarket.is_mature. now rewrite Hget. }
  split; [reflexivity|]. split; [exact Hiff|].
  split; [now apply baselines_count|]. split; [exact He|].
  split; [apply classify_contracts|].
  split.
  { rewrite classify_contracts. intros Hf. apply filter_In in Hf.
    destruct Hf as [_ Hf]. congruence. }
  split.
  { apply filter_In. split; [exact Hin|]. now rewrite Hm. }
  destruct (counts_by_maturity baselines contracts) as [Hmc Hic].
  destruct (score_ignores_immature baselines contracts) as [Hs Ha].
  auto.
Qed.

(** C1 at one contract whose baseline holds a single observation. *)
Lemma C1_immature_items_carry_no_weight_witness :
  ~ In sample_contract
       (map mi_contract
            (fst (Polymarket.classify [sample_contract]
                    (fetch_contract_baselines one_row)))).
Proof.
  apply (C1_immature_items_carry_no_weight one_row [sample_contract]
           sample_contract
           (Baselines.entry [ {| rp := 0.14;
                                 at_ := "2026-01-01T00:00:00+00:00";
                                 slug := "q" |} ])).
  - left. reflexivity.
  - reflexivity.
  - simpl. lia.
Defined.

(** C4, as amended: every item of the list [mature] belongs to a contract
    whose baseline is marked mature, and its z-score is
    (risk_price - mean) / max(std, 0.01) rounded to three decimals when the
    baseline std exceeds 0.001, and 0.0 when the std is 0.001 or less.  For
    mean 0.10, std 0.02 and current value 0.14 it is 2.0, and a std between
    0.001 and 0.01 is replaced by the floor 0.01 as the divisor. *)
Theorem C4_item_z_score
        (contracts : list contract) (baselines : list (string * baseline))
        (mi : mature_item) :
  In mi (fst (Polymarket.classify contracts baselines)) ->
  let m := mi_contract mi in
  let bl := mi_baseline mi in
  PM_STD_FLOOR = 0.01
  /\ Py.get (question m) baselines = Some bl
  /\ bl_mature bl = true
  /\ (0.001 < bl_std bl ->
      mi_z mi = Py.round ((risk_price m - bl_mean bl)
                          / Rmax (bl_std bl) PM_STD_FLOOR) 3)
  /\ (0.001 < bl_std bl <= 0.01 ->
      mi_z mi = Py.round ((risk_price m - bl_mean bl) / 0.01) 3)
  /\ (bl_std bl <= 0.001 -> mi_z mi = 0.0)
  /\ map mi_z (fst (Polymarket.classify [sample_contract]
                      [("Q"%string, sample_baseline)]))
     = [2.0].
Proof.
  intros Hin m bl.
  destruct (classify_mature baselines contracts mi Hin) as (_ & Hg & Hm & Hz).
  fold m in Hg, Hz. fold bl in Hg, Hm, Hz.
  split; [reflexivity|]. split; [exact Hg|]. split; [exact Hm|].
  assert (Hround0 : Py.round 0.0 3 = 0.0).
  { apply (round_exact 3 0). lra. }
  split; [|split; [|split]].
  - intros Hs. rewrite Hz. unfold Polymarket.item_z. decide_comparisons.
  - intros Hs. rewrite Hz. unfold Polymarket.item_z, PM_STD_FLOOR.
    decide_comparisons.
  - intros Hs. rewrite Hz. unfold Polymarket.item_z. decide_comparisons.
  - cbn. f_equal. unfold Polymarket.item_z, PM_STD_FLOOR. cbn.
    decide_comparisons.
    replace ((0.14 - 0.10) / 0.02) with 2.0 by lra.
    apply (round_exact 3 2000). simpl. lra.
Qed.

(** C4 at the sample contract with its baseline of 60 observations. *)
Lemma C4_item_z_score_witness :
  In sample_item
     (fst (Polymarket.classify [sample_contract] [("Q"%string, sample_baseline)]))
  /\ bl_mature (mi_baseline sample_item) = true.
Proof.
  split; [left; reflexivity|].
  apply (C4_item_z_score [sample_contract] [("Q"%string, sample_baseline)]
           sample_item).
  left. reflexivity.
Defined.

(** C4 as it was claimed fails: a mature item with the near-zero std
    0.0005 does not get (0.14 - 0.10) / 0.01 = 4; its z-score is 0.0. *)
Lemma C4_floor_skipped_for_flat_baseline :
  ~ (forall (contracts : list contract) (baselines : list (string * baseline))
            (mi : mature_item),
        In mi (fst (Polymarket.classify contracts baselines)) ->
        mi_z mi = (risk_price (mi_contract mi) - bl_mean (mi_baseline mi))
                  / Rmax (bl_std (mi_baseline mi)) PM_STD_FLOOR).
Proof.
  intros H.
  specialize (H [sample_contract] [("Q"%string, flat_baseline)] flat_item
                (or_introl eq_refl)).
  revert H. unfold flat_item, Polymarket.item_z, PM_STD_FLOOR. cbn.
  decide_comparisons.
  rewrite (round_exact 3 0) by lra. lra.
Qed.

(** C7: when the list of mature items is not empty (volumes are not
    negative), the aggregate z-score is the volume-weighted mean
    sum(z_i * v_i) / sum(v_i) of the items' z-scores, and their unweighted
    arithmetic mean when the total volume is zero; the score is the
    Normalizer applied to it and the stats report it rounded to three
    decimals.  When no item is mature the score is 50.0 exactly, with
    [agg_z] 0.0 and [mature_count] 0 in the stats. *)
Theorem C7_volume_weighted_aggregate
        (contracts : list contract) (baselines : list (string * baseline)) :
  let mature := fst (Polymarket.classify contracts baselines) in
  let result := calculate_polymarket_score_normalised contracts baselines in
  let sum_v := Py.sum (map (fun mi => volume (mi_contract mi)) mature) in
  (mature <> [] ->
   (forall mi, In mi mature -> 0 <= volume (mi_contract mi)) ->
   (sum_v <> 0 ->
    Polymarket.aggregate_z mature
    = Py.sum (map (fun mi => mi_z mi * volume (mi_contract mi)) mature) / sum_v)
   /\ (sum_v = 0 ->
       Polymarket.aggregate_z mature
       = Py.sum (map mi_z mature) / INR (List.length mature))
   /\ fst result = Py.round (z_to_centred_score (Polymarket.aggregate_z mature)) 1
   /\ agg_z (snd result) = Py.round (Polymarket.aggregate_z mature) 3
   /\ mature_count (snd result) = List.length mature)
  /\ (mature = [] ->
      fst result = 50.0
      /\ agg_z (snd result) = 0.0
      /\ mature_count (snd result) = 0%nat).
Proof.
  intros mature result sum_v.
  destruct (score_by_mature baselines contracts) as [He Hn].
  fold mature in He, Hn. fold result in He, Hn.
  split; [|exact He].
  intros Hne Hvol.
  assert (Hnonneg : 0 <= sum_v) by (apply sum_map_nonneg; exact Hvol).
  split; [|split; [|exact (Hn Hne)]].
  - intros Hnz. unfold Polymarket.aggregate_z, Polymarket.total_vol.
    fold sum_v. unfold Py.Rltb. destruct (Rlt_dec 0 sum_v); [reflexivity | lra].
  - intros Hz. unfold Polymarket.aggregate_z, Polymarket.total_vol.
    fold sum_v. unfold Py.Rltb. destruct (Rlt_dec 0 sum_v); [lra|].
    unfold Py.np_mean. now rewrite length_map.
Qed.

(** C7 at the sample contract with its mature baseline. *)
Lemma C7_volume_weighted_aggregate_witness :
  fst (calculate_polymarket_score_normalised
         [sample_contract] [("Q"%string, sample_baseline)])
  = Py.round
      (z_to_centred_score
         (Polymarket.aggregate_z
            (fst (Polymarket.classify [sample_contract]
                    [("Q"%string, sample_baseline)])))) 1.
Proof.
  apply (proj1 (C7_volume_weighted_aggregate
                  [sample_contract] [("Q"%string, sample_baseline)])).
  - discriminate.
  - intros mi [<- | []]. simpl. lra.
Defined.

(** ** The Google Trends refresh *)

Section GTrendsFacts.





End GTrendsFacts.



(** ** The regional composites *)

Section RegionalFacts.

Variables pm_reg mkt_reg : list (string * scored_region).
Variables gdelt_reg cloudflare_reg : option (list (string * scored_region)).
Variable gtrends_reg : option (list (string * gtrends_region)).

Lemma composites_get (rk : string) :
  In rk REGIONS ->
  Py.get rk (calculate_regional_composites pm_reg mkt_reg gdelt_reg gtrends_reg
               cloudflare_reg)
  = Some (Regional.region pm_reg mkt_reg (Regional.or_empty gdelt_reg)
            (Regional.or_empty gtrends_reg) (Regional.or_empty cloudflare_reg) rk).
Proof.
  unfold calculate_regional_composites, REGIONS.
  intros [<- | [<- | [<- | []]]]; reflexivity.
Qed.

Lemma score_or_50_missing (d : list (string * scored_region)) (rk : string) :
  Py.get rk d = None -> Regional.score_or_50 d rk = 50.0.
Proof. intros H. unfold Regional.score_or_50. now rewrite H. Qed.

Lemma composite_all_present (ps ms g : R) (gs gg cf : option R) :
  calculate_regional_composite (Some ps) (Some ms) (Some g) gs gg cf
  = Py.round (ps * 0.375 + ms * 0.375 + g * 0.25) 1.
Proof.
  unfold calculate_regional_composite, Composite.weighted, Composite.entry.
  simpl app. cbv iota. f_equal.
  unfold Composite.blend, Composite.total_w. simpl map.
  rewrite !sum_cons, !sum_nil. simpl fst. simpl snd.
  replace (0.375 + (0.375 + (0.25 + 0))) with 1 by lra. lra.
Qed.

Lemma region_fields (rk : string) :
  let r := Regional.region pm_reg mkt_reg (Regional.or_empty gdelt_reg)
             (Regional.or_empty gtrends_reg) (Regional.or_empty cloudflare_reg) rk in
  let ps := Regional.score_or_50 pm_reg rk in
  let ms := Regional.score_or_50 mkt_reg rk in
  let gt_panic := Regional.gt_panic_of (Regional.or_empty gtrends_reg) rk in
  let gs := Regional.score_or_none (Regional.or_empty gdelt_reg) rk in
  let gt_global := Regional.gt_global_of (Regional.or_empty gtrends_reg) rk in
  let cfs := Regional.score_or_none (Regional.or_empty cloudflare_reg) rk in
  composite r = calculate_regional_composite (Some ps) (Some ms) gt_panic
                  gs gt_global cfs
  /\ convergence_label r
     = convergence_label_of (Regional.scored_sigs ps ms gt_panic)
  /\ signals r = Regional.sigs ps ms gt_panic gs gt_global cfs.
Proof.
  cbv zeta. unfold Regional.region, convergence_label_of.
  destruct (get_convergence_status _) as [[cl cd] cc]. simpl. auto.
Qed.

End RegionalFacts.

(** C10: in [calculate_regional_composites] an absent per-source score is
    replaced by 50.0.  A region missing from the polymarket (or markets)
    map enters the blend as 50.0 like a real score: the composite is the
    one [calculate_regional_composite] gives for a present signal of 50.0,
    and with a panic score present the three fixed weights 0.375, 0.375
    and 0.25 are applied unchanged.  The map given to the convergence
    classifier and the published signals map carry 50.0 for an absent
    gt_panic, gdelt, gt_global or cloudflare score, so the scored-signal
    map always has exactly three present entries. *)
Theorem C10_absent_scores_become_50
        (pm_reg mkt_reg : list (string * scored_region))
        (gdelt_reg cloudflare_reg : option (list (string * scored_region)))
        (gtrends_reg : option (list (string * gtrends_region)))
        (rk : string) :
  In rk REGIONS ->
  let ps := Regional.score_or_50 pm_reg rk in
  let ms := Regional.score_or_50 mkt_reg rk in
  let gt_panic := Regional.gt_panic_of (Regional.or_empty gtrends_reg) rk in
  let gs := Regional.score_or_none (Regional.or_empty gdelt_reg) rk in
  let gt_global := Regional.gt_global_of (Regional.or_empty gtrends_reg) rk in
  let cfs := Regional.score_or_none (Regional.or_empty cloudflare_reg) rk in
  exists r : regional_composite,
    Py.get rk (calculate_regional_composites pm_reg mkt_reg gdelt_reg
                 gtrends_reg cloudflare_reg) = Some r
    /\ (Py.get rk pm_reg = None -> ps = 50.0)
    /\ (Py.get rk mkt_reg = None -> ms = 50.0)
    /\ composite r
       = calculate_regional_composite (Some ps) (Some ms) gt_panic
           gs gt_global cfs
    /\ Composite.weighted (Some ps) (Some ms) gt_panic
       = (ps, 0.375) :: (ms, 0.375) :: Composite.entry gt_panic 0.25
    /\ (forall g : R, gt_panic = Some g ->
          composite r = Py.round (ps * 0.375 + ms * 0.375 + g * 0.25) 1)
    /\ convergence_label r
       = convergence_label_of
           [("polymarket", Some ps); ("markets", Some ms);
            ("gt_panic", Some (match gt_panic with Some g => g | None => 50.0 end))
           ]%string
    /\ Convergence.active_of (Regional.scored_sigs ps ms gt_panic)
       = [("polymarket", ps); ("markets", ms);
          ("gt_panic", match gt_panic with Some g => g | None => 50.0 end)
         ]%string
    /\ signals r
       = [("polymarket", ps); ("markets", ms);
          ("gt_panic", match gt_panic with Some g => g | None => 50.0 end);
          ("gdelt", match gs with Some g => g | None => 50.0 end);
          ("gt_global", match gt_global with Some g => g | None => 50.0 end);
          ("cloudflare", match cfs with Some g => g | None => 50.0 end)
         ]%string.
Proof.
  intros Hin ps ms gt_panic gs gt_global cfs.
  eexists. split; [now apply composites_get|].
  destruct (region_fields pm_reg mkt_reg gdelt_reg cloudflare_reg gtrends_reg rk)
    as (Hc & Hl & Hs).
  fold ps ms gt_panic gs gt_global cfs in Hc, Hl, Hs.
  split; [apply score_or_50_missing|].
  split; [apply score_or_50_missing|].
  split; [exact Hc|].
  split; [reflexivity|].
  split.
  { intros g Hg. rewrite Hc, Hg. apply composite_all_present. }
  split; [exact Hl|].
  split; [reflexivity | exact Hs].
Qed.

(** C10 at the region europe with every input map empty. *)
Lemma C10_absent_scores_become_50_witness :
  exists r : regional_composite,
    Py.get "europe" (calculate_regional_composites [] [] None None None) = Some r
    /\ signals r
       = [("polymarket", 50.0); ("markets", 50.0); ("gt_panic", 50.0);
          ("gdelt", 50.0); ("gt_global", 50.0); ("cloudflare", 50.0)]%string.
Proof.
  destruct (C10_absent_scores_become_50 [] [] None None None "europe"
              (or_introl eq_refl))
    as (r & Hget & _ & _ & _ & _ & _ & _ & _ & Hs).
  exists r. split; [exact Hget | exact Hs].
Defined.

(** * Further properties of the scoring code *)

(** ** Rounding and weighted means *)

Section MeanFacts.

Lemma round_idempotent (x : R) (n : nat) :
  Py.round (Py.round x n) n = Py.round x n.
Proof.
  apply (round_exact n (Py.round_half_even (x * 10 ^ n))).
  unfold Py.round. pose proof (pow10_pos n). field. lra.
Qed.

(** Rounding keeps a value between two bounds that have [n] decimals. *)
Lemma round_between (n : nat) (a b : Z) (lo hi x : R) :
  lo * 10 ^ n = IZR a -> hi * 10 ^ n = IZR b ->
  lo <= x <= hi -> lo <= Py.round x n <= hi.
Proof.
  intros Ha Hb [Hlo Hhi]. split.
  - rewrite <- (round_exact n a lo Ha) at 1. now apply round_mono.
  - rewrite <- (round_exact n b hi Hb) at 1. now apply round_mono.
Qed.

Context {A : Type}.

Lemma sum_map_le (f g : A -> R) (l : list A) :
  (forall x, In x l -> f x <= g x) -> Py.sum (map f l) <= Py.sum (map g l).
Proof.
  induction l as [|a l IH]; intros H; simpl.
  - lra.
  - rewrite !sum_cons.
    assert (f a <= g a) by auto with datatypes.
    assert (Py.sum (map f l) <= Py.sum (map g l)) by auto with datatypes.
    lra.
Qed.

Lemma sum_map_plus (f g : A -> R) (l : list A) :
  Py.sum (map (fun x => f x + g x) l) = Py.sum (map f l) + Py.sum (map g l).
Proof.
  induction l as [|a l IH]; simpl.
  - rewrite !sum_nil. lra.
  - rewrite !sum_cons, IH. lra.
Qed.

Lemma sum_map_scale_l (f : A -> R) (c : R) (l : list A) :
  Py.sum (map (fun x => c * f x) l) = c * Py.sum (map f l).
Proof.
  induction l as [|a l IH]; simpl.
  - rewrite !sum_nil. lra.
  - rewrite !sum_cons, IH. lra.
Qed.

(** A mean with positive weights lies between bounds of its values. *)
Lemma weighted_mean_between (v w : A -> R) (l : list A) (lo hi : R) :
  l <> [] ->
  (forall x, In x l -> 0 < w x) ->
  (forall x, In x l -> lo <= v x <= hi) ->
  lo <= Py.sum (map (fun x => v x * w x) l) / Py.sum (map w l) <= hi.
Proof.
  intros Hne Hw Hv.
  pose proof (sum_map_pos w l Hne Hw) as HW.
  assert (Hlo : Py.sum (map (fun x => lo * w x) l)
                <= Py.sum (map (fun x => v x * w x) l)).
  { apply sum_map_le. intros x Hx.
    specialize (Hw x Hx). specialize (Hv x Hx). nra. }
  assert (Hhi : Py.sum (map (fun x => v x * w x) l)
                <= Py.sum (map (fun x => hi * w x) l)).
  { apply sum_map_le. intros x Hx.
    specialize (Hw x Hx). specialize (Hv x Hx). nra. }
  rewrite sum_map_scale_l in Hlo, Hhi.
  split.
  - apply Rmult_le_reg_r with (Py.sum (map w l)); [exact HW|].
    unfold Rdiv. rewrite Rmult_assoc, Rinv_l by lra. lra.
  - apply Rmult_le_reg_r with (Py.sum (map w l)); [exact HW|].
    unfold Rdiv. rewrite Rmult_assoc, Rinv_l by lra. lra.
Qed.

(** A plain mean lies between bounds of its values. *)
Lemma mean_between (v : A -> R) (l : list A) (lo hi : R) :
  l <> [] ->
  (forall x, In x l -> lo <= v x <= hi) ->
  lo <= Py.np_mean (map v l) <= hi.
Proof.
  intros Hne Hv. unfold Py.np_mean. rewrite length_map.
  pose proof (weighted_mean_between v (fun _ => 1) l lo hi Hne) as H.
  rewrite (sum_map_const (fun _ : A => 1) 1 l) in H by reflexivity.
  rewrite (sum_map_ext (fun x => v x * 1) v) in H by (intros; lra).
  rewrite Rmult_1_r in H. apply H; [intros; lra | exact Hv].
Qed.

Lemma sum_product_expand (v w : A -> R) (l : list A) (c m : R) :
  Py.sum (map (fun x => (w x - c) * (v x - m)) l)
  = Py.sum (map (fun x => v x * w x) l) - m * Py.sum (map w l)
    - c * Py.sum (map v l) + INR (List.length l) * (c * m).
Proof.
  induction l as [|a l IH].
  - simpl. rewrite !sum_nil. lra.
  - change (List.length (a :: l)) with (S (List.length l)).
    simpl map. rewrite !sum_cons, IH, S_INR. ring.
Qed.

(** Weights that grow with the value pull a weighted mean above the plain
    mean, and weights that shrink with it pull it below: if [(w x - c)] and
    [(v x - m)] never have opposite signs, where [m] is the plain mean and
    [c] any pivot, the weighted sum is at least [m] times the weights. *)
Lemma weighted_sum_above_mean (v w : A -> R) (l : list A) (c : R) :
  l <> [] ->
  (forall x, In x l ->
     0 <= (w x - c) * (v x - Py.np_mean (map v l))) ->
  Py.np_mean (map v l) * Py.sum (map w l)
  <= Py.sum (map (fun x => v x * w x) l).
Proof.
  intros Hne H. set (m := Py.np_mean (map v l)) in *.
  pose proof (INR_length_pos l Hne) as Hn.
  assert (Hm : Py.sum (map v l) = INR (List.length l) * m).
  { subst m. unfold Py.np_mean. rewrite length_map. field. lra. }
  pose proof (sum_map_nonneg (fun x => (w x - c) * (v x - m)) l H) as Hs.
  rewrite sum_product_expand, Hm in Hs. lra.
Qed.

Lemma weighted_sum_below_mean (v w : A -> R) (l : list A) (c : R) :
  l <> [] ->
  (forall x, In x l ->
     (w x - c) * (v x - Py.np_mean (map v l)) <= 0) ->
  Py.sum (map (fun x => v x * w x) l)
  <= Py.np_mean (map v l) * Py.sum (map w l).
Proof.
  intros Hne H. set (m := Py.np_mean (map v l)) in *.
  pose proof (INR_length_pos l Hne) as Hn.
  assert (Hm : Py.sum (map v l) = INR (List.length l) * m).
  { subst m. unfold Py.np_mean. rewrite length_map. field. lra. }
  assert (Hs : Py.sum (map (fun x => (w x - c) * (v x - m)) l) <= 0).
  { assert (Hle : Py.sum (map (fun x => (w x - c) * (v x - m)) l)
                  <= Py.sum (map (fun _ => 0) l))
      by (apply sum_map_le; exact H).
    rewrite (sum_map_const (fun _ => 0) 0) in Hle by reflexivity. lra. }
  rewrite sum_product_expand, Hm in Hs. lra.
Qed.

End MeanFacts.

(** ** More on the Polymarket aggregate *)

Section PolymarketMore.

Variable baselines : list (string * baseline).

Lemma filter_partition_length {A : Type} (f : A -> bool) (l : list A) :
  (List.length (filter f l) + List.length (filter (fun x => negb (f x)) l)
   = List.length l)%nat.
Proof.
  induction l as [|a l IH]; simpl; [reflexivity|].
  destruct (f a); simpl; lia.
Qed.

Lemma stats_num_contracts (contracts : list contract) :
  num_contracts (snd (calculate_polymarket_score_normalised contracts baselines))
  = List.length contracts.
Proof.
  unfold calculate_polymarket_score_normalised.
  destruct contracts as [|c0 others]; [reflexivity|].
  destruct (Polymarket.classify (c0 :: others) baselines) as [mature immature].
  destruct mature; reflexivity.
Qed.

Lemma stats_direction_counts (contracts : list contract) :
  threat_count (snd (calculate_polymarket_score_normalised contracts baselines))
  = List.length (filter (fun m => negb (is_deescalation m)) contracts)
  /\ deesc_count (snd (calculate_polymarket_score_normalised contracts baselines))
     = List.length (filter is_deescalation contracts).
Proof.
  unfold calculate_polymarket_score_normalised.
  destruct contracts as [|c0 others]; [simpl; auto|].
  destruct (Polymarket.classify (c0 :: others) baselines) as [mature immature].
  destruct mature; simpl; auto.
Qed.

Lemma stats_zscores_length (contracts : list contract) :
  List.length
    (contract_zscores (snd (calculate_polymarket_score_normalised contracts baselines)))
  = mature_count (snd (calculate_polymarket_score_normalised contracts baselines)).
Proof.
  unfold calculate_polymarket_score_normalised.
  destruct contracts as [|c0 others]; [reflexivity|].
  destruct (Polymarket.classify (c0 :: others) baselines) as [mature immature].
  destruct mature; simpl; [reflexivity|]. now rewrite length_map.
Qed.

Lemma max_yes_price_spec (rest : list contract) (best : contract) :
  let hp := Polymarket.max_yes_price best rest in
  In hp (best :: rest)
  /\ yes_price best <= yes_price hp
  /\ (forall c, In c rest -> yes_price c <= yes_price hp).
Proof.
  revert best. induction rest as [|c rest IH]; intros best; simpl.
  - split; [now left|]. split; [lra | contradiction].
  - unfold Py.Rltb. destruct (Rlt_dec (yes_price best) (yes_price c)) as [Hlt|Hge].
    + destruct (IH c) as (Hin & Hb & Hall). simpl in Hin.
      split; [tauto|]. split; [lra|].
      intros c' [<- | Hc']; [exact Hb | now apply Hall].
    + destruct (IH best) as (Hin & Hb & Hall). simpl in Hin.
      split; [tauto|]. split; [exact Hb|].
      intros c' [<- | Hc']; [lra | now apply Hall].
Qed.

Lemma stats_highest_prob (contracts : list contract) :
  highest_prob (snd (calculate_polymarket_score_normalised contracts baselines))
  = match contracts with
    | [] => None
    | c0 :: others => Some (Polymarket.max_yes_price c0 others)
    end.
Proof.
  unfold calculate_polymarket_score_normalised.
  destruct contracts as [|c0 others]; [reflexivity|].
  destruct (Polymarket.classify (c0 :: others) baselines) as [mature immature].
  destruct mature; reflexivity.
Qed.

Lemma abs_term_le_total (mature : list mature_item) (mi : mature_item) :
  In mi mature ->
  Rabs (mi_z mi * volume (mi_contract mi)) <= Polymarket.total_abs_contrib mature.
Proof.
  unfold Polymarket.total_abs_contrib.
  induction mature as [|a mature IH]; simpl; [contradiction|].
  rewrite sum_cons.
  assert (Hnn : 0 <= Py.sum (map (fun m => Rabs (mi_z m * volume (mi_contract m)))
                                 mature))
    by (apply sum_map_nonneg; intros; apply Rabs_pos).
  pose proof (Rabs_pos (mi_z a * volume (mi_contract a))) as Ha.
  intros [-> | Hin]; [lra|]. specialize (IH Hin). lra.
Qed.

Lemma contrib_pct_range (mature : list mature_item) (mi : mature_item) :
  In mi mature ->
  0 <= zr_contrib_pct
         (Polymarket.zscore_row_of (Polymarket.total_abs_contrib mature) mi)
    <= 100.
Proof.
  intros Hin. unfold Polymarket.zscore_row_of. cbn [zr_contrib_pct].
  apply (round_between 1 0 1000); [simpl; lra | simpl; lra |].
  unfold Py.Rltb.
  destruct (Rlt_dec 0 (Polymarket.total_abs_contrib mature)) as [Hpos|_]; [|lra].
  pose proof (abs_term_le_total mature mi Hin) as Hle.
  pose proof (Rabs_pos (mi_z mi * volume (mi_contract mi))) as Hnn.
  set (t := Polymarket.total_abs_contrib mature) in *.
  set (a := Rabs (mi_z mi * volume (mi_contract mi))) in *.
  assert (Hq : 0 <= a / t <= 1).
  { split.
    - apply Rmult_le_reg_r with t; [exact Hpos|].
      unfold Rdiv. rewrite Rmult_assoc, Rinv_l by lra. lra.
    - apply Rmult_le_reg_r with t; [exact Hpos|].
      unfold Rdiv. rewrite Rmult_assoc, Rinv_l by lra. lra. }
  lra.
Qed.

End PolymarketMore.

(** X1: the score [calculate_polymarket_score_normalised] returns is always
    between 0.1 and 99.9: it is the neutral 50.0 when no item is mature, and
    otherwise exactly the Normalizer of the aggregate z-score (the final
    [round(score, 1)] changes nothing, the Normalizer output already has one
    decimal). *)
Theorem X1_polymarket_score_range
        (contracts : list contract) (baselines : list (string * baseline)) :
  let mature := fst (Polymarket.classify contracts baselines) in
  let s := fst (calculate_polymarket_score_normalised contracts baselines) in
  0.1 <= s <= 99.9
  /\ (mature = [] -> s = 50.0)
  /\ (mature <> [] -> s = z_to_centred_score (Polymarket.aggregate_z mature)).
Proof.
  intros mature s.
  destruct (score_by_mature baselines contracts) as [He Hn].
  fold mature in He, Hn. fold s in He, Hn.
  assert (Hnz : mature <> [] ->
                s = z_to_centred_score (Polymarket.aggregate_z mature)).
  { intros Hne. destruct (Hn Hne) as (Hs & _). rewrite Hs.
    unfold z_to_centred_score. apply round_idempotent. }
  split; [|split; [intros E; now destruct (He E) | exact Hnz]].
  destruct mature as [|mi rest] eqn:E.
  - destruct (He eq_refl) as (-> & _). lra.
  - rewrite Hnz by discriminate. apply score_closed_bounds.
Qed.

(** X1 at the sample contract. *)
Lemma X1_polymarket_score_range_witness :
  fst (calculate_polymarket_score_normalised
         [sample_contract] [("Q"%string, sample_baseline)])
  = z_to_centred_score
      (Polymarket.aggregate_z
         (fst (Polymarket.classify [sample_contract]
                 [("Q"%string, sample_baseline)]))).
Proof.
  apply (proj2 (proj2 (X1_polymarket_score_range
                         [sample_contract] [("Q"%string, sample_baseline)]))).
  discriminate.
Defined.

(** X2: the counts of the stats add up: every contract is counted once as
    mature or immature and once as threat or de-escalation, and there is one
    z-score row per mature contract. *)
Theorem X2_polymarket_counts_add_up
        (contracts : list contract) (baselines : list (string * baseline)) :
  let st := snd (calculate_polymarket_score_normalised contracts baselines) in
  num_contracts st = List.length contracts
  /\ (mature_count st + immature_count st = num_contracts st)%nat
  /\ (threat_count st + deesc_count st = num_contracts st)%nat
  /\ List.length (contract_zscores st) = mature_count st.
Proof.
  intros st. subst st.
  destruct (counts_by_maturity baselines contracts) as [Hm Hi].
  destruct (stats_direction_counts baselines contracts) as [Ht Hd].
  rewrite stats_num_contracts, Hm, Hi, Ht, Hd.
  split; [reflexivity|].
  split; [apply filter_partition_length|].
  split.
  - rewrite Nat.add_comm. apply filter_partition_length.
  - rewrite stats_zscores_length. exact Hm.
Qed.

(** X3: [highest_prob] is [None] only for an empty contract list; otherwise
    it is one of the contracts and no contract has a higher [yes_price]. *)
Theorem X3_highest_prob_is_maximum
        (contracts : list contract) (baselines : list (string * baseline)) :
  match highest_prob (snd (calculate_polymarket_score_normalised contracts baselines)) with
  | None => contracts = []
  | Some hp =>
    In hp contracts /\ forall c, In c contracts -> yes_price c <= yes_price hp
  end.
Proof.
  rewrite stats_highest_prob.
  destruct contracts as [|c0 others]; [reflexivity|].
  destruct (max_yes_price_spec others c0) as (Hin & Hb & Hall).
  split; [exact Hin|].
  intros c [<- | Hc]; [exact Hb | now apply Hall].
Qed.

(** X4: every contribution percentage of [contract_zscores] is between 0
    and 100. *)
Theorem X4_contribution_percent_range
        (contracts : list contract) (baselines : list (string * baseline))
        (row : zscore_row) :
  In row (contract_zscores
            (snd (calculate_polymarket_score_normalised contracts baselines))) ->
  0 <= zr_contrib_pct row <= 100.
Proof.
  unfold calculate_polymarket_score_normalised.
  destruct contracts as [|c0 others]; [simpl; contradiction|].
  destruct (Polymarket.classify (c0 :: others) baselines) as [mature immature].
  destruct mature as [|mi mature]; [simpl; contradiction|].
  cbn [snd contract_zscores]. intros Hin.
  apply in_map_iff in Hin. destruct Hin as [m [<- Hm]].
  now apply contrib_pct_range.
Qed.

(** X3 at the sample contract. *)
Lemma X3_highest_prob_is_maximum_witness :
  yes_price sample_contract <= yes_price sample_contract.
Proof.
  apply (proj2 (X3_highest_prob_is_maximum
                  [sample_contract] [("Q"%string, sample_baseline)])).
  left. reflexivity.
Defined.

(** X4 at the sample contract. *)
Lemma X4_contribution_percent_range_witness :
  0 <= zr_contrib_pct
         (Polymarket.zscore_row_of
            (Polymarket.total_abs_contrib [sample_item]) sample_item) <= 100.
Proof.
  apply (X4_contribution_percent_range
           [sample_contract] [("Q"%string, sample_baseline)]).
  left. reflexivity.
Defined.

(** ** More on the composites *)

Section CompositeMore.

Lemma blend_as_quotient (wl : list (R * R)) :
  Composite.blend wl
  = Py.sum (map (fun sw => fst sw * snd sw) wl) / Py.sum (map snd wl).
Proof.
  unfold Composite.blend, Composite.total_w.
  apply (sum_map_div (fun sw : R * R => fst sw * snd sw)).
Qed.

Lemma weighted_scores (pm mkt gp : option R) (sw : R * R) :
  In sw (Composite.weighted pm mkt gp) ->
  pm = Some (fst sw) \/ mkt = Some (fst sw) \/ gp = Some (fst sw).
Proof.
  unfold Composite.weighted, Composite.entry.
  destruct pm, mkt, gp; simpl; intuition (subst; simpl; auto).
Qed.

Lemma blend_between (pm mkt gp : option R) (lo hi : R) :
  Composite.weighted pm mkt gp <> [] ->
  (forall s, pm = Some s \/ mkt = Some s \/ gp = Some s -> lo <= s <= hi) ->
  lo <= Composite.blend (Composite.weighted pm mkt gp) <= hi.
Proof.
  intros Hne Hs. rewrite blend_as_quotient.
  apply weighted_mean_between; [exact Hne | apply weighted_weights_pos |].
  intros sw Hin. apply Hs. now apply weighted_scores.
Qed.

Lemma amp_mono_above (a b : R) : 42 <= a <= b -> Global.amp a <= Global.amp b.
Proof. intros H. unfold Global.amp. decide_comparisons. Qed.

Lemma amp_anti_below (a b : R) : a <= b <= 58 -> Global.amp b <= Global.amp a.
Proof. intros H. unfold Global.amp. decide_comparisons. Qed.

Lemma rs_as_quotient (rc : list (string * regional_composite)) :
  Global.rs rc
  = Py.sum (map (fun kd => composite (snd kd)
                           * (Global.bw rc * Global.amp (composite (snd kd)))) rc)
    / Py.sum (map (fun kd => Global.bw rc * Global.amp (composite (snd kd))) rc).
Proof.
  unfold Global.rs. rewrite tw_as_amp_sum.
  rewrite <- (sum_map_div
                (fun kd : string * regional_composite =>
                   composite (snd kd)
                   * (Global.bw rc * Global.amp (composite (snd kd))))).
  apply sum_map_ext. intros. unfold Rdiv. ring.
Qed.

Lemma region_weight_pos (rc : list (string * regional_composite)) :
  rc <> [] ->
  forall kd, In kd rc -> 0 < Global.bw rc * Global.amp (composite (snd kd)).
Proof.
  intros Hne kd _. pose proof (bw_pos rc Hne).
  pose proof (amp_ge_1 (composite (snd kd))). nra.
Qed.

Lemma rs_between (rc : list (string * regional_composite)) (lo hi : R) :
  rc <> [] ->
  (forall kd, In kd rc -> lo <= composite (snd kd) <= hi) ->
  lo <= Global.rs rc <= hi.
Proof.
  intros Hne H. rewrite rs_as_quotient.
  apply (weighted_mean_between (fun kd => composite (snd kd))
           (fun kd => Global.bw rc * Global.amp (composite (snd kd))));
    auto using region_weight_pos.
Qed.

Lemma mean_at_least {A : Type} (v : A -> R) (l : list A) (lo : R) :
  l <> [] -> (forall x, In x l -> lo <= v x) -> lo <= Py.np_mean (map v l).
Proof.
  intros Hne H. unfold Py.np_mean. rewrite length_map.
  pose proof (INR_length_pos l Hne) as Hn.
  pose proof (sum_map_le (fun _ => lo) v l H) as Hle.
  rewrite (sum_map_const (fun _ => lo) lo) in Hle by reflexivity.
  apply Rmult_le_reg_r with (INR (List.length l)); [exact Hn|].
  unfold Rdiv. rewrite Rmult_assoc, Rinv_l by lra. lra.
Qed.

Lemma mean_at_most {A : Type} (v : A -> R) (l : list A) (hi : R) :
  l <> [] -> (forall x, In x l -> v x <= hi) -> Py.np_mean (map v l) <= hi.
Proof.
  intros Hne H. unfold Py.np_mean. rewrite length_map.
  pose proof (INR_length_pos l Hne) as Hn.
  pose proof (sum_map_le v (fun _ => hi) l H) as Hle.
  rewrite (sum_map_const (fun _ => hi) hi) in Hle by reflexivity.
  apply Rmult_le_reg_r with (INR (List.length l)); [exact Hn|].
  unfold Rdiv. rewrite Rmult_assoc, Rinv_l by lra. lra.
Qed.

Lemma composite_between
      (pm mkt gp gdelt gt_global cf : option R) (lo hi : R) (a b : Z) :
  lo * 10 = IZR a -> hi * 10 = IZR b ->
  lo <= 50 <= hi ->
  (forall s, pm = Some s \/ mkt = Some s \/ gp = Some s -> lo <= s <= hi) ->
  lo <= calculate_regional_composite pm mkt gp gdelt gt_global cf <= hi.
Proof.
  intros Ha Hb H50 Hs. unfold calculate_regional_composite.
  destruct (Composite.weighted pm mkt gp) as [|sw wl] eqn:E; [lra|].
  rewrite <- E.
  apply (round_between 1 a b); [simpl; lra | simpl; lra |].
  apply blend_between; [rewrite E; discriminate | exact Hs].
Qed.

End CompositeMore.

(** X5: the regional composite stays inside any range with one-decimal
    ends that contains 50 and every present signal; in particular signals
    between 0.1 and 99.9 give a composite between 0.1 and 99.9. *)
Theorem X5_regional_composite_range
        (pm mkt gp gdelt gt_global cf : option R) (lo hi : R) (a b : Z) :
  lo * 10 = IZR a -> hi * 10 = IZR b ->
  lo <= 50 <= hi ->
  (forall s, pm = Some s \/ mkt = Some s \/ gp = Some s -> lo <= s <= hi) ->
  lo <= calculate_regional_composite pm mkt gp gdelt gt_global cf <= hi.
Proof. apply composite_between. Qed.

(** X5 for two present signals between 0.1 and 99.9. *)
Lemma X5_regional_composite_range_witness :
  0.1 <= calculate_regional_composite (Some 70) None (Some 40) None None None
    <= 99.9.
Proof.
  apply (X5_regional_composite_range (Some 70) None (Some 40) None None None
           0.1 99.9 1 999); try lra.
  intros s [[= <-] | [[=] | [= <-]]]; lra.
Defined.

(** X6: when all the present signals have the same value, the regional
    composite is that value rounded to one decimal, however many are
    missing. *)
Theorem X6_regional_composite_of_equal_signals
        (pm mkt gp gdelt gt_global cf : option R) (s : R) :
  pm <> None \/ mkt <> None \/ gp <> None ->
  (forall v, pm = Some v \/ mkt = Some v \/ gp = Some v -> v = s) ->
  calculate_regional_composite pm mkt gp gdelt gt_global cf = Py.round s 1.
Proof.
  intros Hp Hs. unfold calculate_regional_composite.
  pose proof (weighted_present pm mkt gp Hp) as Hne.
  destruct (Composite.weighted pm mkt gp) as [|sw wl] eqn:E; [congruence|].
  rewrite <- E. f_equal.
  assert (Hb : s <= Composite.blend (Composite.weighted pm mkt gp) <= s).
  { apply blend_between; [rewrite E; discriminate|].
    intros v Hv. rewrite (Hs v Hv). lra. }
  lra.
Qed.

(** X6 with the panic signal missing and the other two at 61.3. *)
Lemma X6_regional_composite_of_equal_signals_witness :
  calculate_regional_composite (Some 61.3) (Some 61.3) None None None None
  = Py.round 61.3 1.
Proof.
  apply (X6_regional_composite_of_equal_signals
           (Some 61.3) (Some 61.3) None None None None 61.3).
  - left. discriminate.
  - intros v [[= <-] | [[= <-] | [=]]]; reflexivity.
Defined.

(** X7: for a non-empty set of regions the global score is between 0 and
    100, the total weight is never zero (the guard [tw == 0] never fires),
    and the returned weights have one entry per region, in order. *)
Theorem X7_global_score_range
        (rc : list (string * regional_composite)) (gp : option R) :
  rc <> [] ->
  0 <= fst (calculate_dynamic_global_score rc gp) <= 100
  /\ 0 < Global.tw rc
  /\ map fst (snd (calculate_dynamic_global_score rc gp)) = map fst rc.
Proof.
  intros Hne. rewrite global_score_uses_rs by exact Hne. cbn [fst snd].
  split; [|split; [now apply tw_pos|]].
  - apply (round_between 1 0 1000); [simpl; lra | simpl; lra |].
    unfold Rmax, Rmin. repeat destruct (Rle_dec _ _); lra.
  - rewrite normalised_weights_formula, !map_map. reflexivity.
Qed.

(** X7 at three regions that stand at 80. *)
Lemma X7_global_score_range_witness :
  0 <= fst (calculate_dynamic_global_score three_at_80 None) <= 100.
Proof.
  apply (X7_global_score_range three_at_80 None). discriminate.
Defined.

(** X8: the amplification tilts the cross-region aggregate towards the
    extremes: when no region is below 42 the aggregate is at least the
    simple mean of the regional composites, and when no region is above 58
    it is at most the simple mean. *)
Theorem X8_amplification_tilts_aggregate
        (rc : list (string * regional_composite)) :
  rc <> [] ->
  ((forall kd, In kd rc -> 42 <= composite (snd kd)) ->
   Py.np_mean (map (fun kd => composite (snd kd)) rc) <= Global.rs rc)
  /\ ((forall kd, In kd rc -> composite (snd kd) <= 58) ->
      Global.rs rc <= Py.np_mean (map (fun kd => composite (snd kd)) rc)).
Proof.
  intros Hne.
  pose proof (bw_pos rc Hne) as Hbw.
  assert (HW : 0 < Py.sum (map (fun kd => Global.bw rc
                                          * Global.amp (composite (snd kd))) rc))
    by (apply sum_map_pos; auto using region_weight_pos).
  set (m := Py.np_mean (map (fun kd => composite (snd kd)) rc)).
  split; intros H.
  - assert (Hm : 42 <= m) by (apply mean_at_least; auto).
    rewrite rs_as_quotient.
    apply Rmult_le_reg_r with
      (Py.sum (map (fun kd => Global.bw rc * Global.amp (composite (snd kd))) rc));
      [exact HW|].
    unfold Rdiv. rewrite Rmult_assoc, Rinv_l, Rmult_1_r by lra.
    apply (weighted_sum_above_mean (fun kd => composite (snd kd))
             (fun kd => Global.bw rc * Global.amp (composite (snd kd)))
             rc (Global.bw rc * Global.amp m) Hne).
    intros kd Hin. fold m. specialize (H kd Hin).
    destruct (Rle_dec (composite (snd kd)) m) as [Hle|Hgt].
    + pose proof (amp_mono_above (composite (snd kd)) m (conj H Hle)).
      replace ((Global.bw rc * Global.amp (composite (snd kd))
                - Global.bw rc * Global.amp m) * (composite (snd kd) - m))
        with (Global.bw rc * ((Global.amp m - Global.amp (composite (snd kd)))
                              * (m - composite (snd kd)))) by ring.
      apply Rmult_le_pos; [lra|]. apply Rmult_le_pos; lra.
    + assert (Hlt : m <= composite (snd kd)) by lra.
      pose proof (amp_mono_above m (composite (snd kd)) (conj Hm Hlt)).
      replace ((Global.bw rc * Global.amp (composite (snd kd))
                - Global.bw rc * Global.amp m) * (composite (snd kd) - m))
        with (Global.bw rc * ((Global.amp (composite (snd kd)) - Global.amp m)
                              * (composite (snd kd) - m))) by ring.
      apply Rmult_le_pos; [lra|]. apply Rmult_le_pos; lra.
  - assert (Hm : m <= 58) by (apply mean_at_most; auto).
    rewrite rs_as_quotient.
    apply Rmult_le_reg_r with
      (Py.sum (map (fun kd => Global.bw rc * Global.amp (composite (snd kd))) rc));
      [exact HW|].
    unfold Rdiv. rewrite Rmult_assoc, Rinv_l, Rmult_1_r by lra.
    apply (weighted_sum_below_mean (fun kd => composite (snd kd))
             (fun kd => Global.bw rc * Global.amp (composite (snd kd)))
             rc (Global.bw rc * Global.amp m) Hne).
    intros kd Hin. fold m. specialize (H kd Hin).
    destruct (Rle_dec (composite (snd kd)) m) as [Hle|Hgt].
    + pose proof (amp_anti_below (composite (snd kd)) m (conj Hle Hm)).
      replace ((Global.bw rc * Global.amp (composite (snd kd))
                - Global.bw rc * Global.amp m) * (composite (snd kd) - m))
        with (- (Global.bw rc * ((Global.amp (composite (snd kd)) - Global.amp m)
                                 * (m - composite (snd kd))))) by ring.
      assert (0 <= Global.bw rc * ((Global.amp (composite (snd kd)) - Global.amp m)
                                   * (m - composite (snd kd))))
        by (apply Rmult_le_pos; [lra|]; apply Rmult_le_pos; lra).
      lra.
    + assert (Hlt : m <= composite (snd kd)) by lra.
      pose proof (amp_anti_below m (composite (snd kd)) (conj Hlt H)).
      replace ((Global.bw rc * Global.amp (composite (snd kd))
                - Global.bw rc * Global.amp m) * (composite (snd kd) - m))
        with (- (Global.bw rc * ((Global.amp m - Global.amp (composite (snd kd)))
                                 * (composite (snd kd) - m)))) by ring.
      assert (0 <= Global.bw rc * ((Global.amp m - Global.amp (composite (snd kd)))
                                   * (composite (snd kd) - m)))
        by (apply Rmult_le_pos; [lra|]; apply Rmult_le_pos; lra).
      lra.
Qed.

(** X8 at three regions that stand at 80. *)
Lemma X8_amplification_tilts_aggregate_witness :
  Py.np_mean (map (fun kd => composite (snd kd)) three_at_80)
  <= Global.rs three_at_80.
Proof.
  apply (X8_amplification_tilts_aggregate three_at_80); [discriminate|].
  intros kd Hin. simpl in Hin.
  destruct Hin as [<- | [<- | [<- | []]]]; simpl; lra.
Defined.

(** ** The pipeline from regional maps to the global score *)

Section PipelineFacts.

Variables pm_reg mkt_reg : list (string * scored_region).
Variables gdelt_reg cloudflare_reg : option (list (string * scored_region)).
Variable gtrends_reg : option (list (string * gtrends_region)).

Let rc := calculate_regional_composites pm_reg mkt_reg gdelt_reg gtrends_reg
            cloudflare_reg.

Lemma composites_keys : map fst rc = REGIONS.
Proof.
  unfold rc, calculate_regional_composites. rewrite map_map. simpl.
  reflexivity.
Qed.

Lemma composites_members (kd : string * regional_composite) :
  In kd rc ->
  In (fst kd) REGIONS
  /\ snd kd = Regional.region pm_reg mkt_reg (Regional.or_empty gdelt_reg)
                (Regional.or_empty gtrends_reg)
                (Regional.or_empty cloudflare_reg) (fst kd).
Proof.
  unfold rc, calculate_regional_composites. intros H.
  apply in_map_iff in H. destruct H as [rk [<- Hin]]. auto.
Qed.

Lemma score_or_50_cases (d : list (string * scored_region)) (rk : string) :
  Regional.score_or_50 d rk = 50.0
  \/ exists r, Py.get rk d = Some r /\ score r = Some (Regional.score_or_50 d rk).
Proof.
  unfold Regional.score_or_50.
  destruct (Py.get rk d) as [r|]; [|now left].
  destruct (score r) as [s|] eqn:E; [|now left].
  right. exists r. auto.
Qed.

End PipelineFacts.

(** X9: the refresh pipeline stays in range.  When every score stored in
    the polymarket and markets maps, every panic score and the global
    Polymarket score are between 0 and 100, [calculate_regional_composites]
    yields one composite per region, each between 0 and 100, and
    [calculate_dynamic_global_score] applied to them returns
    [round(rs * 0.85 + gpm * 0.15, 1)] with the cross-region aggregate [rs]
    between 0 and 100: its clamp to 0..100 is not needed. *)
Theorem X9_pipeline_stays_in_range
        (pm_reg mkt_reg : list (string * scored_region))
        (gdelt_reg cloudflare_reg : option (list (string * scored_region)))
        (gtrends_reg : option (list (string * gtrends_region)))
        (gpm : R) :
  (forall rk r s, Py.get rk pm_reg = Some r -> score r = Some s -> 0 <= s <= 100) ->
  (forall rk r s, Py.get rk mkt_reg = Some r -> score r = Some s -> 0 <= s <= 100) ->
  (forall rk r s, Py.get rk (Regional.or_empty gtrends_reg) = Some r ->
                  panic_score r = Some s -> 0 <= s <= 100) ->
  0 <= gpm <= 100 ->
  let rc := calculate_regional_composites pm_reg mkt_reg gdelt_reg gtrends_reg
              cloudflare_reg in
  map fst rc = REGIONS
  /\ (forall kd, In kd rc -> 0 <= composite (snd kd) <= 100)
  /\ 0 <= Global.rs rc <= 100
  /\ fst (calculate_dynamic_global_score rc (Some gpm))
     = Py.round (Global.rs rc * GLOBAL_REGIONAL_WEIGHT + gpm * GLOBAL_PM_WEIGHT) 1.
Proof.
  intros Hpm Hmkt Hgt Hg rc.
  assert (Hkeys : map fst rc = REGIONS) by apply composites_keys.
  assert (Hne : rc <> []).
  { intros E. rewrite E in Hkeys. discriminate. }
  assert (Hbase : forall d rk,
             (forall rk r s, Py.get rk d = Some r -> score r = Some s ->
                             0 <= s <= 100) ->
             0 <= Regional.score_or_50 d rk <= 100).
  { intros d rk Hd. destruct (score_or_50_cases d rk) as [-> | (r & Hr & Hs)].
    - lra.
    - exact (Hd rk r _ Hr Hs). }
  assert (Hcomp : forall kd, In kd rc -> 0 <= composite (snd kd) <= 100).
  { intros kd Hin.
    destruct (composites_members _ _ _ _ _ kd Hin) as [_ ->].
    destruct (region_fields pm_reg mkt_reg gdelt_reg cloudflare_reg gtrends_reg
                (fst kd)) as (-> & _).
    apply (composite_between _ _ _ _ _ _ 0 100 0 1000); try lra.
    intros s [[= <-] | [[= <-] | Hp]]; [now apply Hbase | now apply Hbase |].
    unfold Regional.gt_panic_of in Hp.
    destruct (Py.get (fst kd) (Regional.or_empty gtrends_reg)) as [r|] eqn:G;
      [|discriminate].
    exact (Hgt _ r s G Hp). }
  pose proof (rs_between rc 0 100 Hne Hcomp) as Hrs.
  split; [exact Hkeys|]. split; [exact Hcomp|]. split; [exact Hrs|].
  rewrite global_score_uses_rs by exact Hne. cbn [fst].
  f_equal. unfold GLOBAL_REGIONAL_WEIGHT, GLOBAL_PM_WEIGHT.
  rewrite Rmin_right by lra. apply Rmax_right. lra.
Qed.

(** X9 for maps that hold scores for europe: polymarket 70, markets 40,
    panic 60, and a global Polymarket score of 55. *)
Lemma X9_pipeline_stays_in_range_witness :
  0 <= Global.rs
         (calculate_regional_composites
            [("europe"%string, {| score := Some 70 |})]
            [("europe"%string, {| score := Some 40 |})]
            None
            (Some [("europe"%string,
                    {| panic_score := Some 60; global_score := None;
                       l1_count := None; l2_count := None |})])
            None) <= 100.
Proof.
  apply (X9_pipeline_stays_in_range
           [("europe"%string, {| score := Some 70 |})]
           [("europe"%string, {| score := Some 40 |})]
           None None
           (Some [("europe"%string,
                   {| panic_score := Some 60; global_score := None;
                      l1_count := None; l2_count := None |})])
           55).
  - intros rk r s Hg Hs. simpl in Hg.
    destruct (String.eqb rk "europe"); [|discriminate].
    injection Hg as <-. simpl in Hs. injection Hs as <-. lra.
  - intros rk r s Hg Hs. simpl in Hg.
    destruct (String.eqb rk "europe"); [|discriminate].
    injection Hg as <-. simpl in Hs. injection Hs as <-. lra.
  - intros rk r s Hg Hs. simpl in Hg.
    destruct (String.eqb rk "europe"); [|discriminate].
    injection Hg as <-. simpl in Hs. injection Hs as <-. lra.
  - lra.
Defined.

(** ** Risk levels and the convergence labels in the pipeline *)

Section LevelFacts.

Lemma risk_level_cases (s : R) :
  (s < 15 /\ get_risk_level s = ("UNUSUALLY CALM", "#34d399")%string)
  \/ (15 <= s < 30 /\ get_risk_level s = ("CALM", "#6ee7b7")%string)
  \/ (30 <= s < 42 /\ get_risk_level s = ("BELOW NORMAL", "#a3b8a0")%string)
  \/ (42 <= s < 58 /\ get_risk_level s = ("NORMAL", "#b0b0b0")%string)
  \/ (58 <= s < 70 /\ get_risk_level s = ("ELEVATED", "#fbbf24")%string)
  \/ (70 <= s < 85 /\ get_risk_level s = ("HIGH", "#fb923c")%string)
  \/ (85 <= s /\ get_risk_level s = ("CRITICAL", "#f87171")%string).
Proof.
  unfold get_risk_level, Py.Rltb.
  repeat (destruct (Rlt_dec _ _); [intuition lra|]). intuition lra.
Qed.

End LevelFacts.

(** X10: the colour [get_risk_level] returns with a level is the colour
    [get_score_colour] gives the same score. *)
Theorem X10_risk_colour_is_score_colour (s : R) :
  snd (get_risk_level s) = get_score_colour s.
Proof.
  unfold get_risk_level, get_score_colour.
  repeat (destruct (Py.Rltb _ _); [reflexivity|]). reflexivity.
Qed.

(** X11: the risk levels line up with the buckets of the convergence
    classifier except at one point: a score is elevated (58 or more)
    exactly when its level is ELEVATED, HIGH or CRITICAL, its level is
    NORMAL exactly when it is at least 42 and below 58, and the only score
    that is both depressed (42 or less) and NORMAL is 42 itself. *)
Theorem X11_risk_levels_and_buckets (s : R) :
  (ConvergenceSpec.is_elevated s = true
   <-> In (fst (get_risk_level s)) ["ELEVATED"; "HIGH"; "CRITICAL"]%string)
  /\ (fst (get_risk_level s) = "NORMAL"%string <-> 42 <= s < 58)
  /\ (ConvergenceSpec.is_depressed s = true
       /\ fst (get_risk_level s) = "NORMAL"%string <-> s = 42).
Proof.
  unfold ConvergenceSpec.is_elevated, ConvergenceSpec.is_depressed, Py.Rleb.
  destruct (risk_level_cases s)
    as [[H ->] | [[H ->] | [[H ->] | [[H ->] | [[H ->] | [[H ->] | [H ->]]]]]]];
    cbn [fst In];
    destruct (Rle_dec 58 s); destruct (Rle_dec s 42); try lra;
    (split; [|split]); split;
    try solve [ intros; lra | intros; discriminate | intros; tauto
              | intros [? | [? | [? | []]]]; discriminate
              | intros [? ?]; try discriminate; lra
              | intros; split; [reflexivity | lra]
              | intros; split; [reflexivity | reflexivity]
              | intros; (left; reflexivity) || (right; left; reflexivity)
                        || (right; right; left; reflexivity) ].
Qed.

(** X11 at the score 42. *)
Lemma X11_risk_levels_and_buckets_witness :
  ConvergenceSpec.is_depressed 42 = true
  /\ fst (get_risk_level 42) = "NORMAL"%string.
Proof.
  apply (proj2 (proj2 (X11_risk_levels_and_buckets 42))). reflexivity.
Defined.

Section RegionLabelFacts.

(** The label of three present signals. *)
Lemma label_of_three (k1 k2 k3 : string) (v1 v2 v3 : R) :
  let l := convergence_label_of [(k1, Some v1); (k2, Some v2); (k3, Some v3)] in
  l <> "No Data"%string
  /\ (l = "Broad Escalation"%string <-> 58 <= v1 /\ 58 <= v2 /\ 58 <= v3)
  /\ (l = "Broad De-escalation"%string <-> v1 <= 42 /\ v2 <= 42 /\ v3 <= 42)
  /\ (l = "Quiet"%string
      <-> 42 < v1 < 58 /\ 42 < v2 < 58 /\ 42 < v3 < 58).
Proof.
  unfold convergence_label_of, get_convergence_status,
    Convergence.elevated, Convergence.depressed.
  cbn [Convergence.active_of filter map snd fst]. unfold Py.Rleb.
  destruct (Rle_dec 58 v1); destruct (Rle_dec 58 v2); destruct (Rle_dec 58 v3);
    destruct (Rle_dec v1 42); destruct (Rle_dec v2 42); destruct (Rle_dec v3 42);
    try lra; cbn;
    (split; [discriminate|]);
    (split; [|split]); split;
      solve [ intros; discriminate | intros; lra | intros; reflexivity
            | intros; repeat split; lra ].
Qed.

End RegionLabelFacts.

(** X12: the convergence label of a region in
    [calculate_regional_composites] is never "No Data"; it is "Broad
    Escalation" exactly when the polymarket score, the markets score and a
    present panic score are all at least 58, and "Broad De-escalation"
    exactly when all three are at most 42; so a region without a panic
    score, which enters as 50.0, never gets either of the two. *)
Theorem X12_region_label_needs_all_three
        (pm_reg mkt_reg : list (string * scored_region))
        (gdelt_reg cloudflare_reg : option (list (string * scored_region)))
        (gtrends_reg : option (list (string * gtrends_region)))
        (rk : string) :
  let r := Regional.region pm_reg mkt_reg (Regional.or_empty gdelt_reg)
             (Regional.or_empty gtrends_reg) (Regional.or_empty cloudflare_reg) rk in
  let ps := Regional.score_or_50 pm_reg rk in
  let ms := Regional.score_or_50 mkt_reg rk in
  let gt_panic := Regional.gt_panic_of (Regional.or_empty gtrends_reg) rk in
  convergence_label r <> "No Data"%string
  /\ (convergence_label r = "Broad Escalation"%string
      <-> 58 <= ps /\ 58 <= ms /\ exists g, gt_panic = Some g /\ 58 <= g)
  /\ (convergence_label r = "Broad De-escalation"%string
      <-> ps <= 42 /\ ms <= 42 /\ exists g, gt_panic = Some g /\ g <= 42)
  /\ (gt_panic = None ->
      convergence_label r <> "Broad Escalation"%string
      /\ convergence_label r <> "Broad De-escalation"%string).
Proof.
  intros r ps ms gt_panic.
  destruct (region_fields pm_reg mkt_reg gdelt_reg cloudflare_reg gtrends_reg rk)
    as (_ & Hl & _).
  fold r ps ms gt_panic in Hl. rewrite Hl. unfold Regional.scored_sigs.
  destruct (label_of_three "polymarket" "markets" "gt_panic" ps ms
              (Regional.or_50 gt_panic)) as (Hnd & Hbe & Hbd & _).
  cbv zeta in Hnd, Hbe, Hbd.
  split; [exact Hnd|].
  destruct gt_panic as [g|]; simpl Regional.or_50 in *.
  - split; [|split].
    + rewrite Hbe. split.
      * intros (? & ? & ?). repeat split; auto. exists g. auto.
      * intros (? & ? & g' & [= <-] & ?). auto.
    + rewrite Hbd. split.
      * intros (? & ? & ?). repeat split; auto. exists g. auto.
      * intros (? & ? & g' & [= <-] & ?). auto.
    + discriminate.
  - split; [|split].
    + rewrite Hbe. split.
      * intros (_ & _ & H). lra.
      * intros (_ & _ & g' & [=] & _).
    + rewrite Hbd. split.
      * intros (_ & _ & H). lra.
      * intros (_ & _ & g' & [=] & _).
    + intros _. split.
      * rewrite Hbe. intros (_ & _ & H). lra.
      * rewrite Hbd. intros (_ & _ & H). lra.
Qed.

(** X12 at the region europe with every input map empty. *)
Lemma X12_region_label_needs_all_three_witness :
  convergence_label (Regional.region [] [] [] [] [] "europe")
  <> "Broad Escalation"%string.
Proof.
  apply (proj2 (proj2 (proj2 (X12_region_label_needs_all_three
                                [] [] None None None "europe")))).
  reflexivity.
Defined.

(** ** GDELT scoring *)

Section GdeltFacts.

Lemma score_one_decimal (z : R) :
  exists k : Z, z_to_centred_score z * 10 = IZR k.
Proof.
  unfold z_to_centred_score, Py.round.
  eexists. simpl. field_simplify. reflexivity.
Qed.

Lemma get_app {V : Type} (k : string) (l l' : list (string * V)) :
  Py.get k (l ++ l')
  = match Py.get k l with Some v => Some v | None => Py.get k l' end.
Proof.
  induction l as [|[k' v] l IH]; simpl; [reflexivity|].
  destruct (String.eqb k k'); [reflexivity | exact IH].
Qed.

(** The damped value lies between the undamped score and 50. *)
Lemma gdelt_score_between (z : R) (stats : option gdelt_stats) :
  let base := z_to_centred_score (- z) in
  (base <= 50 -> base <= calculate_gdelt_score (Some z) stats <= 50)
  /\ (50 <= base -> 50 <= calculate_gdelt_score (Some z) stats <= base).
Proof.
  intros base. unfold calculate_gdelt_score. fold base.
  destruct (score_one_decimal (- z)) as [k Hk]. fold base in Hk.
  set (dp := Gdelt.data_points stats).
  destruct (Nat.ltb_spec dp 12) as [Hlt|Hge].
  - assert (Hd : 0 <= INR dp / 12 < 1).
    { pose proof (pos_INR dp). apply lt_INR in Hlt. simpl in Hlt.
      assert (INR 12 = 12) by (simpl; lra). lra. }
    split; intros Hb.
    + apply (round_between 1 k 500); [simpl; lra | simpl; lra | nra].
    + apply (round_between 1 500 k); [simpl; lra | simpl; lra | nra].
  - split; intros Hb.
    + apply (round_between 1 k 500); [simpl; lra | simpl; lra | lra].
    + apply (round_between 1 500 k); [simpl; lra | simpl; lra | lra].
Qed.

Lemma gdelt_score_range (z_score : option R) (stats : option gdelt_stats) :
  0.1 <= calculate_gdelt_score z_score stats <= 99.9.
Proof.
  destruct z_score as [z|]; [|simpl; lra].
  pose proof (score_closed_bounds (- z)) as Hb.
  destruct (gdelt_score_between z stats) as [Hlo Hhi].
  destruct (Rle_dec (z_to_centred_score (- z)) 50) as [H|H].
  - specialize (Hlo H). lra.
  - assert (H' : 50 <= z_to_centred_score (- z)) by lra.
    specialize (Hhi H'). lra.
Qed.

Lemma fill_defaults_spec (keys : list string) (sc : list (string * scored_region)) :
  let filled :=
    fold_left
      (fun sc rk =>
         match Py.get rk sc with
         | Some _ => sc
         | None => sc ++ [(rk, {| score := Some 50.0 |})]
         end) keys sc in
  (scores_in_range sc -> scores_in_range filled)
  /\ (forall k r, Py.get k sc = Some r -> Py.get k filled = Some r)
  /\ (forall k, In k keys -> Py.get k sc = None ->
                Py.get k filled = Some {| score := Some 50.0 |})
  /\ (forall k, Py.get k filled <> None -> Py.get k sc <> None \/ In k keys).
Proof.
  revert sc. induction keys as [|rk keys IH]; intros sc; simpl.
  - repeat split; auto. intros k [].
  - destruct (Py.get rk sc) as [r0|] eqn:G.
    + destruct (IH sc) as (I1 & I2 & I3 & I4). cbv zeta in *.
      repeat split; auto.
      * intros k [<- | Hin] Hn; [congruence | now apply I3].
      * intros k Hk. destruct (I4 k Hk); auto.
    + destruct (IH (sc ++ [(rk, {| score := Some 50.0 |})])) as (I1 & I2 & I3 & I4).
      cbv zeta in *.
      assert (Hget : forall k, Py.get k (sc ++ [(rk, {| score := Some 50.0 |})])
                = match Py.get k sc with
                  | Some v => Some v
                  | None => if String.eqb k rk
                            then Some {| score := Some 50.0 |} else None
                  end).
      { intros k. rewrite get_app. simpl. reflexivity. }
      repeat split.
      * intros Hsc. apply I1. intros k r Hk. rewrite Hget in Hk.
        destruct (Py.get k sc) as [v|] eqn:Gk.
        -- injection Hk as <-. exact (Hsc k v Gk).
        -- destruct (String.eqb k rk); [|discriminate].
           injection Hk as <-. exists 50.0. split; [reflexivity | lra].
      * intros k r Hk. apply I2. rewrite Hget, Hk. reflexivity.
      * intros k [<- | Hin] Hn.
        -- apply I2. rewrite Hget, G, String.eqb_refl. reflexivity.
        -- destruct (String.eqb_spec k rk) as [-> | Hne].
           ++ apply I2. rewrite Hget, G, String.eqb_refl. reflexivity.
           ++ apply I3; [exact Hin|]. rewrite Hget, Hn.
              destruct (String.eqb_spec k rk); [contradiction | reflexivity].
      * intros k Hk. destruct (I4 k Hk) as [Hs | Hin]; [|auto].
        rewrite Hget in Hs. destruct (Py.get k sc) eqn:Gk; [left; discriminate|].
        destruct (String.eqb_spec k rk) as [-> | _]; [right; now left | congruence].
Qed.

Lemma get_map_scored (k : string) (regional_gdelt : list (string * gdelt_raw)) :
  Py.get k
    (map (fun kd =>
            (fst kd,
             {| score := Some (calculate_gdelt_score
                                 (gr_z_score (snd kd))
                                 (Some (Gdelt.stats_or_empty (snd kd)))) |}))
         regional_gdelt)
  = option_map
      (fun d => {| score := Some (calculate_gdelt_score
                                    (gr_z_score d)
                                    (Some (Gdelt.stats_or_empty d))) |})
      (Py.get k regional_gdelt).
Proof.
  induction regional_gdelt as [|[k' d] l IH]; simpl; [reflexivity|].
  destruct (String.eqb k k'); [reflexivity | exact IH].
Qed.

Lemma gdelt_regional_in_range (regional_gdelt : list (string * gdelt_raw)) :
  scores_in_range (calculate_gdelt_regional_scores regional_gdelt).
Proof.
  unfold calculate_gdelt_regional_scores.
  apply (proj1 (fill_defaults_spec REGIONS _)).
  intros k r Hk. rewrite get_map_scored in Hk.
  destruct (Py.get k regional_gdelt) as [d|]; [|discriminate].
  injection Hk as <-. eexists. split; [reflexivity | apply gdelt_score_range].
Qed.

Lemma gdelt_regional_covers (regional_gdelt : list (string * gdelt_raw))
      (rk : string) :
  In rk REGIONS ->
  Py.get rk (calculate_gdelt_regional_scores regional_gdelt)
  = Some {| score :=
              Some (match Py.get rk regional_gdelt with
                    | Some d => calculate_gdelt_score
                                  (gr_z_score d) (Some (Gdelt.stats_or_empty d))
                    | None => 50.0
                    end) |}.
Proof.
  intros Hin. unfold calculate_gdelt_regional_scores.
  match goal with |- Py.get rk (fold_left _ _ ?sc) = _ =>
    destruct (fill_defaults_spec REGIONS sc) as (_ & I2 & I3 & _);
    pose proof (get_map_scored rk regional_gdelt) as Hm
  end.
  cbv zeta in I2, I3.
  destruct (Py.get rk regional_gdelt) as [d|] eqn:G; simpl in Hm.
  - now apply I2.
  - now apply I3.
Qed.

End GdeltFacts.

(** X13: [calculate_gdelt_score] returns 50.0 when there is no z-score;
    otherwise its result lies between the Normalizer of the negated z-score
    and 50 (the damping for fewer than 12 data points only pulls towards
    50), equals that Normalizer value from 12 data points on, is 50.0 with
    no data point, and is always between 0.1 and 99.9. *)
Theorem X13_gdelt_score_damping (z : R) (stats : option gdelt_stats) :
  let base := z_to_centred_score (- z) in
  calculate_gdelt_score None stats = 50.0
  /\ (base <= 50 -> base <= calculate_gdelt_score (Some z) stats <= 50)
  /\ (50 <= base -> 50 <= calculate_gdelt_score (Some z) stats <= base)
  /\ ((12 <= Gdelt.data_points stats)%nat ->
      calculate_gdelt_score (Some z) stats = base)
  /\ (Gdelt.data_points stats = 0%nat ->
      calculate_gdelt_score (Some z) stats = 50.0)
  /\ 0.1 <= calculate_gdelt_score (Some z) stats <= 99.9.
Proof.
  intros base.
  destruct (gdelt_score_between z stats) as [Hlo Hhi]. fold base in Hlo, Hhi.
  split; [reflexivity|]. split; [exact Hlo|]. split; [exact Hhi|].
  split; [|split; [|apply gdelt_score_range]].
  - intros Hge. unfold calculate_gdelt_score. fold base.
    destruct (Nat.ltb_spec (Gdelt.data_points stats) 12); [lia|].
    unfold base, z_to_centred_score. apply round_idempotent.
  - intros Hz. unfold calculate_gdelt_score. rewrite Hz. simpl.
    replace (z_to_centred_score (- z) * (1 - (1 - 0 / 12)) + 50 * (1 - 0 / 12))
      with 50 by lra.
    rewrite round_1_fifty. lra.
Qed.

(** X13 for a z-score of 1 and no statistics. *)
Lemma X13_gdelt_score_damping_witness :
  calculate_gdelt_score (Some 1) None = 50.0.
Proof.
  apply (proj1 (proj2 (proj2 (proj2 (proj2 (X13_gdelt_score_damping 1 None)))))).
  reflexivity.
Defined.

(** X14: [calculate_gdelt_regional_scores] gives every region of [REGIONS]
    an entry with a score: the GDELT score of the region's record when the
    input has one and the neutral 50.0 otherwise; every score of the result
    is between 0.1 and 99.9. *)
Theorem X14_gdelt_regional_scores_cover_regions
        (regional_gdelt : list (string * gdelt_raw)) (rk : string) :
  In rk REGIONS ->
  Py.get rk (calculate_gdelt_regional_scores regional_gdelt)
  = Some {| score :=
              Some (match Py.get rk regional_gdelt with
                    | Some d => calculate_gdelt_score
                                  (gr_z_score d) (Some (Gdelt.stats_or_empty d))
                    | None => 50.0
                    end) |}
  /\ (forall k r, Py.get k (calculate_gdelt_regional_scores regional_gdelt) = Some r ->
                  exists s, score r = Some s /\ 0.1 <= s <= 99.9).
Proof.
  intros Hin. split; [now apply gdelt_regional_covers|].
  apply gdelt_regional_in_range.
Qed.

(** X14 for an input without any region. *)
Lemma X14_gdelt_regional_scores_cover_regions_witness :
  Py.get "europe" (calculate_gdelt_regional_scores [])
  = Some {| score := Some 50.0 |}.
Proof.
  apply (X14_gdelt_regional_scores_cover_regions [] "europe").
  left. reflexivity.
Defined.

Section GdeltLoopFacts.

Lemma gdelt_cycle_keeps (st : gdelt_state) (out : gdelt_outcome) (now : R) :
  gdelt_fetching st = false /\ empty_or_complete (gdelt_regional st) ->
  gdelt_fetching (GdeltLoop.cycle st out now) = false
  /\ empty_or_complete (gdelt_regional (GdeltLoop.cycle st out now)).
Proof.
  intros [Hf Hinv]. unfold GdeltLoop.cycle. rewrite Hf.
  destruct out as [[|kd raw]|]; simpl; auto.
  split; [reflexivity|]. right. intros rk Hin.
  eexists. split; [now apply gdelt_regional_covers|].
  destruct (Py.get rk (kd :: raw)); [apply gdelt_score_range | lra].
Qed.

Lemma gdelt_loop_keeps (turns : list (gdelt_outcome * R)) (st : gdelt_state) :
  gdelt_fetching st = false /\ empty_or_complete (gdelt_regional st) ->
  gdelt_fetching (_gdelt_background_loop st turns) = false
  /\ empty_or_complete (gdelt_regional (_gdelt_background_loop st turns)).
Proof.
  unfold _gdelt_background_loop. revert st.
  induction turns as [|[out now] turns IH]; intros st H; simpl; [exact H|].
  apply IH. now apply gdelt_cycle_keeps.
Qed.

End GdeltLoopFacts.

(** X15: whatever the GDELT refresh loop fetches, turn after turn, the
    published GDELT scores are either still empty or hold, for every
    region, a score between 0.1 and 99.9, and the [fetching] flag is clear
    between turns; a failed or empty fetch leaves the published scores and
    their timestamp untouched. *)
Theorem X15_gdelt_loop_invariant
        (turns : list (gdelt_outcome * R)) (now : R) :
  let st := _gdelt_background_loop GdeltLoop.initial turns in
  gdelt_fetching st = false
  /\ empty_or_complete (gdelt_regional st)
  /\ _gdelt_background_loop st [(GdeltRaised, now)] = st
  /\ _gdelt_background_loop st [(GdeltFetched [], now)] = st.
Proof.
  intros st.
  destruct (gdelt_loop_keeps turns GdeltLoop.initial) as [Hf Hinv].
  { split; [reflexivity | now left]. }
  fold st in Hf, Hinv.
  split; [exact Hf|]. split; [exact Hinv|].
  unfold _gdelt_background_loop, GdeltLoop.cycle. simpl. rewrite Hf.
  destruct st; simpl in *; subst; auto.
Qed.

(** ** Google Trends scoring *)

Section GTrendsScoreFacts.

Lemma slices_partition {A : Type} (k : nat) (l : list A) :
  (0 < k)%nat ->
  Slice.drop_last_n k l ++ Slice.last_n k l = l.
Proof.
  intros Hk. unfold Slice.drop_last_n, Slice.last_n.
  destruct (Nat.eqb_spec k 0); [lia|]. apply firstn_skipn.
Qed.

Lemma last_n_length {A : Type} (k : nat) (l : list A) :
  (0 < k <= List.length l)%nat -> List.length (Slice.last_n k l) = k.
Proof.
  intros Hk. unfold Slice.last_n.
  destruct (Nat.eqb_spec k 0); [lia|]. rewrite length_skipn. lia.
Qed.

Lemma drop_last_n_length {A : Type} (k : nat) (l : list A) :
  (0 < k)%nat -> List.length (Slice.drop_last_n k l) = (List.length l - k)%nat.
Proof.
  intros Hk. unfold Slice.drop_last_n.
  destruct (Nat.eqb_spec k 0); [lia|]. rewrite length_firstn. lia.
Qed.

Lemma sum_constant_list (l : list R) (c : R) :
  (forall x, In x l -> x = c) -> Py.sum l = INR (List.length l) * c.
Proof.
  intros H. rewrite <- (map_id l) at 1.
  now apply (sum_map_const (fun x : R => x) c l).
Qed.

(** The standard deviation of a constant series is 0. *)
Lemma np_std_constant (l : list R) (c : R) :
  l <> [] -> (forall x, In x l -> x = c) -> Py.np_std l = 0.
Proof.
  intros Hne H. pose proof (INR_length_pos l Hne) as Hn.
  assert (Hm : Py.np_mean l = c).
  { unfold Py.np_mean. rewrite (sum_constant_list l c H). field. lra. }
  unfold Py.np_std. rewrite Hm. unfold Py.np_mean at 1.
  rewrite (sum_map_const (fun x => (x - c) ^ 2) 0).
  - rewrite Rmult_0_r. unfold Rdiv. rewrite Rmult_0_l. apply sqrt_0.
  - intros x Hx. rewrite (H x Hx). ring.
Qed.

Lemma layer_score_range (zs : list R) :
  0.1 <= (if GTrendsScore.valid zs
          then z_to_centred_score (GTrendsScore.avg zs) else 50.0) <= 99.9.
Proof.
  destruct (GTrendsScore.valid zs); [apply score_closed_bounds | lra].
Qed.

End GTrendsScoreFacts.

(** X16: with the default window of 7 days, [_gtrends_z_score] returns
    [None] for fewer than 14 values and a number for 14 or more (its
    second length check never fires); the baseline and the recent window
    split the series without gap or overlap, the recent window being its
    last 7 values. *)
Theorem X16_gtrends_z_score_windows (values : list R) :
  ((List.length values < 14)%nat -> _gtrends_z_score values 7 = None)
  /\ ((14 <= List.length values)%nat ->
      Slice.drop_last_n 7 values ++ Slice.last_n 7 values = values
      /\ List.length (Slice.last_n 7 values) = 7%nat
      /\ exists z, _gtrends_z_score values 7 = Some z).
Proof.
  unfold _gtrends_z_score. split; intros H.
  - destruct (Nat.ltb_spec (List.length values) 14); [reflexivity | lia].
  - split; [apply slices_partition; lia|].
    split; [apply last_n_length; lia|].
    destruct (Nat.ltb_spec (List.length values) 14); [lia|].
    rewrite drop_last_n_length by lia.
    destruct (Nat.ltb_spec (List.length values - 7) 7); [lia|].
    eexists. reflexivity.
Qed.

(** X16 for a series of 14 zeros. *)
Lemma X16_gtrends_z_score_windows_witness :
  List.length (Slice.last_n 7 (repeat 0 14)) = 7%nat.
Proof.
  apply (proj2 (X16_gtrends_z_score_windows (repeat 0 14))).
  simpl. lia.
Defined.

(** X17: Google Trends interest values are whole numbers from 0 to 100.
    When the baseline of a series (everything before its last 7 values) is
    constant at such a value, [_gtrends_z_score] returns 0.0 whatever the
    recent values are: the standard deviation of the baseline is 0 and the
    code answers 0.0 instead of dividing. *)
Theorem X17_gtrends_constant_baseline (values : list R) (k : Z) :
  (14 <= List.length values)%nat ->
  (0 <= k <= 100)%Z ->
  (forall x, In x (Slice.drop_last_n 7 values) -> x = IZR k) ->
  _gtrends_z_score values 7 = Some 0.0.
Proof.
  intros Hlen _ Hc. unfold _gtrends_z_score.
  destruct (Nat.ltb_spec (List.length values) 14); [lia|].
  pose proof (drop_last_n_length 7 values ltac:(lia)) as Hb.
  rewrite Hb. destruct (Nat.ltb_spec (List.length values - 7) 7); [lia|].
  rewrite (np_std_constant _ (IZR k)); [| |exact Hc].
  - unfold Py.Rltb. destruct (Rlt_dec 0 0); [lra | reflexivity].
  - intros E. rewrite E in Hb. simpl in Hb. lia.
Qed.

(** X17 for seven zeros followed by seven values of 100. *)
Lemma X17_gtrends_constant_baseline_witness :
  _gtrends_z_score (repeat 0 7 ++ repeat 100 7) 7 = Some 0.0.
Proof.
  apply (X17_gtrends_constant_baseline (repeat 0 7 ++ repeat 100 7) 0).
  - simpl. lia.
  - lia.
  - intros x Hx. cbn in Hx. intuition congruence.
Defined.

(** X18: in a region's Google Trends result the panic score and the global
    score are always present and between 0.1 and 99.9, each is the neutral
    50.0 when its layer has fewer than 2 z-scores, the combined score is
    50.0 when neither layer has 2, and the region contributes exactly the
    number of its z-scores to the completeness count of the refresh loop. *)
Theorem X18_gtrends_region_result (rk : string) (l1_zscores l2_zscores : list R) :
  let r := GTrendsScore.region_result l1_zscores l2_zscores in
  (exists p, panic_score r = Some p /\ 0.1 <= p <= 99.9
             /\ ((List.length l2_zscores < 2)%nat -> p = 50.0))
  /\ (exists g, global_score r = Some g /\ 0.1 <= g <= 99.9
                /\ ((List.length l1_zscores < 2)%nat -> g = 50.0))
  /\ ((List.length l1_zscores < 2)%nat -> (List.length l2_zscores < 2)%nat ->
      GTrendsScore.combined_score l1_zscores l2_zscores = 50.0)
  /\ GTrends.terms [(rk, r)]
     = (List.length l1_zscores + List.length l2_zscores)%nat.
Proof.
  intros r. split; [|split; [|split]].
  - eexists. split; [reflexivity|]. split; [apply layer_score_range|].
    intros H. unfold GTrendsScore.valid.
    destruct (Nat.leb_spec 2 (List.length l2_zscores)); [lia | reflexivity].
  - eexists. split; [reflexivity|]. split; [apply layer_score_range|].
    intros H. unfold GTrendsScore.valid.
    destruct (Nat.leb_spec 2 (List.length l1_zscores)); [lia | reflexivity].
  - intros H1 H2.
    unfold GTrendsScore.combined_score, GTrendsScore.combined_z, GTrendsScore.valid.
    destruct (Nat.leb_spec 2 (List.length l1_zscores)); [lia|].
    destruct (Nat.leb_spec 2 (List.length l2_zscores)); [lia|].
    simpl. replace 0.0 with 0 by lra. apply score_at_0.
  - reflexivity.
Qed.

(** X18 for a region with one z-score in each layer. *)
Lemma X18_gtrends_region_result_witness :
  GTrendsScore.combined_score [1] [2] = 50.0.
Proof.
  apply (proj1 (proj2 (proj2 (X18_gtrends_region_result "europe" [1] [2]))));
    simpl; lia.
Defined.

(** ** Cloudflare scoring *)

Section CloudflareFacts.

Lemma flat_map_singletons {A B : Type} (f : A -> list B) (l : list A) :
  (forall x, In x l -> List.length (f x) = 1%nat) ->
  List.length (flat_map f l) = List.length l.
Proof.
  induction l as [|a l IH]; intros H; simpl; [reflexivity|].
  rewrite length_app, (H a), IH; auto with datatypes.
Qed.

(** Every index the sampling loop computes is inside the list. *)
Lemma same_hour_vals_length (vals : list R) :
  List.length (Cloudflare.same_hour_vals vals)
  = (List.length vals / 24 - 1)%nat.
Proof.
  unfold Cloudflare.same_hour_vals.
  rewrite flat_map_singletons; [apply length_seq|].
  intros day_back Hin. apply in_seq in Hin.
  set (n := List.length vals) in *.
  pose proof (Nat.Div0.mul_div_le n 24) as Hdiv.
  assert (H1 : (0 <= Z.of_nat n - 1 - Z.of_nat day_back * 24)%Z) by lia.
  assert (H2 : (Z.of_nat n - 1 - Z.of_nat day_back * 24 < Z.of_nat n)%Z) by lia.
  apply Z.leb_le in H1. apply Z.ltb_lt in H2. rewrite H1, H2. reflexivity.
Qed.

Lemma weight_ge_1 (z : R) : 1 <= _cloudflare_dynamic_weight z.
Proof.
  unfold _cloudflare_dynamic_weight, Py.Rleb.
  destruct (Rle_dec (-1.0) z); [lra|].
  pose proof (pow2_ge_0 (- z - 1.0)). lra.
Qed.

Lemma weight_antitone (z1 z2 : R) :
  z1 <= z2 -> _cloudflare_dynamic_weight z2 <= _cloudflare_dynamic_weight z1.
Proof.
  intros H. unfold _cloudflare_dynamic_weight, Py.Rleb.
  destruct (Rle_dec (-1.0) z2); destruct (Rle_dec (-1.0) z1); try lra.
  - pose proof (pow2_ge_0 (- z1 - 1.0)). lra.
  - assert (Hsq : (- z2 - 1.0) ^ 2 <= (- z1 - 1.0) ^ 2).
    { apply pow_incr. lra. }
    lra.
Qed.

Lemma weights_sum_pos (zs : list R) :
  zs <> [] -> INR (List.length zs) <= Py.sum (map _cloudflare_dynamic_weight zs).
Proof.
  intros _.
  pose proof (sum_map_le (fun _ => 1) _cloudflare_dynamic_weight zs
                (fun z _ => weight_ge_1 z)) as H.
  rewrite (sum_map_const (fun _ : R => 1) 1) in H by reflexivity. lra.
Qed.

End CloudflareFacts.

(** X19: the same-hour sample of [calculate_cloudflare_country_zscore]
    holds one value for each full day of the series but one (every index
    the loop computes is valid), so although series of 72 values pass the
    first check, no z-score is returned below 192 hourly values, and from
    192 values on one always is. *)
Theorem X19_cloudflare_needs_eight_days (t : traffic) :
  List.length (Cloudflare.same_hour_vals (cf_values t))
  = (List.length (cf_values t) / 24 - 1)%nat
  /\ ((List.length (cf_values t) < 192)%nat ->
      calculate_cloudflare_country_zscore (Some t) = (None, None))
  /\ ((192 <= List.length (cf_values t))%nat ->
      exists z d,
        calculate_cloudflare_country_zscore (Some t) = (Some z, Some d)
        /\ cf_baseline_days d = (List.length (cf_values t) / 24 - 1)%nat).
Proof.
  pose proof (same_hour_vals_length (cf_values t)) as Hlen.
  split; [exact Hlen|].
  unfold calculate_cloudflare_country_zscore. rewrite Hlen.
  split; intros H.
  - destruct (Nat.ltb_spec (List.length (cf_values t)) 72); [reflexivity|].
    assert (List.length (cf_values t) / 24 < 8)%nat
      by (apply Nat.Div0.div_lt_upper_bound; lia).
    destruct (Nat.ltb_spec (List.length (cf_values t) / 24 - 1) 7);
      [reflexivity | lia].
  - destruct (Nat.ltb_spec (List.length (cf_values t)) 72); [lia|].
    assert (8 <= List.length (cf_values t) / 24)%nat
      by (apply Nat.div_le_lower_bound; lia).
    destruct (Nat.ltb_spec (List.length (cf_values t) / 24 - 1) 7); [lia|].
    destruct (Py.Rltb _ 0.01); eexists; eexists; split; reflexivity.
Qed.

(** X19 for a series of 100 hourly values. *)
Lemma X19_cloudflare_needs_eight_days_witness :
  calculate_cloudflare_country_zscore (Some {| cf_values := repeat 1 100 |})
  = (None, None).
Proof.
  apply (proj1 (proj2 (X19_cloudflare_needs_eight_days
                         {| cf_values := repeat 1 100 |}))).
  cbn [cf_values]. rewrite repeat_length. lia.
Defined.

(** X20: [_cloudflare_dynamic_weight] is never below 1, is exactly 1 for
    every z-score of -1 or more, and never decreases as the z-score
    falls. *)
Theorem X20_cloudflare_weight_shape (z1 z2 : R) :
  1 <= _cloudflare_dynamic_weight z1
  /\ (-1 <= z1 -> _cloudflare_dynamic_weight z1 = 1)
  /\ (z1 < -1 -> 1 < _cloudflare_dynamic_weight z1)
  /\ (z1 <= z2 -> _cloudflare_dynamic_weight z2 <= _cloudflare_dynamic_weight z1).
Proof.
  split; [apply weight_ge_1|]. split; [|split; [|apply weight_antitone]].
  - intros H. unfold _cloudflare_dynamic_weight, Py.Rleb.
    destruct (Rle_dec (-1.0) z1); lra.
  - intros H. unfold _cloudflare_dynamic_weight, Py.Rleb.
    destruct (Rle_dec (-1.0) z1); [lra|].
    assert (0 < (- z1 - 1.0) ^ 2) by (apply pow_lt; lra). lra.
Qed.

(** X20 at the z-scores -3 and 0. *)
Lemma X20_cloudflare_weight_shape_witness :
  _cloudflare_dynamic_weight 0 <= _cloudflare_dynamic_weight (-3).
Proof.
  apply (proj2 (proj2 (proj2 (X20_cloudflare_weight_shape (-3) 0)))). lra.
Defined.

(** X21: a region without country z-scores gets aggregate 0.0 and score
    50.0.  Otherwise the division by the total weight is safe (the total
    is at least the number of countries), the aggregate is the negated
    weighted mean: it lies between the negated largest and the negated
    smallest country z-score and is never below the negated plain mean
    (traffic drops weigh more), and the score is between 0.1 and 99.9. *)
Theorem X21_cloudflare_region_aggregate (country_zscores : list R) (lo hi : R) :
  cloudflare_region_score [] = (0.0, 50.0)
  /\ (country_zscores <> [] ->
      (forall z, In z country_zscores -> lo <= z <= hi) ->
      let agg_z := fst (cloudflare_region_score country_zscores) in
      0 < Py.sum (map _cloudflare_dynamic_weight country_zscores)
      /\ - hi <= agg_z <= - lo
      /\ - Py.np_mean country_zscores <= agg_z
      /\ snd (cloudflare_region_score country_zscores) = z_to_centred_score agg_z
      /\ 0.1 <= snd (cloudflare_region_score country_zscores) <= 99.9).
Proof.
  split; [reflexivity|]. intros Hne Hb agg_z.
  pose proof (weights_sum_pos country_zscores Hne) as Hw.
  pose proof (INR_length_pos country_zscores Hne) as Hn.
  assert (HW : 0 < Py.sum (map _cloudflare_dynamic_weight country_zscores)) by lra.
  assert (Hagg : agg_z = - Cloudflare.weighted_mean _cloudflare_dynamic_weight
                           country_zscores).
  { subst agg_z. destruct country_zscores; [congruence | reflexivity]. }
  assert (Hscore : snd (cloudflare_region_score country_zscores)
                   = z_to_centred_score agg_z).
  { subst agg_z. destruct country_zscores; [congruence | reflexivity]. }
  split; [exact HW|].
  split.
  { rewrite Hagg. unfold Cloudflare.weighted_mean.
    pose proof (weighted_mean_between (fun z : R => z) _cloudflare_dynamic_weight
                  country_zscores lo hi Hne) as Hm.
    assert (Hpos : forall x, In x country_zscores -> 0 < _cloudflare_dynamic_weight x).
    { intros x _. pose proof (weight_ge_1 x). lra. }
    specialize (Hm Hpos Hb). lra. }
  split.
  { rewrite Hagg. unfold Cloudflare.weighted_mean.
    set (m := Py.np_mean country_zscores).
    pose proof (weighted_sum_below_mean (fun z : R => z) _cloudflare_dynamic_weight
                  country_zscores (_cloudflare_dynamic_weight m) Hne) as Hc.
    rewrite map_id in Hc. fold m in Hc.
    assert (Hsign : forall x, In x country_zscores ->
              (_cloudflare_dynamic_weight x - _cloudflare_dynamic_weight m)
              * (x - m) <= 0).
    { intros x _. destruct (Rle_dec x m) as [Hle|Hgt].
      - pose proof (weight_antitone x m Hle).
        assert (0 <= (_cloudflare_dynamic_weight x - _cloudflare_dynamic_weight m)
                     * (m - x)) by (apply Rmult_le_pos; lra).
        lra.
      - assert (Hle : m <= x) by lra.
        pose proof (weight_antitone m x Hle).
        assert (0 <= (_cloudflare_dynamic_weight m - _cloudflare_dynamic_weight x)
                     * (x - m)) by (apply Rmult_le_pos; lra).
        lra. }
    specialize (Hc Hsign).
    assert (Hq : Py.sum (map (fun z => z * _cloudflare_dynamic_weight z)
                             country_zscores)
                 / Py.sum (map _cloudflare_dynamic_weight country_zscores) <= m).
    { apply Rmult_le_reg_r with
        (Py.sum (map _cloudflare_dynamic_weight country_zscores)); [exact HW|].
      unfold Rdiv. rewrite Rmult_assoc, Rinv_l by lra. lra. }
    lra. }
  split; [exact Hscore|]. rewrite Hscore. apply score_closed_bounds.
Qed.

(** X21 for two countries with z-scores -3 and 0. *)
Lemma X21_cloudflare_region_aggregate_witness :
  - Py.np_mean [-3; 0] <= fst (cloudflare_region_score [-3; 0]).
Proof.
  apply (proj2 (X21_cloudflare_region_aggregate [-3; 0] (-3) 0)).
  - discriminate.
  - intros z [<- | [<- | []]]; lra.
Defined.

(** ** Market scores and Polymarket by region *)

Section MarketFacts.

Variable market_data : list (string * ticker_data).

Lemma all_scores_In (s : R) :
  In s (Markets.all_scores market_data) ->
  exists k d, In (k, d) market_data /\ normalised_score d = Some s.
Proof.
  induction market_data as [|[k d] md IH]; simpl; [contradiction|].
  destruct (normalised_score d) as [s'|] eqn:E.
  - intros [<- | Hin].
    + exists k, d. auto.
    + destruct (IH Hin) as (k' & d' & ? & ?). exists k', d'. auto.
  - intros Hin. destruct (IH Hin) as (k' & d' & ? & ?). exists k', d'. auto.
Qed.


Lemma mean_or_50_between (xs : list R) (lo hi : R) (a b : Z) :
  lo * 10 = IZR a -> hi * 10 = IZR b ->
  (xs = [] -> lo <= 50 <= hi) ->
  (forall x, In x xs -> lo <= x <= hi) ->
  lo <= Markets.mean_or_50 xs <= hi.
Proof.
  intros Ha Hb H50 Hx. unfold Markets.mean_or_50.
  destruct xs as [|x xs'] eqn:E; [specialize (H50 eq_refl); lra|].
  apply (round_between 1 a b); [simpl; lra | simpl; lra |].
  pose proof (mean_between (fun v : R => v) (x :: xs') lo hi) as Hm.
  rewrite map_id in Hm. unfold Py.np_mean in Hm.
  apply Hm; [discriminate | exact Hx].
Qed.

Lemma market_regional_get (rk : string) :
  In rk REGIONS ->
  Py.get rk (calculate_market_regional_scores market_data)
  = Some {| score :=
              Some (Markets.mean_or_50
                      (Markets.scores_of market_data (Markets.tickers_of rk)
                       ++ Markets.scores_of market_data
                            (Markets.tickers_of "global"))) |}.
Proof.
  unfold calculate_market_regional_scores, REGIONS.
  intros [<- | [<- | [<- | []]]]; reflexivity.
Qed.

End MarketFacts.

(** X22: [calculate_market_score] is the neutral 50.0 when no ticker has a
    normalised score, and otherwise stays inside any range with one-decimal
    ends that contains the normalised scores of all tickers. *)
Theorem X22_market_score_range
        (market_data : list (string * ticker_data)) (lo hi : R) (a b : Z) :
  ((forall k d, In (k, d) market_data -> normalised_score d = None) ->
   calculate_market_score market_data = 50.0)
  /\ (lo * 10 = IZR a -> hi * 10 = IZR b ->
      Markets.all_scores market_data <> [] ->
      (forall k d s, In (k, d) market_data -> normalised_score d = Some s ->
                     lo <= s <= hi) ->
      lo <= calculate_market_score market_data <= hi).
Proof.
  unfold calculate_market_score. split.
  - intros Hnone.
    destruct (Markets.all_scores market_data) as [|s l] eqn:E; [reflexivity|].
    destruct (all_scores_In market_data s) as (k & d & Hin & Hs).
    { rewrite E. now left. }
    rewrite (Hnone k d Hin) in Hs. discriminate.
  - intros Ha Hb Hne Hs.
    apply (mean_or_50_between _ lo hi a b Ha Hb); [congruence|].
    intros x Hx. destruct (all_scores_In market_data x Hx) as (k & d & Hin & Hd).
    exact (Hs k d x Hin Hd).
Qed.

(** X22 for one ticker with a normalised score of 61.3. *)
Lemma X22_market_score_range_witness :
  0.1 <= calculate_market_score
           [("GC=F"%string, {| normalised_score := Some 61.3 |})] <= 99.9.
Proof.
  apply (proj2 (X22_market_score_range
                  [("GC=F"%string, {| normalised_score := Some 61.3 |})]
                  0.1 99.9 1 999)); try lra.
  - discriminate.
  - intros k d s [[= <- <-] | []] [= <-]. lra.
Defined.



Section PolymarketRegionalFacts.

Variable geo_markets : list geo_market.

Lemma pm_score_bounds (contracts : list contract)
      (baselines : list (string * baseline)) :
  0.1 <= fst (calculate_polymarket_score_normalised contracts baselines) <= 99.9.
Proof.
  destruct (score_by_mature baselines contracts) as [He Hn]. cbv zeta in He, Hn.
  destruct (fst (Polymarket.classify contracts baselines)) as [|mi rest] eqn:E.
  - destruct (He eq_refl) as (-> & _). lra.
  - destruct (Hn ltac:(discriminate)) as (-> & _).
    unfold z_to_centred_score. rewrite round_idempotent.
    apply score_closed_bounds.
Qed.

Lemma pm_regional_get (baselines : option (list (string * baseline))) (rk : string) :
  In rk REGIONS ->
  Py.get rk (calculate_polymarket_regional_scores geo_markets baselines)
  = Some (PolymarketRegional.region geo_markets
            (match baselines with Some b => b | None => [] end) rk).
Proof.
  unfold calculate_polymarket_regional_scores, REGIONS.
  intros [<- | [<- | [<- | []]]]; reflexivity.
Qed.

Lemma pm_region_counts (baselines : list (string * baseline)) (rk : string) :
  let st := rp_stats (PolymarketRegional.region geo_markets baselines rk) in
  PolymarketRegional.stats_num_contracts st
  = List.length (PolymarketRegional.in_region rk geo_markets)
  /\ (PolymarketRegional.stats_mature_count st
      + PolymarketRegional.stats_immature_count st
      = PolymarketRegional.stats_num_contracts st)%nat.
Proof.
  unfold PolymarketRegional.region.
  destruct (PolymarketRegional.in_region rk geo_markets) as [|c rc] eqn:E;
    [simpl; auto|].
  destruct baselines as [|b bl]; [simpl; auto|].
  destruct (counts_by_maturity (b :: bl) (c :: rc)) as [Hm Hi].
  pose proof (stats_num_contracts (b :: bl) (c :: rc)) as Hn.
  destruct (calculate_polymarket_score_normalised (c :: rc) (b :: bl)) as [s st].
  cbn [rp_stats PolymarketRegional.stats_num_contracts
       PolymarketRegional.stats_mature_count
       PolymarketRegional.stats_immature_count snd] in *.
  split; [exact Hn|]. rewrite Hm, Hi, Hn. apply filter_partition_length.
Qed.

Lemma pm_region_score_range (baselines : list (string * baseline)) (rk : string) :
  (forall m, In m geo_markets -> 0 <= risk_price (gm_contract m) <= 1) ->
  0 <= rp_score (PolymarketRegional.region geo_markets baselines rk) <= 100.
Proof.
  intros Hp. unfold PolymarketRegional.region.
  destruct (PolymarketRegional.in_region rk geo_markets) as [|c rc] eqn:E;
    [simpl; lra|].
  destruct baselines as [|b bl].
  - cbn [rp_score].
    apply (round_between 1 0 1000); [simpl; lra | simpl; lra |].
    assert (Hm : 0 <= Py.np_mean (map risk_price (c :: rc)) <= 1).
    { apply mean_between; [discriminate|].
      intros x Hx. rewrite <- E in Hx. unfold PolymarketRegional.in_region in Hx.
      apply in_map_iff in Hx. destruct Hx as [m [<- Hm]].
      apply filter_In in Hm. apply Hp. tauto. }
    lra.
  - pose proof (pm_score_bounds (c :: rc) (b :: bl)) as Hb.
    destruct (calculate_polymarket_score_normalised (c :: rc) (b :: bl)) as [s st].
    simpl in *. lra.
Qed.

End PolymarketRegionalFacts.

(** X24: [calculate_polymarket_regional_scores] gives every region an
    entry.  A region without contracts scores the neutral 50.0 with method
    "none"; with contracts and a non-empty baseline dict the score is
    between 0.1 and 99.9; in every mode the stats count each of the
    region's contracts once, as mature or immature; and when all risk
    prices are between 0 and 1 every score is between 0 and 100. *)
Theorem X24_polymarket_regional_scores
        (geo_markets : list geo_market)
        (baselines : option (list (string * baseline))) (rk : string) :
  In rk REGIONS ->
  let bl := match baselines with Some b => b | None => [] end in
  let r := PolymarketRegional.region geo_markets bl rk in
  let st := rp_stats r in
  Py.get rk (calculate_polymarket_regional_scores geo_markets baselines) = Some r
  /\ (PolymarketRegional.in_region rk geo_markets = [] ->
      rp_score r = 50.0 /\ PolymarketRegional.stats_method st = "none"%string)
  /\ (bl <> [] -> 0.1 <= rp_score r <= 99.9)
  /\ PolymarketRegional.stats_num_contracts st
     = List.length (PolymarketRegional.in_region rk geo_markets)
  /\ (PolymarketRegional.stats_mature_count st
      + PolymarketRegional.stats_immature_count st
      = PolymarketRegional.stats_num_contracts st)%nat
  /\ ((forall m, In m geo_markets -> 0 <= risk_price (gm_contract m) <= 1) ->
      0 <= rp_score r <= 100).
Proof.
  intros Hin bl r st.
  destruct (pm_region_counts geo_markets bl rk) as [Hn Hc].
  split; [now apply pm_regional_get|].
  split.
  { intros E. subst st r. unfold PolymarketRegional.region. rewrite E. auto. }
  split.
  { intros Hne. subst r. unfold PolymarketRegional.region.
    destruct (PolymarketRegional.in_region rk geo_markets) as [|c rc];
      [simpl; lra|].
    destruct bl as [|b bl']; [congruence|].
    pose proof (pm_score_bounds (c :: rc) (b :: bl')) as Hb.
    destruct (calculate_polymarket_score_normalised (c :: rc) (b :: bl')) as [s s'].
    exact Hb. }
  split; [exact Hn|]. split; [exact Hc|].
  apply pm_region_score_range.
Qed.

(** X24 for the region europe without contracts or baselines. *)
Lemma X24_polymarket_regional_scores_witness :
  rp_score (PolymarketRegional.region [] [] "europe") = 50.0.
Proof.
  apply (X24_polymarket_regional_scores [] None "europe");
    [left; reflexivity | reflexivity].
Defined.

(** X25: in the refresh pipeline the 50.0 default of
    [calculate_regional_composites] for a region missing from the
    polymarket or markets map is never taken: both producers emit an entry
    with a score for every region, so the published signals are the
    producers' own scores. *)
Theorem X25_pipeline_never_defaults
        (geo_markets : list geo_market)
        (baselines : option (list (string * baseline)))
        (market_data : list (string * ticker_data))
        (gdelt_reg cloudflare_reg : option (list (string * scored_region)))
        (gtrends_reg : option (list (string * gtrends_region)))
        (rk : string) :
  In rk REGIONS ->
  let pm_reg := PolymarketRegional.scored
                  (calculate_polymarket_regional_scores geo_markets baselines) in
  let mkt_reg := calculate_market_regional_scores market_data in
  exists r,
    Py.get rk (calculate_regional_composites pm_reg mkt_reg gdelt_reg gtrends_reg
                 cloudflare_reg) = Some r
    /\ Py.get "polymarket" (signals r)
       = Some (rp_score
                 (PolymarketRegional.region geo_markets
                    (match baselines with Some b => b | None => [] end) rk))
    /\ Py.get "markets" (signals r)
       = Some (Markets.mean_or_50
                 (Markets.scores_of market_data (Markets.tickers_of rk)
                  ++ Markets.scores_of market_data (Markets.tickers_of "global"))).
Proof.
  intros Hin pm_reg mkt_reg.
  eexists. split; [now apply composites_get|].
  destruct (region_fields pm_reg mkt_reg gdelt_reg cloudflare_reg gtrends_reg rk)
    as (_ & _ & ->).
  unfold Regional.sigs. cbn [Py.get String.eqb Ascii.eqb Bool.eqb].
  split; f_equal.
  - unfold Regional.score_or_50, pm_reg, PolymarketRegional.scored,
      calculate_polymarket_regional_scores, REGIONS.
    destruct Hin as [<- | [<- | [<- | []]]]; reflexivity.
  - unfold Regional.score_or_50, mkt_reg.
    now rewrite market_regional_get.
Qed.

(** X25 for the region europe with empty inputs. *)
Lemma X25_pipeline_never_defaults_witness :
  exists r,
    Py.get "europe"
      (calculate_regional_composites
         (PolymarketRegional.scored (calculate_polymarket_regional_scores [] None))
         (calculate_market_regional_scores []) None None None) = Some r
    /\ Py.get "polymarket" (signals r)
       = Some (rp_score (PolymarketRegional.region [] [] "europe")).
Proof.
  destruct (X25_pipeline_never_defaults [] None [] None None None "europe"
              (or_introl eq_refl)) as (r & Hg & Hp & _).
  exists r. split; [exact Hg | exact Hp].
Defined.

(** ** Baseline lookup *)

(** X26: a question has a baseline exactly when it is not empty and at
    least one stored row carries it with a price; the baseline is then
    computed from exactly those rows, in their order: its count is their
    number, which is at least 1, and its mean and std are the rounded mean
    and standard deviation of their prices. *)
Theorem X26_baseline_lookup (rows : list snapshot_row) (q : string) :
  let obs := Baselines.observations q rows in
  (Py.get q (fetch_contract_baselines rows) = None
   <-> q = EmptyString \/ obs = [])
  /\ (forall e, Py.get q (fetch_contract_baselines rows) = Some e ->
                e = Baselines.entry obs
                /\ (1 <= bl_count e)%nat
                /\ bl_count e = List.length obs
                /\ bl_mean e = Py.round (Py.np_mean (map rp obs)) 4
                /\ bl_std e = Py.round (Py.np_std (map rp obs)) 4).
Proof.
  intros obs.
  assert (Hget : Py.get q (fetch_contract_baselines rows)
                 = if String.eqb q EmptyString then None
                   else match obs with
                        | [] => None
                        | _ :: _ => Some (Baselines.entry obs)
                        end).
  { unfold fetch_contract_baselines. subst obs.
    destruct rows as [|r rows]; [destruct (String.eqb q EmptyString); reflexivity|].
    rewrite get_map_entry. unfold Baselines.by_question.
    destruct (String.eqb_spec q EmptyString) as [-> | Hq].
    - now rewrite get_grouped_empty_key.
    - rewrite get_grouped by exact Hq. simpl Py.get at 1.
      destruct (Baselines.observations q (r :: rows)); reflexivity. }
  rewrite Hget. split.
  - destruct (String.eqb_spec q EmptyString) as [-> | Hq]; [tauto|].
    destruct obs; split; auto; try discriminate.
    intros [? | ?]; [contradiction | discriminate].
  - intros e He.
    destruct (String.eqb q EmptyString); [discriminate|].
    destruct obs as [|o obs'] eqn:E; [discriminate|].
    injection He as <-. repeat split. simpl. lia.
Qed.

(** X26 for the single stored observation of the sample question. *)
Lemma X26_baseline_lookup_witness :
  (1 <= bl_count (Baselines.entry (Baselines.observations "Q" one_row)))%nat.
Proof.
  apply (proj2 (X26_baseline_lookup one_row "Q")
               (Baselines.entry (Baselines.observations "Q" one_row))).
  reflexivity.
Defined.

(** ** The Google Trends loop over many turns *)

Section GTrendsLoopFacts.

Lemma gtrends_cycle_publishes (st : gtrends_state) (out : fetch_outcome) (now : R) :
  fetching st = false ->
  fetching (GTrends.cycle st out now) = false
  /\ ((regional (GTrends.cycle st out now) = regional st
       /\ last_updated (GTrends.cycle st out now) = last_updated st)
      \/ (exists data, out = Fetched data /\ data <> []
                       /\ regional (GTrends.cycle st out now) = data
                       /\ last_updated (GTrends.cycle st out now) = now)).
Proof.
  intros Hf. unfold GTrends.cycle. rewrite Hf.
  destruct out as [[|kv data]|]; simpl; auto.
  destruct (GTrends.acceptable _ _); simpl; auto.
  split; [reflexivity|]. right. exists (kv :: data).
  repeat split. discriminate.
Qed.

Lemma gtrends_loop_publishes (turns : list (fetch_outcome * R)) (st : gtrends_state) :
  fetching st = false ->
  let st' := _gtrends_background_loop st turns in
  fetching st' = false
  /\ ((regional st' = regional st /\ last_updated st' = last_updated st)
      \/ (exists data now, In (Fetched data, now) turns /\ data <> []
                           /\ regional st' = data /\ last_updated st' = now)).
Proof.
  unfold _gtrends_background_loop. revert st.
  induction turns as [|[out now] turns IH]; intros st Hf; simpl; [auto|].
  destruct (gtrends_cycle_publishes st out now Hf) as [Hf' Hc].
  destruct (IH _ Hf') as [Hf'' Hl]. split; [exact Hf''|].
  destruct Hl as [[Hr Ht] | (data & t & Hin & Hd & Hr & Ht)].
  - destruct Hc as [[Hr' Ht'] | (data & -> & Hd & Hr' & Ht')].
    + left. split; congruence.
    + right. exists data, now. repeat split; auto; congruence.
  - right. exists data, t. repeat split; auto.
Qed.

End GTrendsLoopFacts.

(** X27: over any sequence of turns of the Google Trends loop, starting
    from the initial state, what is published is either still the initial
    empty payload with timestamp 0 or, unchanged, one of the non-empty
    payloads that were fetched, with the clock reading of its own turn as
    timestamp; the [fetching] flag is clear between turns; and a turn whose
    fetch raises or returns nothing changes nothing. *)
Theorem X27_gtrends_loop_publishes_fetched_payloads
        (turns : list (fetch_outcome * R)) (now : R) :
  let st := _gtrends_background_loop GTrends.initial turns in
  fetching st = false
  /\ ((regional st = [] /\ last_updated st = 0)
      \/ (exists data t, In (Fetched data, t) turns /\ data <> []
                         /\ regional st = data /\ last_updated st = t))
  /\ _gtrends_background_loop st [(Raised, now)] = st
  /\ _gtrends_background_loop st [(Fetched [], now)] = st.
Proof.
  intros st.
  destruct (gtrends_loop_publishes turns GTrends.initial eq_refl) as [Hf Hp].
  fold st in Hf, Hp. split; [exact Hf|]. split; [exact Hp|].
  unfold _gtrends_background_loop, GTrends.cycle. simpl. rewrite Hf.
  destruct st; simpl in *; subst; auto.
Qed.

(** ** ACLED forecast sums *)

Section AcledFacts.

Variable f : cast_sums -> Z.
Variable fv : Z * Z * Z * Z -> Z.
Hypothesis f_zero : f Acled.zero = 0%Z.
Hypothesis f_add : forall s v, f (Acled.add s v) = (f s + fv v)%Z.

(** The sum of one field over the countries. *)
Let total (countries : list (string * cast_sums)) : Z :=
  fold_right Z.add 0%Z (map (fun kc => f (snd kc)) countries).

Lemma add_country_total (c : string) (v : Z * Z * Z * Z)
      (countries : list (string * cast_sums)) :
  total (Acled.add_country c v countries) = (total countries + fv v)%Z.
Proof.
  unfold total. induction countries as [|[k s] rest IH]; simpl.
  - rewrite f_add, f_zero. lia.
  - destruct (String.eqb c k); simpl; [rewrite f_add | rewrite IH]; lia.
Qed.

Lemma sums_agree_from (rows : list cast_row)
      (acc : cast_sums * list (string * cast_sums)) :
  f (fst acc) = total (snd acc) ->
  f (fst (fold_left Acled.step rows acc))
  = total (snd (fold_left Acled.step rows acc)).
Proof.
  revert acc. induction rows as [|row rows IH]; intros acc H; simpl; [exact H|].
  apply IH. unfold Acled.step.
  destruct (cast_forecasts row) as [v|]; [|exact H].
  cbn [fst snd]. rewrite f_add, add_country_total. lia.
Qed.

End AcledFacts.

Section AcledKeys.

Lemma add_country_keys (c : string) (v : Z * Z * Z * Z)
      (countries : list (string * cast_sums)) :
  map fst (Acled.add_country c v countries)
  = if existsb (String.eqb c) (map fst countries)
    then map fst countries else map fst countries ++ [c].
Proof.
  induction countries as [|[k s] rest IH]; simpl; [reflexivity|].
  destruct (String.eqb c k); simpl; [reflexivity|].
  rewrite IH. destruct (existsb _ _); reflexivity.
Qed.

Lemma add_country_nodup (c : string) (v : Z * Z * Z * Z)
      (countries : list (string * cast_sums)) :
  NoDup (map fst countries) ->
  NoDup (map fst (Acled.add_country c v countries)).
Proof.
  intros H. rewrite add_country_keys.
  destruct (existsb (String.eqb c) (map fst countries)) eqn:E; [exact H|].
  apply NoDup_app; [exact H | constructor; [intros [] | constructor] |].
  intros k Hk [<- | []].
  assert (existsb (String.eqb c) (map fst countries) = true).
  { apply existsb_exists. exists c. split; [exact Hk | apply String.eqb_refl]. }
  congruence.
Qed.

Lemma keys_nodup_from (rows : list cast_row)
      (acc : cast_sums * list (string * cast_sums)) :
  NoDup (map fst (snd acc)) ->
  NoDup (map fst (snd (fold_left Acled.step rows acc))).
Proof.
  revert acc. induction rows as [|row rows IH]; intros acc H; simpl; [exact H|].
  apply IH. unfold Acled.step.
  destruct (cast_forecasts row) as [v|]; [|exact H].
  cbn [snd]. now apply add_country_nodup.
Qed.

Lemma add_country_length (c : string) (v : Z * Z * Z * Z)
      (countries : list (string * cast_sums)) :
  (List.length (Acled.add_country c v countries) <= S (List.length countries))%nat.
Proof.
  induction countries as [|[k s] rest IH]; simpl; [lia|].
  destruct (String.eqb c k); simpl; lia.
Qed.

Lemma countries_length_from (rows : list cast_row)
      (acc : cast_sums * list (string * cast_sums)) :
  (List.length (snd (fold_left Acled.step rows acc))
   <= List.length (snd acc) + List.length rows)%nat.
Proof.
  revert acc. induction rows as [|row rows IH]; intros acc; simpl; [lia|].
  specialize (IH (Acled.step acc row)).
  assert (List.length (snd (Acled.step acc row)) <= S (List.length (snd acc)))%nat.
  { unfold Acled.step. destruct (cast_forecasts row); cbn [snd]; [|lia].
    apply add_country_length. }
  lia.
Qed.

End AcledKeys.

(** X28: in the result of [sum_cast_forecasts] each of the four totals
    equals the sum of that figure over the per-country entries, whatever
    rows were skipped; no country appears twice; and there are at most as
    many countries as rows. *)
Theorem X28_cast_totals_match_countries (cast_data : list cast_row) :
  let totals := fst (sum_cast_forecasts cast_data) in
  let countries := snd (sum_cast_forecasts cast_data) in
  cs_total totals
  = fold_right Z.add 0%Z (map (fun kc => cs_total (snd kc)) countries)
  /\ cs_battles totals
     = fold_right Z.add 0%Z (map (fun kc => cs_battles (snd kc)) countries)
  /\ cs_erv totals
     = fold_right Z.add 0%Z (map (fun kc => cs_erv (snd kc)) countries)
  /\ cs_vac totals
     = fold_right Z.add 0%Z (map (fun kc => cs_vac (snd kc)) countries)
  /\ NoDup (map fst countries)
  /\ (List.length countries <= List.length cast_data)%nat.
Proof.
  intros totals countries. subst totals countries. unfold sum_cast_forecasts.
  split; [|split; [|split; [|split; [|split]]]].
  - apply (sums_agree_from cs_total (fun v => fst (fst (fst v))));
      [reflexivity | intros s [[[t b] e] v]; reflexivity | reflexivity].
  - apply (sums_agree_from cs_battles (fun v => snd (fst (fst v))));
      [reflexivity | intros s [[[t b] e] v]; reflexivity | reflexivity].
  - apply (sums_agree_from cs_erv (fun v => snd (fst v)));
      [reflexivity | intros s [[[t b] e] v]; reflexivity | reflexivity].
  - apply (sums_agree_from cs_vac (fun v => snd v));
      [reflexivity | intros s [[[t b] e] v]; reflexivity | reflexivity].
  - apply keys_nodup_from. constructor.
  - apply (countries_length_from cast_data (Acled.zero, [])).
Qed.

(** ** The ACLED cache *)

Section CacheFacts.

Context {V : Type}.

Lemma get_replace_same (key : string) (e : cache_entry V)
      (cache : list (string * cache_entry V)) :
  Py.get key cache <> None -> Py.get key (Cache.replace key e cache) = Some e.
Proof.
  induction cache as [|[k e'] rest IH]; simpl; [congruence|].
  destruct (String.eqb key k) eqn:E; simpl; rewrite E; auto.
Qed.

Lemma get_replace_other (key k' : string) (e : cache_entry V)
      (cache : list (string * cache_entry V)) :
  k' <> key -> Py.get k' (Cache.replace key e cache) = Py.get k' cache.
Proof.
  intros Hne. induction cache as [|[k e'] rest IH]; simpl; [reflexivity|].
  destruct (String.eqb_spec key k) as [-> | Hk]; simpl.
  - destruct (String.eqb_spec k' k); [contradiction | reflexivity].
  - now rewrite IH.
Qed.

End CacheFacts.

(** X30: after [set_cache] stores data under an existing key at time
    [now], [get_cached] returns the updated entry, stamped [now], as long
    as less than the entry's ttl has passed, and [None] from then on; the
    other keys are untouched.  [set_cache] under an unknown key changes
    nothing, and an entry whose data is [None] is never returned. *)
Theorem X30_cache_round_trip
        {V : Type} (cache : list (string * cache_entry V)) (key : string)
        (kw : cache_kw V) (now later : R) :
  let cache' := set_cache cache key kw now in
  (forall e v,
      Py.get key cache = Some e -> kw_data kw = Some (Some v) ->
      let e' := Cache.updated e kw now in
      ce_data e' = Some v /\ ce_time e' = now
      /\ (later - now < ce_ttl e' -> get_cached cache' key later = Some e')
      /\ (ce_ttl e' <= later - now -> get_cached cache' key later = None))
  /\ (forall k', k' <> key -> Py.get k' cache' = Py.get k' cache)
  /\ (Py.get key cache = None -> cache' = cache)
  /\ (forall c, Py.get key cache = Some c -> ce_data c = None ->
                get_cached cache key later = None).
Proof.
  intros cache'. split; [|split; [|split]].
  - intros e v He Hd e'.
    assert (Hg : Py.get key cache' = Some e').
    { subst cache'. unfold set_cache. rewrite He.
      apply get_replace_same. congruence. }
    assert (Hdata : ce_data e' = Some v).
    { subst e'. unfold Cache.updated. cbn [ce_data]. now rewrite Hd. }
    split; [exact Hdata|]. split; [reflexivity|].
    unfold get_cached. rewrite Hg, Hdata. unfold Py.Rltb.
    replace (ce_time e') with now by reflexivity.
    split; intros H; destruct (Rlt_dec (later - now) (ce_ttl e'));
      try reflexivity; lra.
  - intros k' Hne. subst cache'. unfold set_cache.
    destruct (Py.get key cache); [now apply get_replace_other | reflexivity].
  - intros Hn. subst cache'. unfold set_cache. now rewrite Hn.
  - intros c Hc Hd. unfold get_cached. now rewrite Hc, Hd.
Qed.

(** X30 for the initial cache and a first ACLED payload stored at time 10. *)
Lemma X30_cache_round_trip_witness :
  get_cached
    (set_cache (@Cache.initial nat) "acled"
       {| kw_data := Some (Some 7%nat); kw_stats := None; kw_score := None;
          kw_raw := None; kw_prev_raw := None; kw_time := None; kw_ttl := None |}
       10)
    "acled" 20
  = Some {| ce_data := Some 7%nat; ce_stats := None; ce_score := None;
            ce_raw := None; ce_prev_raw := None; ce_time := 10; ce_ttl := 3600 |}.
Proof.
  refine (proj1 (proj2 (proj2
            (proj1 (X30_cache_round_trip (@Cache.initial nat) "acled"
                      {| kw_data := Some (Some 7%nat); kw_stats := None;
                         kw_score := None; kw_raw := None; kw_prev_raw := None;
                         kw_time := None; kw_ttl := None |} 10 20)
                   _ 7%nat eq_refl eq_refl))) _).
  simpl. lra.
Defined.

(** ** Contract regions *)

Section RegionFacts.

Lemma prefix_spec (kw st : string) :
  String.prefix kw st = true <-> exists post, st = (kw ++ post)%string.
Proof.
  revert st. induction kw as [|a kw IH]; intros st; simpl.
  - split; [intros _; now exists st | intros _; destruct st; reflexivity].
  - destruct st as [|b st]; simpl;
      [split; [discriminate | intros [post [=]]]|].
    destruct (Ascii.ascii_dec a b) as [-> | Hne].
    + rewrite IH. split; intros [post H]; exists post; congruence.
    + split; [discriminate | intros [post [= ? _]]; congruence].
Qed.

Lemma contains_unfold (kw st : string) :
  Region.contains kw st
  = if String.prefix kw st then true
    else match st with
         | EmptyString => false
         | String _ rest => Region.contains kw rest
         end.
Proof. destruct st; reflexivity. Qed.

Lemma contains_spec (kw st : string) :
  Region.contains kw st = true
  <-> exists pre post, st = (pre ++ kw ++ post)%string.
Proof.
  induction st as [|b st IH]; rewrite contains_unfold.
  - destruct (String.prefix kw EmptyString) eqn:P.
    + split; [|reflexivity]. intros _.
      apply prefix_spec in P. destruct P as [post P].
      exists EmptyString, post. exact P.
    + split; [discriminate|]. intros (pre & post & H).
      destruct pre as [|c pre]; [|discriminate]. simpl in H.
      assert (String.prefix kw EmptyString = true)
        by (apply prefix_spec; now exists post).
      congruence.
  - destruct (String.prefix kw (String b st)) eqn:P.
    + split; [|reflexivity]. intros _.
      apply prefix_spec in P. destruct P as [post P].
      exists EmptyString, post. exact P.
    + rewrite IH. split.
      * intros (pre & post & ->). exists (String b pre), post. reflexivity.
      * intros (pre & post & H). destruct pre as [|c pre].
        -- simpl in H.
           assert (String.prefix kw (String b st) = true)
             by (apply prefix_spec; now exists post).
           congruence.
        -- simpl in H. injection H as _ ->. now exists pre, post.
Qed.

Lemma max_hits_spec (rest : list (string * nat)) (best : string * nat) :
  let r := Region.max_hits best rest in
  In r (best :: rest)
  /\ (snd best <= snd r)%nat
  /\ (forall rh, In rh rest -> (snd rh <= snd r)%nat).
Proof.
  revert best. induction rest as [|rh rest IH]; intros best; simpl.
  - split; [now left|]. split; [lia | contradiction].
  - destruct (Nat.ltb_spec (snd best) (snd rh)) as [Hlt|Hge].
    + destruct (IH rh) as (Hin & Hb & Hall). simpl in Hin.
      split; [tauto|]. split; [lia|].
      intros x [<- | Hx]; [exact Hb | now apply Hall].
    + destruct (IH best) as (Hin & Hb & Hall). simpl in Hin.
      split; [tauto|]. split; [exact Hb|].
      intros x [<- | Hx]; [lia | now apply Hall].
Qed.

Lemma hits_In (st : string) (rk : string) (h : nat) :
  In (rk, h) (Region.hits st)
  <-> exists kws, In (rk, kws) REGION_KEYWORDS
                  /\ h = Region.hit_count kws st /\ (0 < h)%nat.
Proof.
  unfold Region.hits. rewrite filter_In, in_map_iff. cbn [snd]. split.
  - intros [[[rk' kws] [[= <- <-] Hin]] Hpos].
    exists kws. apply Nat.ltb_lt in Hpos. auto.
  - intros (kws & Hin & -> & Hpos). split.
    + exists (rk, kws). auto.
    + now apply Nat.ltb_lt.
Qed.

(** [max_hits] returns the first entry with the largest count. *)
Lemma max_hits_first (rest : list (string * nat)) (best : string * nat) :
  exists pre post,
    best :: rest = pre ++ Region.max_hits best rest :: post
    /\ (forall x, In x pre -> (snd x < snd (Region.max_hits best rest))%nat)
    /\ (forall x, In x post -> (snd x <= snd (Region.max_hits best rest))%nat).
Proof.
  revert best. induction rest as [|rh rest IH]; intros best; simpl.
  - exists [], []. repeat split; intros x [].
  - destruct (Nat.ltb_spec (snd best) (snd rh)) as [Hlt|Hge].
    + destruct (IH rh) as (pre & post & Heq & Hpre & Hpost).
      set (r := Region.max_hits rh rest) in *.
      assert (Hrh : (snd rh <= snd r)%nat).
      { destruct pre as [|p pre]; simpl in Heq; injection Heq as Hh Ht.
        - rewrite Hh. lia.
        - subst p. specialize (Hpre rh (or_introl eq_refl)). lia. }
      exists (best :: pre), post. rewrite Heq. split; [reflexivity|].
      split; [|exact Hpost].
      intros x [<- | Hx]; [lia | now apply Hpre].
    + destruct (IH best) as (pre & post & Heq & Hpre & Hpost).
      set (r := Region.max_hits best rest) in *.
      destruct pre as [|p pre]; simpl in Heq; injection Heq as Hh Ht.
      * exists [], (rh :: post). rewrite <- Hh, Ht. split; [reflexivity|].
        split; [intros x []|].
        intros x [<- | Hx]; [lia | rewrite Hh; now apply Hpost].
      * subst p. exists (best :: rh :: pre), post. rewrite Ht.
        split; [reflexivity|]. split; [|exact Hpost].
        pose proof (Hpre best (or_introl eq_refl)) as Hb.
        intros x [<- | [<- | Hx]]; [exact Hb | lia |].
        apply Hpre. now right.
Qed.

(** A place in a filtered image goes back to a place in the list. *)
Lemma filter_map_split {A B : Type} (f : B -> bool) (g : A -> B) (l : list A)
      (pre' post' : list B) (x : B) :
  filter f (map g l) = pre' ++ x :: post' ->
  exists pre y post,
    l = pre ++ y :: post /\ g y = x
    /\ filter f (map g pre) = pre' /\ filter f (map g post) = post'.
Proof.
  revert pre'. induction l as [|a l IH]; intros pre' H; simpl in H.
  - destruct pre'; discriminate.
  - destruct (f (g a)) eqn:E.
    + destruct pre' as [|p pre']; simpl in H; injection H as Hh Ht.
      * exists [], a, l. simpl. auto.
      * destruct (IH pre' Ht) as (pre & y & post & -> & Hy & Hp & Hq).
        exists (a :: pre), y, post. simpl. rewrite E, Hp, Hh. auto.
    + destruct (IH pre' H) as (pre & y & post & -> & Hy & Hp & Hq).
      exists (a :: pre), y, post. simpl. rewrite E. auto.
Qed.

(** The answer when no global keyword occurs and some region is hit. *)
Lemma first_best_region (st : string) :
  existsb (fun gk => Region.contains gk st) GLOBAL_KEYWORDS = false ->
  Region.hits st <> [] ->
  exists pre kws post,
    REGION_KEYWORDS = pre ++ (classify_contract_region st, kws) :: post
    /\ (0 < Region.hit_count kws st)%nat
    /\ (forall rc, In rc pre ->
          (Region.hit_count (snd rc) st < Region.hit_count kws st)%nat)
    /\ (forall rc, In rc post ->
          (Region.hit_count (snd rc) st <= Region.hit_count kws st)%nat).
Proof.
  intros Hg Hne. unfold classify_contract_region. rewrite Hg.
  destruct (Region.hits st) as [|rh rest] eqn:E; [congruence|].
  destruct (max_hits_first rest rh) as (pre' & post' & Heq & Hpre & Hpost).
  set (r := Region.max_hits rh rest) in *.
  rewrite <- E in Heq. unfold Region.hits in Heq.
  destruct (filter_map_split _ _ _ _ _ _ Heq)
    as (pre & [rk kws] & post & HL & Hy & Hp & Hq).
  cbn [fst snd] in Hy.
  assert (Hpos : (0 < snd r)%nat).
  { assert (Hin : In r (Region.hits st)).
    { unfold Region.hits. rewrite Heq. apply in_or_app. right. now left. }
    destruct r as [rk' h]. apply hits_In in Hin.
    destruct Hin as (kws0 & _ & _ & Hh). exact Hh. }
  rewrite <- Hy in Hpos |- *. cbn [fst snd] in Hpos |- *.
  exists pre, kws, post. split; [exact HL|]. split; [exact Hpos|].
  assert (Hsnd : snd r = Region.hit_count kws st) by (rewrite <- Hy; reflexivity).
  split.
  - intros rc Hin.
    destruct (Nat.eq_dec (Region.hit_count (snd rc) st) 0) as [-> | Hnz];
      [exact Hpos|].
    rewrite <- Hsnd. apply (Hpre (fst rc, Region.hit_count (snd rc) st)).
    rewrite <- Hp. apply filter_In. split.
    + apply in_map_iff. exists rc. auto.
    + apply Nat.ltb_lt. cbn [snd]. lia.
  - intros rc Hin.
    destruct (Nat.eq_dec (Region.hit_count (snd rc) st) 0) as [-> | Hnz]; [lia|].
    rewrite <- Hsnd. apply (Hpost (fst rc, Region.hit_count (snd rc) st)).
    rewrite <- Hq. apply filter_In. split.
    + apply in_map_iff. exists rc. auto.
    + apply Nat.ltb_lt. cbn [snd]. lia.
Qed.

Lemma region_keys : map fst REGION_KEYWORDS = REGIONS.
Proof. reflexivity. Qed.

Lemma global_is_no_region : ~ In "global"%string REGIONS.
Proof. unfold REGIONS. simpl. intuition discriminate. Qed.

End RegionFacts.

(** X29: [classify_contract_region] answers "global" or one of the region
    keys.  A text in which a global keyword occurs is "global" whatever
    else it mentions, and so is a text without any regional keyword.  A
    text without global keyword in which some regional keyword occurs gets
    a region, namely the first region of the table with the largest number
    of keyword hits: every region listed before it has fewer hits and no
    region has more.  A keyword counts when it occurs anywhere in the text
    as a substring.  So "will russia invade ukraine" is europe, "iran
    strikes israel" is middle_east, and "china and taiwan or russia and
    ukraine", a tie of two hits each, is europe. *)
Theorem X29_contract_region (st : string) :
  let r := classify_contract_region st in
  (r = "global"%string \/ In r REGIONS)
  /\ ((exists gk pre post, In gk GLOBAL_KEYWORDS
                           /\ st = (pre ++ gk ++ post)%string) ->
      r = "global"%string)
  /\ ((forall rk kws, In (rk, kws) REGION_KEYWORDS ->
                      Region.hit_count kws st = 0%nat) ->
      r = "global"%string)
  /\ (r <> "global"%string ->
      exists kws, In (r, kws) REGION_KEYWORDS
                  /\ (0 < Region.hit_count kws st)%nat
                  /\ forall rk' kws', In (rk', kws') REGION_KEYWORDS ->
                       (Region.hit_count kws' st <= Region.hit_count kws st)%nat)
  /\ (forall kws, Region.hit_count kws st
                  = List.length
                      (filter (fun kw => Region.contains kw st) kws))
  /\ (forall kw, Region.contains kw st = true
                 <-> exists pre post, st = (pre ++ kw ++ post)%string)
  /\ ((forall gk pre post, In gk GLOBAL_KEYWORDS ->
                           st <> (pre ++ gk ++ post)%string) ->
      (exists rk kws, In (rk, kws) REGION_KEYWORDS
                      /\ (0 < Region.hit_count kws st)%nat) ->
      In r REGIONS
      /\ exists pre kws post,
           REGION_KEYWORDS = pre ++ (r, kws) :: post
           /\ (0 < Region.hit_count kws st)%nat
           /\ (forall rc, In rc pre ->
                 (Region.hit_count (snd rc) st < Region.hit_count kws st)%nat)
           /\ (forall rc, In rc post ->
                 (Region.hit_count (snd rc) st <= Region.hit_count kws st)%nat))
  /\ classify_contract_region "will russia invade ukraine" = "europe"%string
  /\ classify_contract_region "iran strikes israel" = "middle_east"%string
  /\ classify_contract_region "china and taiwan or russia and ukraine"
     = "europe"%string.
Proof.
  intros r.
  assert (Hmain : r = "global"%string
            \/ (existsb (fun gk => Region.contains gk st) GLOBAL_KEYWORDS = false
                /\ exists h, In (r, h) (Region.hits st)
                             /\ forall rh, In rh (Region.hits st) ->
                                           (snd rh <= h)%nat)).
  { subst r. unfold classify_contract_region.
    destruct (existsb _ GLOBAL_KEYWORDS); [now left|].
    destruct (Region.hits st) as [|rh rest] eqn:E; [now left|].
    right. split; [reflexivity|].
    destruct (max_hits_spec rest rh) as (Hin & Hb & Hall).
    exists (snd (Region.max_hits rh rest)). split.
    - now rewrite <- surjective_pairing.
    - intros x [<- | Hx]; [exact Hb | now apply Hall]. }
  split; [|split; [|split; [|split; [|split;
    [intros; reflexivity
    |split; [exact (fun kw => contains_spec kw st)|split; [|repeat split]]]]]]].
  - destruct Hmain as [-> | (_ & h & Hin & _)]; [now left|]. right.
    apply hits_In in Hin. destruct Hin as (kws & Hin & _).
    rewrite <- region_keys. apply in_map_iff. exists (r, kws). auto.
  - intros (gk & pre & post & Hgk & Hst).
    subst r. unfold classify_contract_region.
    assert (existsb (fun gk => Region.contains gk st) GLOBAL_KEYWORDS = true)
      as ->; [|reflexivity].
    apply existsb_exists. exists gk. split; [exact Hgk|].
    apply contains_spec. now exists pre, post.
  - intros Hnone. destruct Hmain as [-> | (_ & h & Hin & _)]; [reflexivity|].
    apply hits_In in Hin. destruct Hin as (kws & Hin & -> & Hpos).
    rewrite (Hnone r kws Hin) in Hpos. lia.
  - intros Hng. destruct Hmain as [-> | (_ & h & Hin & Hmax)]; [congruence|].
    apply hits_In in Hin. destruct Hin as (kws & Hin & -> & Hpos).
    exists kws. split; [exact Hin|]. split; [exact Hpos|].
    intros rk' kws' Hin'.
    destruct (Nat.eq_dec (Region.hit_count kws' st) 0) as [-> | Hnz]; [lia|].
    apply (Hmax (rk', Region.hit_count kws' st)).
    apply hits_In. exists kws'. repeat split; auto. lia.
  - intros Hnog (rk & kws & Hin & Hpos).
    assert (Hg : existsb (fun gk => Region.contains gk st) GLOBAL_KEYWORDS = false).
    { destruct (existsb _ GLOBAL_KEYWORDS) eqn:E; [|reflexivity].
      apply existsb_exists in E. destruct E as (gk & Hgk & Hc).
      apply contains_spec in Hc. destruct Hc as (pre & post & Hst).
      exfalso. exact (Hnog gk pre post Hgk Hst). }
    assert (Hne : Region.hits st <> []).
    { intros E.
      assert (Hh : In (rk, Region.hit_count kws st) (Region.hits st))
        by (apply hits_In; exists kws; auto).
      rewrite E in Hh. exact Hh. }
    destruct (first_best_region st Hg Hne) as (pre & kws' & post & HL & H1 & H2 & H3).
    fold r in HL. split.
    + rewrite <- region_keys, HL, map_app. apply in_or_app. right. now left.
    + exists pre, kws', post. auto.
Qed.

(** X29 for a text that names a region and a global keyword. *)
Lemma X29_contract_region_witness :
  classify_contract_region "world war over ukraine" = "global"%string.
Proof.
  apply (proj1 (proj2 (X29_contract_region "world war over ukraine"))).
  exists "world war"%string, EmptyString, " over ukraine"%string.
  split; [|reflexivity]. unfold GLOBAL_KEYWORDS. simpl. tauto.
Defined.
